(** * EmulatedVolume: mount and unmount of the emulated storage volume

    A shallow embedding of [EmulatedVolume.cpp] (vold).  The object's fields
    and the part of the operating system the code talks to (mount table,
    boot-time clock, errno, the spawned sdcardfs child) are an explicit state;
    every call that leaves the class is answered by an oracle of the
    environment and recorded, with its answer, in a trace.  The methods are
    written in a small state monad with early return. *)

From Stdlib Require Import ZArith List String Ascii Bool Lia DecimalString.
From Stdlib Require DecimalPos DecimalN DecimalZ.
Import ListNotations.
Open Scope string_scope.
Open Scope Z_scope.

(** ** Status codes, results and formatting *)

Definition status_t := Z.

Definition OK : status_t := 0.

(** Linux [errno.h] values. *)
Definition EIO : Z := 5.

Definition ETIMEDOUT : Z := 110.

(** Modelled from the spec: the MountFlags enumeration (VolumeBase.h) is not
    among the sources; the spec names two flags, primary and visible, which
    the code tests with a bitwise and.  They are the two lowest bits. *)
Definition kPrimary : Z := 1.

Definition kVisible : Z := 2.

Definition kSdcardFsPath : string := "/system/bin/sdcard".

(** Modelled from the spec: the collaborators whose failure the code reports
    as [-errno] are specified as returning [Result<_, OsError>]; an OsError
    is a (positive) errno value. *)
Inductive Result (A : Type) : Type :=
| Ok (a : A)
| Err (code : positive).

Arguments Ok {A} a.
Arguments Err {A} code.

(** [%d] of StringPrintf.  [%s] is always given a [c_str()]; the strings of
    this model are C strings (no embedded NUL), so [%s] is concatenation. *)
Definition fmt_d (z : Z) : string := NilZero.string_of_int (Z.to_int z).

(** [%u]: the int reinterpreted as a 32-bit unsigned. *)
Definition fmt_u (z : Z) : string :=
  NilZero.string_of_uint (N.to_uint (Z.to_N (z mod 4294967296))).

(** ** The mount table *)

Inductive MountEntry : Type :=
| BindEntry (source target : string)
| OverlayEntry (target : string)
| BridgeEntry (userId : Z) (internalPath label : string).

Definition mounted_at (p : string) (e : MountEntry) : bool :=
  match e with
  | BindEntry _ t => String.eqb t p
  | OverlayEntry t => String.eqb t p
  | BridgeEntry _ _ _ => false
  end.

Definition is_bridge (u : Z) (i l : string) (e : MountEntry) : bool :=
  match e with
  | BridgeEntry u' i' l' => Z.eqb u' u && String.eqb i' i && String.eqb l' l
  | _ => false
  end.

Definition umount (p : string) (t : list MountEntry) : list MountEntry :=
  filter (fun e => negb (mounted_at p e)) t.

Definition umount_bridge (u : Z) (i l : string) (t : list MountEntry)
  : list MountEntry :=
  filter (fun e => negb (is_bridge u i l e)) t.

Definition overlay_views (label : string) : list MountEntry :=
  [ OverlayEntry ("/mnt/runtime/default/" ++ label);
    OverlayEntry ("/mnt/runtime/read/" ++ label);
    OverlayEntry ("/mnt/runtime/write/" ++ label);
    OverlayEntry ("/mnt/runtime/full/" ++ label) ].

(** ** Calls that leave the class, with their answers *)

Inductive Event : Type :=
| EvPrepareDir (path : string) (mode uid gid : Z) (res : Result unit)
| EvGetDevice (path : string) (dev : Z)
| EvFork (res : Result positive)
| EvExecl (path : string) (argv : list string)
| EvSystemTime (ns : Z)
| EvUsleep (us : Z)
| EvWaitpid (pid : Z)
| EvMountUserFuse (userId : Z) (internalPath label : string) (result : Z)
| EvOnVolumeChecking (path internalPath : string) (is_ready : bool)
| EvFdReset
| EvAccess (path : string) (present : bool)
| EvBindMount (source target : string) (status : status_t)
| EvUnmountTree (path : string) (status : status_t)
| EvUnmountUserFuse (userId : Z) (internalPath label : string)
    (res : Result unit)
| EvForceUnmount (path : string) (status : status_t)
| EvRmdir (path : string)
| EvKillProcessesUsingPath (path : string).

(** ** State *)

Record World : Type := mkWorld {
  mounts : list MountEntry;
  clock : Z;                       (* SYSTEM_TIME_BOOTTIME, nanoseconds *)
  errno : Z;
  child : option string;           (* sdcardfs child running, with its label *)
  trace : list Event
}.

(** IVoldMountCallback::onVolumeChecking, as the value it leaves in
    [is_ready] for a path and an internal path. *)
Definition Callback := string -> string -> bool.

Record Volume : Type := mkVolume {
  (* VolumeBase *)
  mId : string;
  mPath : string;
  mInternalPath : string;
  mMountFlags : Z;
  mMountUserId : Z;
  mMountCallback : option Callback;
  (* EmulatedVolume *)
  mRawPath : string;
  mLabel : string;
  mFuseMounted : bool;
  mUseSdcardFs : bool;
  mSdcardFsDefault : string;
  mSdcardFsRead : string;
  mSdcardFsWrite : string;
  mSdcardFsFull : string
}.

Record St : Type := mkSt { vol : Volume; world : World }.

(** The environment: what the operating system and the other classes answer,
    as functions of the world at the moment of the call. *)
Record Env : Type := mkEnv {
  env_fs_prepare_dir : World -> string -> Z -> Z -> Z -> Result unit;
  env_GetDevice : World -> string -> Z;
  env_prop_fuse : World -> bool;
  env_fork : World -> Result positive;
  env_sdcardfs_mounts : World -> bool;
  env_usleep_overshoot : World -> N;
  env_MountUserFuse : World -> Z -> string -> string -> Z;
  env_access : World -> string -> bool;
  env_BindMount : World -> string -> string -> status_t;
  env_UnmountTree : World -> string -> status_t;
  env_UnmountUserFuse : World -> Z -> string -> string -> Result unit;
  env_ForceUnmount : World -> string -> status_t
}.

Definition set_mounts (m : list MountEntry) (w : World) : World :=
  mkWorld m (clock w) (errno w) (child w) (trace w).

Definition set_clock (c : Z) (w : World) : World :=
  mkWorld (mounts w) c (errno w) (child w) (trace w).

Definition set_errno (e : Z) (w : World) : World :=
  mkWorld (mounts w) (clock w) e (child w) (trace w).

Definition set_child (c : option string) (w : World) : World :=
  mkWorld (mounts w) (clock w) (errno w) c (trace w).

Definition log (e : Event) (w : World) : World :=
  mkWorld (mounts w) (clock w) (errno w) (child w) (trace w ++ [e]).

(** The sdcardfs child runs beside the caller; when the environment says it
    has done its work, the four views of its label are mounted. *)
Definition child_progress (env : Env) (w : World) : World :=
  let done :=
    match child w with
    | Some _ => env_sdcardfs_mounts env w
    | None => false
    end in
  mkWorld
    (match child w with
     | Some label => if done then mounts w ++ overlay_views label else mounts w
     | None => mounts w
     end)
    (clock w) (errno w)
    (if done then None else child w)
    (trace w).

(** A failure reported through errno leaves its error number there. *)
Definition set_errno_of {A} (r : Result A) (w : World) : World :=
  mkWorld (mounts w) (clock w)
    (match r with Ok _ => errno w | Err e => Zpos e end)
    (child w) (trace w).

(** A mount (an unmount) that succeeded changes the mount table. *)
Definition mounted (st : Z) (e : MountEntry) (w : World) : World :=
  set_mounts (if st =? 0 then mounts w ++ [e] else mounts w) w.

Definition unmounted (st : Z) (p : string) (w : World) : World :=
  set_mounts (if st =? 0 then umount p (mounts w) else mounts w) w.

(** ** The monad: state, early [return], and fuel for the one loop *)

Inductive Outcome (A : Type) : Type :=
| Next (a : A)
| Return (r : status_t).

Arguments Next {A} a.
Arguments Return {A} r.

Definition M (A : Type) : Type := St -> option (Outcome A * St).

Definition ret {A} (a : A) : M A := fun s => Some (Next a, s).

Definition bind {A B} (m : M A) (k : A -> M B) : M B :=
  fun s =>
    match m s with
    | Some (Next a, s') => k a s'
    | Some (Return r, s') => Some (Return r, s')
    | None => None
    end.

Definition return_ {A} (r : status_t) : M A := fun s => Some (Return r, s).

Notation "x <- m ;; k" := (bind m (fun x => k))
  (at level 61, m at next level, right associativity).

Notation "m ;;; k" := (bind m (fun _ => k))
  (at level 61, right associativity).

Definition when_ (b : bool) (m : M unit) : M unit := if b then m else ret tt.

(** A method call: an early return ends the callee, not the caller. *)
Definition call (m : M status_t) (s : St) : option (status_t * St) :=
  match m s with
  | Some (Next r, s') => Some (r, s')
  | Some (Return r, s') => Some (r, s')
  | None => None
  end.

Definition invoke (f : St -> option (status_t * St)) : M status_t :=
  fun s =>
    match f s with
    | Some (r, s') => Some (Next r, s')
    | None => None
    end.

Definition gets {A} (f : St -> A) : M A := fun s => Some (Next (f s), s).

Definition modify_vol (f : Volume -> Volume) : M unit :=
  fun s => Some (Next tt, mkSt (f (vol s)) (world s)).

Definition modify_world (f : World -> World) : M unit :=
  fun s => Some (Next tt, mkSt (vol s) (f (world s))).

Definition emit (e : Event) : M unit := modify_world (log e).

(** ** Field access (VolumeBase getters and setters, EmulatedVolume fields) *)

Definition set_mPath (p : string) (v : Volume) : Volume :=
  mkVolume (mId v) p (mInternalPath v) (mMountFlags v) (mMountUserId v)
    (mMountCallback v) (mRawPath v) (mLabel v) (mFuseMounted v)
    (mUseSdcardFs v) (mSdcardFsDefault v) (mSdcardFsRead v)
    (mSdcardFsWrite v) (mSdcardFsFull v).

Definition set_mInternalPath (p : string) (v : Volume) : Volume :=
  mkVolume (mId v) (mPath v) p (mMountFlags v) (mMountUserId v)
    (mMountCallback v) (mRawPath v) (mLabel v) (mFuseMounted v)
    (mUseSdcardFs v) (mSdcardFsDefault v) (mSdcardFsRead v)
    (mSdcardFsWrite v) (mSdcardFsFull v).

Definition set_mFuseMounted (b : bool) (v : Volume) : Volume :=
  mkVolume (mId v) (mPath v) (mInternalPath v) (mMountFlags v)
    (mMountUserId v) (mMountCallback v) (mRawPath v) (mLabel v) b
    (mUseSdcardFs v) (mSdcardFsDefault v) (mSdcardFsRead v)
    (mSdcardFsWrite v) (mSdcardFsFull v).

Definition set_mSdcardFsDefault (p : string) (v : Volume) : Volume :=
  mkVolume (mId v) (mPath v) (mInternalPath v) (mMountFlags v)
    (mMountUserId v) (mMountCallback v) (mRawPath v) (mLabel v)
    (mFuseMounted v) (mUseSdcardFs v) p (mSdcardFsRead v)
    (mSdcardFsWrite v) (mSdcardFsFull v).

Definition set_mSdcardFsRead (p : string) (v : Volume) : Volume :=
  mkVolume (mId v) (mPath v) (mInternalPath v) (mMountFlags v)
    (mMountUserId v) (mMountCallback v) (mRawPath v) (mLabel v)
    (mFuseMounted v) (mUseSdcardFs v) (mSdcardFsDefault v) p
    (mSdcardFsWrite v) (mSdcardFsFull v).

Definition set_mSdcardFsWrite (p : string) (v : Volume) : Volume :=
  mkVolume (mId v) (mPath v) (mInternalPath v) (mMountFlags v)
    (mMountUserId v) (mMountCallback v) (mRawPath v) (mLabel v)
    (mFuseMounted v) (mUseSdcardFs v) (mSdcardFsDefault v)
    (mSdcardFsRead v) p (mSdcardFsFull v).

Definition set_mSdcardFsFull (p : string) (v : Volume) : Volume :=
  mkVolume (mId v) (mPath v) (mInternalPath v) (mMountFlags v)
    (mMountUserId v) (mMountCallback v) (mRawPath v) (mLabel v)
    (mFuseMounted v) (mUseSdcardFs v) (mSdcardFsDefault v)
    (mSdcardFsRead v) (mSdcardFsWrite v) p.

Definition field {A} (f : Volume -> A) : M A := gets (fun s => f (vol s)).

Definition getMountFlags : M Z := field mMountFlags.

Definition getMountUserId : M Z := field mMountUserId.

Definition getPath : M string := field mPath.

Definition getInternalPath : M string := field mInternalPath.

Definition getMountCallback : M (option Callback) := field mMountCallback.

Definition setPath (p : string) : M unit := modify_vol (set_mPath p).

Definition setInternalPath (p : string) : M unit :=
  modify_vol (set_mInternalPath p).

Definition get_errno : M Z := gets (fun s => errno (world s)).

(** C truth of an int. *)
Definition truthy (z : Z) : bool := negb (z =? 0).

(** [a || b] of C++ on calls: [b] is not made when [a] is true. *)
Definition orelse (a b : M bool) : M bool :=
  x <- a ;; if x then ret true else b.

Definition nanoseconds_to_milliseconds (ns : Z) : Z := Z.quot ns 1000000.

(** ** The collaborators

    Modelled from the spec: Utils.cpp, VolumeBase and the system calls are
    not among the sources.  Each call asks the environment for its answer,
    records the call, and has the effect on the mount table, the clock and
    errno that the spec's interface gives it: a bind mount that succeeds
    adds its target, an unmount that succeeds removes what is mounted at its
    path, a failure reported through errno leaves its error number there. *)
Section Collaborators.

Variable env : Env.

Definition fs_prepare_dir (path : string) (mode uid gid : Z) : M Z :=
  fun s =>
    let r := env_fs_prepare_dir env (world s) path mode uid gid in
    Some (Next (match r with Ok _ => 0 | Err _ => -1 end),
          mkSt (vol s)
            (set_errno_of r (log (EvPrepareDir path mode uid gid r) (world s)))).

Definition GetDevice (path : string) : M Z :=
  fun s =>
    let d := env_GetDevice env (world s) path in
    Some (Next d, mkSt (vol s) (log (EvGetDevice path d) (world s))).

Definition GetBoolProperty_kPropFuse : M bool :=
  gets (fun s => env_prop_fuse env (world s)).

(** [execl] in the child: the sdcard driver serves the label it is given as
    its last argument. *)
Definition execl (path : string) (argv : list string) : M unit :=
  modify_world
    (fun w => set_child (Some (last argv "")) (log (EvExecl path argv) w)).

(** [fork()]: the parent gets the pid, or -1 and errno; the child runs
    [in_child] beside it. *)
Definition fork (in_child : M unit) : M Z :=
  fun s =>
    let r := env_fork env (world s) in
    let w1 := log (EvFork r) (world s) in
    match r with
    | Ok pid =>
        match in_child (mkSt (vol s) w1) with
        | Some (_, s2) =>
            Some (Next (Zpos pid), mkSt (vol s) (child_progress env (world s2)))
        | None => None
        end
    | Err e => Some (Next (-1), mkSt (vol s) (set_errno_of r w1))
    end.

Definition systemTime : M Z :=
  fun s =>
    Some (Next (clock (world s)),
          mkSt (vol s) (log (EvSystemTime (clock (world s))) (world s))).

(** [usleep] suspends the caller for at least the time asked for; the child
    runs meanwhile. *)
Definition usleep (us : Z) : M unit :=
  modify_world (fun w =>
    child_progress env
      (set_clock (clock w + us * 1000 + Z.of_N (env_usleep_overshoot env w))
         (log (EvUsleep us) w))).

Definition waitpid (pid : Z) : M unit :=
  modify_world (fun w => set_child None (log (EvWaitpid pid) w)).

Definition MountUserFuse (userId : Z) (internalPath label : string) : M Z :=
  fun s =>
    let r := env_MountUserFuse env (world s) userId internalPath label in
    Some (Next r,
          mkSt (vol s)
            (mounted r (BridgeEntry userId internalPath label)
               (log (EvMountUserFuse userId internalPath label r) (world s)))).

Definition onVolumeChecking (cb : Callback) (path internalPath : string)
  : M bool :=
  let is_ready := cb path internalPath in
  emit (EvOnVolumeChecking path internalPath is_ready) ;;; ret is_ready.

Definition fd_reset : M unit := emit EvFdReset.

Definition access (path : string) : M Z :=
  fun s =>
    let present := env_access env (world s) path in
    Some (Next (if present then 0 else -1),
          mkSt (vol s) (log (EvAccess path present) (world s))).

Definition BindMount (source target : string) : M status_t :=
  fun s =>
    let st := env_BindMount env (world s) source target in
    Some (Next st,
          mkSt (vol s)
            (mounted st (BindEntry source target)
               (log (EvBindMount source target st) (world s)))).

Definition UnmountTree (path : string) : M status_t :=
  fun s =>
    let st := env_UnmountTree env (world s) path in
    Some (Next st,
          mkSt (vol s)
            (unmounted st path (log (EvUnmountTree path st) (world s)))).

Definition UnmountUserFuse (userId : Z) (internalPath label : string)
  : M status_t :=
  fun s =>
    let r := env_UnmountUserFuse env (world s) userId internalPath label in
    let w1 := log (EvUnmountUserFuse userId internalPath label r) (world s) in
    Some (Next (match r with Ok _ => OK | Err e => - Zpos e end),
          mkSt (vol s)
            (set_errno_of r
               (set_mounts
                  (match r with
                   | Ok _ => umount_bridge userId internalPath label (mounts w1)
                   | Err _ => mounts w1
                   end) w1))).

Definition ForceUnmount (path : string) : M status_t :=
  fun s =>
    let st := env_ForceUnmount env (world s) path in
    Some (Next st,
          mkSt (vol s)
            (unmounted st path (log (EvForceUnmount path st) (world s)))).

Definition rmdir (path : string) : M unit := emit (EvRmdir path).

Definition KillProcessesUsingPath (path : string) : M unit :=
  emit (EvKillProcessesUsingPath path).

End Collaborators.

(** ** EmulatedVolume *)

(** The two constructors; [base] is the freshly built VolumeBase part,
    [sdcardfs] the answer of IsFilesystemSupported("sdcardfs"). *)
Definition EmulatedVolume (base : Volume) (rawPath : string) (userId : Z)
  (sdcardfs : bool) : Volume :=
  mkVolume ("emulated;" ++ fmt_u userId) (mPath base) (mInternalPath base)
    (mMountFlags base) (mMountUserId base) (mMountCallback base)
    rawPath "emulated" false sdcardfs "" "" "" "".

Definition EmulatedVolume_dev (base : Volume) (rawPath : string)
  (major minor : Z) (fsUuid : string) (userId : Z) (sdcardfs : bool)
  : Volume :=
  mkVolume
    ("emulated:" ++ fmt_u major ++ "," ++ fmt_u minor ++ ";" ++ fmt_u userId)
    (mPath base) (mInternalPath base)
    (mMountFlags base) (mMountUserId base) (mMountCallback base)
    rawPath fsUuid false sdcardfs "" "" "" "".

Section Methods.

Variable env : Env.

Definition getLabel : M string :=
  flags <- getMountFlags ;;
  if truthy (Z.land flags kPrimary)
  then ret "emulated"
  else field mLabel.

(** Creates a bind mount from source to target, creating the source
    directory if not yet present. *)
Definition doFuseBindMount_body (source target : string) : M status_t :=
  a <- access env source ;;
  (if truthy a then
     r <- fs_prepare_dir env source 505 1023 1023 ;;
     if truthy r then e <- get_errno ;; return_ (- e) else ret tt
   else ret tt) ;;;
  status <- BindMount env source target ;;
  (if negb (status =? OK) then return_ status else ret tt) ;;;
  ret OK.

Definition doFuseBindMount (source target : string) : M status_t :=
  invoke (call (doFuseBindMount_body source target)).

Definition mountFuseBindMounts_body : M status_t :=
  label <- getLabel ;;
  userId <- getMountUserId ;;
  useSdcardFs <- field mUseSdcardFs ;;
  rawPath <- field mRawPath ;;
  let androidSource :=
    if useSdcardFs
    then "/mnt/runtime/default/" ++ label ++ "/" ++ fmt_d userId ++ "/Android"
    else "/" ++ rawPath ++ "/" ++ fmt_d userId ++ "/Android" in
  let androidTarget :=
    "/mnt/user/" ++ fmt_d userId ++ "/" ++ label ++ "/" ++ fmt_d userId
      ++ "/Android" in
  status <- doFuseBindMount androidSource androidTarget ;;
  (if negb (status =? OK) then return_ status else ret tt) ;;;
  (if negb useSdcardFs then return_ OK else ret tt) ;;;
  let installerSource :=
    "/mnt/runtime/write/" ++ label ++ "/" ++ fmt_d userId ++ "/Android/obb" in
  let installerTarget :=
    "/mnt/installer/" ++ fmt_d userId ++ "/" ++ label ++ "/" ++ fmt_d userId
      ++ "/Android/obb" in
  status <- doFuseBindMount installerSource installerTarget ;;
  (if negb (status =? OK) then return_ status else ret tt) ;;;
  ret OK.

Definition mountFuseBindMounts : St -> option (status_t * St) :=
  call mountFuseBindMounts_body.

Definition unmountFuseBindMounts_body : M status_t :=
  label <- getLabel ;;
  userId <- getMountUserId ;;
  useSdcardFs <- field mUseSdcardFs ;;
  (if useSdcardFs then
     let installerTarget :=
       "/mnt/installer/" ++ fmt_d userId ++ "/" ++ label ++ "/"
         ++ fmt_d userId ++ "/Android/obb" in
     UnmountTree env installerTarget ;;; ret tt
   else ret tt) ;;;
  let androidTarget :=
    "/mnt/user/" ++ fmt_d userId ++ "/" ++ label ++ "/" ++ fmt_d userId
      ++ "/Android" in
  status <- UnmountTree env androidTarget ;;
  (if negb (status =? OK) then return_ status else ret tt) ;;;
  ret OK.

Definition unmountFuseBindMounts : St -> option (status_t * St) :=
  call unmountFuseBindMounts_body.

Definition doUnmount_body : M status_t :=
  userId <- getMountUserId ;;
  fuseMounted <- field mFuseMounted ;;
  (if fuseMounted then
     path <- getPath ;;
     uid <- getMountUserId ;;
     let user_path := path ++ "/" ++ fmt_d uid in
     KillProcessesUsingPath user_path
   else
     path <- getPath ;;
     KillProcessesUsingPath path) ;;;
  fuseMounted <- field mFuseMounted ;;
  (if fuseMounted then
     label <- getLabel ;;
     invoke unmountFuseBindMounts ;;;
     internalPath <- getInternalPath ;;
     st <- UnmountUserFuse env userId internalPath label ;;
     (if negb (st =? OK) then e <- get_errno ;; return_ (- e) else ret tt) ;;;
     modify_vol (set_mFuseMounted false)
   else ret tt) ;;;
  uid <- getMountUserId ;;
  useSdcardFs <- field mUseSdcardFs ;;
  (if negb (uid =? 0) || negb useSdcardFs then return_ OK else ret tt) ;;;
  (p <- field mSdcardFsDefault ;; ForceUnmount env p) ;;;
  (p <- field mSdcardFsRead ;; ForceUnmount env p) ;;;
  (p <- field mSdcardFsWrite ;; ForceUnmount env p) ;;;
  (p <- field mSdcardFsFull ;; ForceUnmount env p) ;;;
  (p <- field mSdcardFsDefault ;; rmdir p) ;;;
  (p <- field mSdcardFsRead ;; rmdir p) ;;;
  (p <- field mSdcardFsWrite ;; rmdir p) ;;;
  (p <- field mSdcardFsFull ;; rmdir p) ;;;
  modify_vol (set_mSdcardFsDefault "") ;;;
  modify_vol (set_mSdcardFsRead "") ;;;
  modify_vol (set_mSdcardFsWrite "") ;;;
  modify_vol (set_mSdcardFsFull "") ;;;
  ret OK.

Definition doUnmount : St -> option (status_t * St) := call doUnmount_body.

(** The loop of doMount that waits for sdcardfs to spin up. *)
Fixpoint waitForSdcardFs (fuel : nat) (before start : Z) : M unit :=
  match fuel with
  | O => fun _ => None
  | S fuel' =>
      full <- field mSdcardFsFull ;;
      dev <- GetDevice env full ;;
      if before =? dev then
        usleep env 50000 ;;;
        now <- systemTime ;;
        if nanoseconds_to_milliseconds (now - start) >? 5000
        then return_ (- ETIMEDOUT)
        else waitForSdcardFs fuel' before start
      else ret tt
  end.

(** The block of doMount that spawns sdcardfs (taken when the legacy overlay
    is in use and the user is 0). *)
Definition doMount_sdcardfs (fuel : nat) (rawPath label : string) (before : Z)
  : M unit :=
  sdcardFsPid <-
    fork env
      (execl kSdcardFsPath
         [kSdcardFsPath; "-u"; "1023"; "-g"; "1023";
          "-m"; "-w"; "-G"; "-i"; "-o"; rawPath; label]) ;;
  (if sdcardFsPid =? -1 then e <- get_errno ;; return_ (- e) else ret tt) ;;;
  start <- systemTime ;;
  waitForSdcardFs fuel before start ;;;
  waitpid sdcardFsPid.

(** The block of doMount that mounts the FUSE volume (taken when the FUSE
    property is set and the volume is visible). *)
Definition doMount_fuse (label : string) : M status_t :=
  user_id <- getMountUserId ;;
  internalPath <- getInternalPath ;;
  result <- MountUserFuse env user_id internalPath label ;;
  (if negb (result =? 0) then return_ (- result) else ret tt) ;;;
  modify_vol (set_mFuseMounted true) ;;;
  callback <- getMountCallback ;;
  match callback with
  | Some cb =>
      path <- getPath ;;
      internalPath <- getInternalPath ;;
      is_ready <- onVolumeChecking cb path internalPath ;;
      if negb is_ready then
        fd_reset ;;;
        invoke doUnmount ;;;
        return_ (- EIO)
      else ret tt
  | None => ret tt
  end ;;;
  res <- invoke mountFuseBindMounts ;;
  (if negb (res =? OK) then
     fd_reset ;;;
     invoke doUnmount ;;; ret tt
   else ret tt) ;;;
  ret res.

Definition doMount_body (fuel : nat) : M status_t :=
  label <- getLabel ;;
  flags <- getMountFlags ;;
  let isVisible := truthy (Z.land flags kVisible) in
  modify_vol (set_mSdcardFsDefault ("/mnt/runtime/default/" ++ label)) ;;;
  modify_vol (set_mSdcardFsRead ("/mnt/runtime/read/" ++ label)) ;;;
  modify_vol (set_mSdcardFsWrite ("/mnt/runtime/write/" ++ label)) ;;;
  modify_vol (set_mSdcardFsFull ("/mnt/runtime/full/" ++ label)) ;;;
  rawPath <- field mRawPath ;;
  setInternalPath rawPath ;;;
  setPath ("/storage/" ++ label) ;;;
  failed <-
    orelse (p <- field mSdcardFsDefault ;;
            r <- fs_prepare_dir env p 448 0 0 ;; ret (truthy r))
   (orelse (p <- field mSdcardFsRead ;;
            r <- fs_prepare_dir env p 448 0 0 ;; ret (truthy r))
   (orelse (p <- field mSdcardFsWrite ;;
            r <- fs_prepare_dir env p 448 0 0 ;; ret (truthy r))
           (p <- field mSdcardFsFull ;;
            r <- fs_prepare_dir env p 448 0 0 ;; ret (truthy r)))) ;;
  (if failed then e <- get_errno ;; return_ (- e) else ret tt) ;;;
  full <- field mSdcardFsFull ;;
  before <- GetDevice env full ;;
  isFuse <- GetBoolProperty_kPropFuse env ;;
  useSdcardFs <- field mUseSdcardFs ;;
  userId <- getMountUserId ;;
  (if useSdcardFs && (userId =? 0)
   then doMount_sdcardfs fuel rawPath label before
   else ret tt) ;;;
  if isFuse && isVisible
  then doMount_fuse label
  else ret OK.

Definition doMount (fuel : nat) : St -> option (status_t * St) :=
  call (doMount_body fuel).

End Methods.

(** ** Derived names and closed forms

    The strings the methods build, as functions of the fields, and what a
    sequence of recorded calls does to the mount table and to errno.  The
    closed forms of the methods are proved equal to the code below. *)

Definition resolveLabel (v : Volume) : string :=
  if truthy (Z.land (mMountFlags v) kPrimary) then "emulated" else mLabel v.

Definition primaryFlag (v : Volume) : bool :=
  truthy (Z.land (mMountFlags v) kPrimary).

Definition androidSource (v : Volume) : string :=
  if mUseSdcardFs v
  then "/mnt/runtime/default/" ++ resolveLabel v ++ "/"
         ++ fmt_d (mMountUserId v) ++ "/Android"
  else "/" ++ mRawPath v ++ "/" ++ fmt_d (mMountUserId v) ++ "/Android".

Definition androidTarget (v : Volume) : string :=
  "/mnt/user/" ++ fmt_d (mMountUserId v) ++ "/" ++ resolveLabel v ++ "/"
    ++ fmt_d (mMountUserId v) ++ "/Android".

Definition installerSource (v : Volume) : string :=
  "/mnt/runtime/write/" ++ resolveLabel v ++ "/" ++ fmt_d (mMountUserId v)
    ++ "/Android/obb".

Definition installerTarget (v : Volume) : string :=
  "/mnt/installer/" ++ fmt_d (mMountUserId v) ++ "/" ++ resolveLabel v ++ "/"
    ++ fmt_d (mMountUserId v) ++ "/Android/obb".

Definition kill_scope (v : Volume) : string :=
  if mFuseMounted v then mPath v ++ "/" ++ fmt_d (mMountUserId v) else mPath v.

Definition sdcardfs_argv (v : Volume) : list string :=
  [kSdcardFsPath; "-u"; "1023"; "-g"; "1023"; "-m"; "-w"; "-G"; "-i"; "-o";
   mRawPath v; resolveLabel v].

(** The owning context of the legacy overlay: user 0 on a build with it. *)
Definition owning (v : Volume) : bool :=
  negb (negb (mMountUserId v =? 0) || negb (mUseSdcardFs v)).

Definition replay_event (t : list MountEntry) (e : Event) : list MountEntry :=
  match e with
  | EvMountUserFuse u i l r => if r =? 0 then t ++ [BridgeEntry u i l] else t
  | EvBindMount src tgt st => if st =? 0 then t ++ [BindEntry src tgt] else t
  | EvUnmountTree p st => if st =? 0 then umount p t else t
  | EvForceUnmount p st => if st =? 0 then umount p t else t
  | EvUnmountUserFuse u i l (Ok _) => umount_bridge u i l t
  | _ => t
  end.

Definition replay_errno (en : Z) (e : Event) : Z :=
  match e with
  | EvPrepareDir _ _ _ _ (Err x) => Zpos x
  | EvFork (Err x) => Zpos x
  | EvUnmountUserFuse _ _ _ (Err x) => Zpos x
  | _ => en
  end.

(** The world after the calls [evs], none of which sleeps or forks. *)
Definition after (evs : list Event) (w : World) : World :=
  mkWorld (fold_left replay_event evs (mounts w)) (clock w)
    (fold_left replay_errno evs (errno w)) (child w) (trace w ++ evs).

Definition is_ok {A} (r : Result A) : bool :=
  match r with Ok _ => true | Err _ => false end.

Definition clear_views (v : Volume) : Volume :=
  set_mSdcardFsFull "" (set_mSdcardFsWrite "" (set_mSdcardFsRead ""
    (set_mSdcardFsDefault "" v))).

(** What the environment answered during one doUnmount. *)
Record UnmountAnswers : Type := mkUnmountAnswers {
  u_installer : status_t;          (* UnmountTree of the installer target *)
  u_android : status_t;            (* UnmountTree of the primary target *)
  u_stop : Result unit;            (* UnmountUserFuse *)
  u_default : status_t;            (* the four ForceUnmount *)
  u_read : status_t;
  u_write : status_t;
  u_full : status_t
}.

Definition unmountFuseBindMounts_events (v : Volume) (st1 st2 : Z)
  : list Event :=
  (if mUseSdcardFs v then [EvUnmountTree (installerTarget v) st1] else [])
  ++ [EvUnmountTree (androidTarget v) st2].

Definition views_teardown_events (v : Volume) (a : UnmountAnswers)
  : list Event :=
  [EvForceUnmount (mSdcardFsDefault v) (u_default a);
   EvForceUnmount (mSdcardFsRead v) (u_read a);
   EvForceUnmount (mSdcardFsWrite v) (u_write a);
   EvForceUnmount (mSdcardFsFull v) (u_full a);
   EvRmdir (mSdcardFsDefault v); EvRmdir (mSdcardFsRead v);
   EvRmdir (mSdcardFsWrite v); EvRmdir (mSdcardFsFull v)].

(** doUnmount gets past the bridge: it was not mounted, or it stopped. *)
Definition past_bridge (v : Volume) (a : UnmountAnswers) : bool :=
  negb (mFuseMounted v) || is_ok (u_stop a).

Definition doUnmount_events (v : Volume) (a : UnmountAnswers) : list Event :=
  [EvKillProcessesUsingPath (kill_scope v)]
  ++ (if mFuseMounted v
      then unmountFuseBindMounts_events v (u_installer a) (u_android a)
           ++ [EvUnmountUserFuse (mMountUserId v) (mInternalPath v)
                 (resolveLabel v) (u_stop a)]
      else [])
  ++ (if past_bridge v a && owning v
      then views_teardown_events v a
      else []).

Definition doUnmount_status (v : Volume) (a : UnmountAnswers) : status_t :=
  if mFuseMounted v
  then match u_stop a with Ok _ => OK | Err e => - Zpos e end
  else OK.

Definition doUnmount_vol (v : Volume) (a : UnmountAnswers) : Volume :=
  let v1 := if mFuseMounted v && is_ok (u_stop a)
            then set_mFuseMounted false v else v in
  if past_bridge v a && owning v
  then clear_views v1
  else v1.

(** What the environment answered during one doFuseBindMount. *)
Record BindAnswers : Type := mkBindAnswers {
  b_present : bool;                (* access *)
  b_prepare : Result unit;         (* fs_prepare_dir, when not present *)
  b_bind : status_t                (* BindMount *)
}.

Definition doFuseBindMount_events (source target : string) (a : BindAnswers)
  : list Event :=
  [EvAccess source (b_present a)]
  ++ (if b_present a then []
      else [EvPrepareDir source 505 1023 1023 (b_prepare a)])
  ++ (if b_present a || is_ok (b_prepare a)
      then [EvBindMount source target (b_bind a)]
      else []).

Definition doFuseBindMount_status (a : BindAnswers) : status_t :=
  if b_present a then b_bind a
  else match b_prepare a with Ok _ => b_bind a | Err e => - Zpos e end.

Definition mountFuseBindMounts_events (v : Volume) (a1 a2 : BindAnswers)
  : list Event :=
  doFuseBindMount_events (androidSource v) (androidTarget v) a1
  ++ (if (doFuseBindMount_status a1 =? OK) && mUseSdcardFs v
      then doFuseBindMount_events (installerSource v) (installerTarget v) a2
      else []).

Definition mountFuseBindMounts_status (v : Volume) (a1 a2 : BindAnswers)
  : status_t :=
  if (doFuseBindMount_status a1 =? OK) && mUseSdcardFs v
  then doFuseBindMount_status a2
  else doFuseBindMount_status a1.

(** The fields as doMount sets them before it mounts anything. *)
Definition doMount_setup (v : Volume) : Volume :=
  set_mPath ("/storage/" ++ resolveLabel v)
    (set_mInternalPath (mRawPath v)
       (set_mSdcardFsFull ("/mnt/runtime/full/" ++ resolveLabel v)
          (set_mSdcardFsWrite ("/mnt/runtime/write/" ++ resolveLabel v)
             (set_mSdcardFsRead ("/mnt/runtime/read/" ++ resolveLabel v)
                (set_mSdcardFsDefault
                   ("/mnt/runtime/default/" ++ resolveLabel v) v))))).

Definition isVisible (v : Volume) : bool :=
  truthy (Z.land (mMountFlags v) kVisible).

(** The fs_prepare_dir calls of doMount: they stop at the first failure. *)
Definition prepare_events (v : Volume) (r1 r2 r3 r4 : Result unit)
  : list Event :=
  EvPrepareDir (mSdcardFsDefault v) 448 0 0 r1
  :: (if is_ok r1 then
        EvPrepareDir (mSdcardFsRead v) 448 0 0 r2
        :: (if is_ok r2 then
              EvPrepareDir (mSdcardFsWrite v) 448 0 0 r3
              :: (if is_ok r3 then [EvPrepareDir (mSdcardFsFull v) 448 0 0 r4]
                  else [])
            else [])
      else []).

Definition prepare_error (r1 r2 r3 r4 : Result unit) : option positive :=
  match r1, r2, r3, r4 with
  | Err e, _, _, _ => Some e
  | Ok _, Err e, _, _ => Some e
  | Ok _, Ok _, Err e, _ => Some e
  | Ok _, Ok _, Ok _, Err e => Some e
  | Ok _, Ok _, Ok _, Ok _ => None
  end.

(** The readiness the callback reports, when there is one. *)
Definition fuse_ready (v : Volume) : bool :=
  match mMountCallback v with
  | Some cb => cb (mPath v) (mInternalPath v)
  | None => true
  end.

Definition callback_events (v : Volume) : list Event :=
  match mMountCallback v with
  | Some cb =>
      [EvOnVolumeChecking (mPath v) (mInternalPath v)
         (cb (mPath v) (mInternalPath v))]
  | None => []
  end.

(** What the environment answered during the FUSE block of doMount. *)
Record FuseAnswers : Type := mkFuseAnswers {
  f_mount : Z;                     (* MountUserFuse *)
  f_android : BindAnswers;
  f_installer : BindAnswers;
  f_rollback : UnmountAnswers
}.

(** The calls of the FUSE block before any rollback. *)
Definition doMount_fuse_calls (v : Volume) (label : string) (a : FuseAnswers)
  : list Event :=
  EvMountUserFuse (mMountUserId v) (mInternalPath v) label (f_mount a)
  :: (if f_mount a =? 0 then
        callback_events v
        ++ (if fuse_ready v
            then mountFuseBindMounts_events (set_mFuseMounted true v)
                   (f_android a) (f_installer a)
            else [])
      else []).

(** The FUSE block rolls back: the bridge was started, and the callback
    reported not-ready or the bind mounts failed. *)
Definition rolled_back (v : Volume) (a : FuseAnswers) : bool :=
  (f_mount a =? 0)
  && negb (fuse_ready v
           && (mountFuseBindMounts_status (set_mFuseMounted true v)
                 (f_android a) (f_installer a) =? OK)).

Definition doMount_fuse_events (v : Volume) (label : string) (a : FuseAnswers)
  : list Event :=
  doMount_fuse_calls v label a
  ++ (if rolled_back v a
      then EvFdReset
           :: doUnmount_events (set_mFuseMounted true v) (f_rollback a)
      else []).

Definition doMount_fuse_status (v : Volume) (a : FuseAnswers) : status_t :=
  if f_mount a =? 0 then
    if fuse_ready v
    then mountFuseBindMounts_status (set_mFuseMounted true v)
           (f_android a) (f_installer a)
    else - EIO
  else - f_mount a.

Definition doMount_fuse_vol (v : Volume) (a : FuseAnswers) : Volume :=
  if f_mount a =? 0 then
    if rolled_back v a
    then doUnmount_vol (set_mFuseMounted true v) (f_rollback a)
    else set_mFuseMounted true v
  else v.

(** The rollback of the FUSE block is a call of doUnmount. *)
Definition rollback_is_doUnmount (env : Env) (v : Volume) (label : string)
  (a : FuseAnswers) (w : World) : Prop :=
  rolled_back v a = true ->
  doUnmount env
    (mkSt (set_mFuseMounted true v)
       (after (doMount_fuse_calls v label a ++ [EvFdReset]) w))
  = Some (doUnmount_status (set_mFuseMounted true v) (f_rollback a),
          mkSt (doMount_fuse_vol v a) (after (doMount_fuse_events v label a) w)).

(** The calls of the wait loop. *)
Definition is_poll (e : Event) : bool :=
  match e with
  | EvGetDevice _ _ => true
  | EvUsleep us => us =? 50000
  | EvSystemTime _ => true
  | _ => false
  end.

Definition is_usleep (e : Event) : bool :=
  match e with EvUsleep _ => true | _ => false end.

Definition sleeps (evs : list Event) : Z :=
  Z.of_nat (List.length (filter is_usleep evs)).

(** ** The runs of doMount

    Every way doMount can go, with the calls it makes and the state it
    leaves; [doMount_runs] below proves that every call is one of them. *)

Definition prepared (v : Volume) (d : Z) : list Event :=
  prepare_events v (Ok tt) (Ok tt) (Ok tt) (Ok tt)
  ++ [EvGetDevice (mSdcardFsFull v) d].

Definition spawn_events (v : Volume) (pid : positive) (start : Z)
  : list Event :=
  [EvFork (Ok pid); EvExecl kSdcardFsPath (sdcardfs_argv v);
   EvSystemTime start].

(** The sdcardfs block: skipped, or the child was spawned and the device
    of the full view was seen to change. *)
Inductive Overlay (env : Env) (v : Volume) (w : World) (d : Z)
  : list Event -> World -> Prop :=
| Overlay_skipped :
    owning v = false ->
    Overlay env v w d [] w
| Overlay_mounted (pid : positive) (polls : list Event) (w2 : World) :
    owning v = true ->
    Forall (fun e => is_poll e = true) polls ->
    (exists w', env_GetDevice env w' (mSdcardFsFull v) <> d) ->
    trace w2
    = (trace w ++ spawn_events v pid (clock w) ++ polls
       ++ [EvWaitpid (Zpos pid)])%list ->
    Overlay env v w d
      (spawn_events v pid (clock w) ++ polls ++ [EvWaitpid (Zpos pid)])%list
      w2.

Inductive MountRun (env : Env) (s : St)
  : status_t -> St -> list Event -> Prop :=
| Run_prepare_failed (r1 r2 r3 r4 : Result unit) (e : positive) :
    prepare_error r1 r2 r3 r4 = Some e ->
    MountRun env s (- Zpos e)
      (mkSt (doMount_setup (vol s))
         (after (prepare_events (doMount_setup (vol s)) r1 r2 r3 r4) (world s)))
      (prepare_events (doMount_setup (vol s)) r1 r2 r3 r4)
| Run_fork_failed (d : Z) (e : positive) :
    owning (vol s) = true ->
    MountRun env s (- Zpos e)
      (mkSt (doMount_setup (vol s))
         (after (prepared (doMount_setup (vol s)) d ++ [EvFork (Err e)])%list
            (world s)))
      (prepared (doMount_setup (vol s)) d ++ [EvFork (Err e)])%list
| Run_timed_out (d : Z) (pid : positive) (polls : list Event) (w' : World) :
    owning (vol s) = true ->
    (exists w0, d = env_GetDevice env w0 (mSdcardFsFull (doMount_setup (vol s)))) ->
    Forall (fun e => is_poll e = true) polls ->
    5000 < nanoseconds_to_milliseconds (clock w' - clock (world s)) ->
    sleeps polls <= 101 ->
    MountRun env s (- ETIMEDOUT)
      (mkSt (doMount_setup (vol s)) w')
      (prepared (doMount_setup (vol s)) d
       ++ spawn_events (doMount_setup (vol s)) pid (clock (world s))
       ++ polls)%list
| Run_not_fuse (d : Z) (ov : list Event) (w2 : World) (isFuse : bool) :
    (exists w0, d = env_GetDevice env w0 (mSdcardFsFull (doMount_setup (vol s)))) ->
    Overlay env (doMount_setup (vol s))
      (after (prepared (doMount_setup (vol s)) d) (world s)) d ov w2 ->
    isFuse && isVisible (vol s) = false ->
    MountRun env s OK
      (mkSt (doMount_setup (vol s)) w2)
      (prepared (doMount_setup (vol s)) d ++ ov)%list
| Run_fuse (d : Z) (ov : list Event) (w2 : World) (a : FuseAnswers) :
    (exists w0, d = env_GetDevice env w0 (mSdcardFsFull (doMount_setup (vol s)))) ->
    Overlay env (doMount_setup (vol s))
      (after (prepared (doMount_setup (vol s)) d) (world s)) d ov w2 ->
    isVisible (vol s) = true ->
    rollback_is_doUnmount env (doMount_setup (vol s)) (resolveLabel (vol s))
      a w2 ->
    MountRun env s (doMount_fuse_status (doMount_setup (vol s)) a)
      (mkSt (doMount_fuse_vol (doMount_setup (vol s)) a)
         (after
            (doMount_fuse_events (doMount_setup (vol s))
               (resolveLabel (vol s)) a) w2))
      (prepared (doMount_setup (vol s)) d ++ ov
       ++ doMount_fuse_events (doMount_setup (vol s))
            (resolveLabel (vol s)) a)%list.

(** ** Weakest preconditions for the monad *)

Definition wp {A} (m : M A) (s : St) (Q : Outcome A -> St -> Prop) : Prop :=
  exists o s', m s = Some (o, s') /\ Q o s'.

Definition status_of (o : Outcome status_t) : status_t :=
  match o with Next r => r | Return r => r end.

(** ** Classes of calls and order in a trace *)

Inductive Kind : Type :=
| KPrepareDir | KGetDevice | KFork | KExecl | KSystemTime | KUsleep | KWaitpid
| KMountUserFuse | KOnVolumeChecking | KFdReset | KAccess | KBindMount
| KUnmountTree | KUnmountUserFuse | KForceUnmount | KRmdir | KKill.

Definition kind (e : Event) : Kind :=
  match e with
  | EvPrepareDir _ _ _ _ _ => KPrepareDir
  | EvGetDevice _ _ => KGetDevice
  | EvFork _ => KFork
  | EvExecl _ _ => KExecl
  | EvSystemTime _ => KSystemTime
  | EvUsleep _ => KUsleep
  | EvWaitpid _ => KWaitpid
  | EvMountUserFuse _ _ _ _ => KMountUserFuse
  | EvOnVolumeChecking _ _ _ => KOnVolumeChecking
  | EvFdReset => KFdReset
  | EvAccess _ _ => KAccess
  | EvBindMount _ _ _ => KBindMount
  | EvUnmountTree _ _ => KUnmountTree
  | EvUnmountUserFuse _ _ _ _ => KUnmountUserFuse
  | EvForceUnmount _ _ => KForceUnmount
  | EvRmdir _ => KRmdir
  | EvKillProcessesUsingPath _ => KKill
  end.

Definition teardown_kinds : list Kind :=
  [KKill; KUnmountTree; KUnmountUserFuse; KForceUnmount; KRmdir].

Definition bind_kinds : list Kind := [KAccess; KPrepareDir; KBindMount].

Definition fuse_kinds : list Kind :=
  [KMountUserFuse; KOnVolumeChecking; KFdReset] ++ bind_kinds ++ teardown_kinds.

(** The calls doMount makes up to a timed-out wait: none signals, reaps or
    unmounts anything. *)
Definition wait_kinds : list Kind :=
  [KPrepareDir; KGetDevice; KFork; KExecl; KSystemTime; KUsleep].

Definition is_kill (e : Event) : bool :=
  match e with EvKillProcessesUsingPath _ => true | _ => false end.

Definition is_unmount_op (e : Event) : bool :=
  match e with
  | EvUnmountTree _ _ | EvUnmountUserFuse _ _ _ _ | EvForceUnmount _ _ => true
  | _ => false
  end.

Definition is_bridge_stop (e : Event) : bool :=
  match e with EvUnmountUserFuse _ _ _ _ => true | _ => false end.

Definition is_view_teardown (e : Event) : bool :=
  match e with EvForceUnmount _ _ | EvRmdir _ => true | _ => false end.

Definition is_bind_mount (e : Event) : bool :=
  match e with EvBindMount _ _ _ => true | _ => false end.

Definition is_installer_teardown (v : Volume) (e : Event) : bool :=
  match e with
  | EvUnmountTree p _ => String.eqb p (installerTarget v)
  | _ => false
  end.

Definition is_primary_teardown (v : Volume) (e : Event) : bool :=
  match e with
  | EvUnmountTree p _ => String.eqb p (androidTarget v)
  | _ => false
  end.

(** Every call of class [P] comes before every call of class [Q]. *)
Definition precedes (P Q : Event -> bool) (evs : list Event) : Prop :=
  forall i j a b,
    nth_error evs i = Some a -> nth_error evs j = Some b ->
    P a = true -> Q b = true -> (i < j)%nat.

Fixpoint precedes_b (P Q : Event -> bool) (evs : list Event) : bool :=
  match evs with
  | [] => true
  | e :: tl =>
      (if Q e then forallb (fun x => negb (P x)) (e :: tl) else true)
      && precedes_b P Q tl
  end.

Definition stored_views (v : Volume) : list string :=
  [mSdcardFsDefault v; mSdcardFsRead v; mSdcardFsWrite v; mSdcardFsFull v].

Definition view_paths (label : string) : list string :=
  ["/mnt/runtime/default/" ++ label; "/mnt/runtime/read/" ++ label;
   "/mnt/runtime/write/" ++ label; "/mnt/runtime/full/" ++ label].

(** Nothing is mounted at [p]. *)
Definition nothing_at (p : string) (t : list MountEntry) : Prop :=
  forall e, In e t -> mounted_at p e = false.

(** Path resolution reads a run of slashes as one. *)
Fixpoint squeeze (s : string) : string :=
  match s with
  | EmptyString => EmptyString
  | String c r =>
      match r with
      | String c' _ =>
          if Ascii.eqb c "/" && Ascii.eqb c' "/"
          then squeeze r
          else String c (squeeze r)
      | EmptyString => String c EmptyString
      end
  end.

(** ** The spec's wording, where it differs from the code *)

(** The argument list of the overlay driver as the spec gives it. *)
Definition spec_sdcardfs_args (rawPath label : string) : list string :=
  ["-u"; "1023"; "-g"; "1023"; "-m"; "-w"; "-G"; "-i"; rawPath; label].

(** The source of the primary bind mount as the spec gives it. *)
Definition spec_primary_source (v : Volume) : string :=
  if mUseSdcardFs v
  then "/mnt/runtime/default/" ++ resolveLabel v ++ "/"
         ++ fmt_d (mMountUserId v) ++ "/Android"
  else mRawPath v ++ "/" ++ fmt_d (mMountUserId v) ++ "/Android".

(** "returns the fixed literal if and only if the primary flag is set, and
    otherwise returns the stored label" *)
Definition getLabel_as_stated : Prop :=
  forall s, exists l,
    getLabel s = Some (Next l, s) /\
    (l = "emulated" <-> primaryFlag (vol s) = true) /\
    (primaryFlag (vol s) = false -> l = mLabel (vol s)).

(** "after mount() every stored view path is non-empty, and after unmount()
    returns every stored view path is empty" *)
Definition stored_views_as_stated : Prop :=
  forall env fuel s sm su,
    doMount env fuel s = Some (OK, sm) ->
    doUnmount env sm = Some (OK, su) ->
    Forall (fun p => p <> "") (stored_views (vol sm)) /\
    Forall (fun p => p = "") (stored_views (vol su)).

(** "the argument list it passes consists exactly of ..." *)
Definition sdcardfs_args_as_stated : Prop :=
  forall env fuel s r s' evs path argv,
    doMount env fuel s = Some (r, s') ->
    trace (world s') = (trace (world s) ++ evs)%list ->
    In (EvExecl path argv) evs ->
    argv = path :: spec_sdcardfs_args (mRawPath (vol s)) (resolveLabel (vol s)).

(** "the source path is ... otherwise the Android directory directly under
    the raw backing path (<rawPath>/<userId>/Android)" *)
Definition primary_source_as_stated : Prop :=
  forall env s r s' evs src st,
    mountFuseBindMounts env s = Some (r, s') ->
    trace (world s') = (trace (world s) ++ evs)%list ->
    In (EvBindMount src (androidTarget (vol s)) st) evs ->
    src = spec_primary_source (vol s).

(** "after the call the bridge is inactive and no bind mounts are
    established, while the legacy-overlay views (if mounted in this attempt)
    remain mounted" *)
Definition not_ready_as_stated : Prop :=
  forall env fuel s r s' evs p i,
    doMount env fuel s = Some (r, s') ->
    trace (world s') = (trace (world s) ++ evs)%list ->
    In (EvOnVolumeChecking p i false) evs ->
    r = - EIO /\
    mFuseMounted (vol s') = false /\
    (forall src tgt st, ~ In (EvBindMount src tgt st) evs) /\
    (forall pid, In (EvWaitpid pid) evs ->
       forall e, In e (overlay_views (resolveLabel (vol s))) ->
                 In e (mounts (world s'))).

(** ** Scenarios *)

Definition has_overlay (p : string) (w : World) : bool :=
  existsb (fun e => match e with
                    | OverlayEntry t => String.eqb t p
                    | _ => false
                    end) (mounts w).

(** Everything succeeds; sdcardfs is up 100ms after it is spawned, and the
    device of a directory changes when sdcardfs is mounted on it. *)
Definition env_ok : Env :=
  mkEnv (fun _ _ _ _ _ => Ok tt)
        (fun w p => if has_overlay p w then 64 else 8)
        (fun _ => true)
        (fun _ => Ok 77%positive)
        (fun w => 100000000 <=? clock w)
        (fun _ => 0%N)
        (fun _ _ _ _ => 0)
        (fun _ _ => true)
        (fun _ _ _ => OK)
        (fun _ _ => OK)
        (fun _ _ _ _ => Ok tt)
        (fun _ _ => OK).

(** As [env_ok], but sdcardfs never comes up. *)
Definition env_stuck : Env :=
  mkEnv (fun _ _ _ _ _ => Ok tt)
        (fun _ _ => 8)
        (fun _ => true)
        (fun _ => Ok 77%positive)
        (fun _ => false)
        (fun _ => 0%N)
        (fun _ _ _ _ => 0)
        (fun _ _ => true)
        (fun _ _ _ => OK)
        (fun _ _ => OK)
        (fun _ _ _ _ => Ok tt)
        (fun _ _ => OK).

(** As [env_ok], but the primary bind mount cannot be unmounted (EBUSY). *)
Definition env_busy : Env :=
  mkEnv (fun _ _ _ _ _ => Ok tt)
        (fun w p => if has_overlay p w then 64 else 8)
        (fun _ => true)
        (fun _ => Ok 77%positive)
        (fun w => 100000000 <=? clock w)
        (fun _ => 0%N)
        (fun _ _ _ _ => 0)
        (fun _ _ => true)
        (fun _ _ _ => OK)
        (fun _ _ => -16)
        (fun _ _ _ _ => Ok tt)
        (fun _ _ => OK).

(** As [env_ok], but the bridge cannot be stopped (EBUSY). *)
Definition env_stop_fails : Env :=
  mkEnv (fun _ _ _ _ _ => Ok tt)
        (fun w p => if has_overlay p w then 64 else 8)
        (fun _ => true)
        (fun _ => Ok 77%positive)
        (fun w => 100000000 <=? clock w)
        (fun _ => 0%N)
        (fun _ _ _ _ => 0)
        (fun _ _ => true)
        (fun _ _ _ => OK)
        (fun _ _ => OK)
        (fun _ _ _ _ => Err 16%positive)
        (fun _ _ => OK).

Definition world0 : World := mkWorld [] 0 0 None [].

Definition base_volume (flags userId : Z) (cb : option Callback) : Volume :=
  mkVolume "" "" "" flags userId cb "" "" false false "" "" "" "".

(** Scenario C: legacy overlay, user 0, visible primary volume, a callback
    that reports not-ready. *)
Definition scenario_C : St :=
  mkSt (EmulatedVolume (base_volume 3 0 (Some (fun _ _ => false)))
          "/data/media" 0 true)
       world0.

(** Scenario A: no legacy overlay, user 5, visible volume, no callback. *)
Definition scenario_A : St :=
  mkSt (EmulatedVolume (base_volume 2 5 None) "/data/media" 5 false) world0.

(** Scenario A once mounted, and then unmounted again. *)
Definition scenario_A_mounted : St :=
  Eval vm_compute in
    match doMount env_ok 101 scenario_A with
    | Some (_, s) => s
    | None => scenario_A
    end.

Definition scenario_A_unmounted : St :=
  Eval vm_compute in
    match doUnmount env_ok scenario_A_mounted with
    | Some (_, s) => s
    | None => scenario_A
    end.

(** Scenario A after mountFuseBindMounts alone. *)
Definition scenario_A_bound : St :=
  Eval vm_compute in
    match mountFuseBindMounts env_ok scenario_A with
    | Some (_, s) => s
    | None => scenario_A
    end.

(** Scenario C after the failed mount. *)
Definition scenario_C_failed : St :=
  Eval vm_compute in
    match doMount env_ok 101 scenario_C with
    | Some (_, s) => s
    | None => scenario_C
    end.

(** A never-mounted volume of user 0 with the legacy overlay, not primary. *)
Definition scenario_fresh : St :=
  mkSt (EmulatedVolume (base_volume 0 0 None) "/data/media" 0 true) world0.

(** ** Stages of doMount *)

Definition is_view_prepare (e : Event) : bool :=
  match e with EvPrepareDir _ m _ _ _ => m =? 448 | _ => false end.

Definition is_spawn (e : Event) : bool :=
  match e with EvFork _ => true | _ => false end.

Definition is_reap (e : Event) : bool :=
  match e with EvWaitpid _ => true | _ => false end.

Definition is_bridge_start (e : Event) : bool :=
  match e with EvMountUserFuse _ _ _ _ => true | _ => false end.

Definition is_callback (e : Event) : bool :=
  match e with EvOnVolumeChecking _ _ _ => true | _ => false end.

(** The release of the bridge handle and the calls of doUnmount. *)
Definition is_rollback (e : Event) : bool :=
  match e with
  | EvFdReset | EvKillProcessesUsingPath _ | EvUnmountTree _ _
  | EvUnmountUserFuse _ _ _ _ | EvForceUnmount _ _ | EvRmdir _ => true
  | _ => false
  end.

(** The calls of the seven stages of doMount: mount points, spawn and wait,
    reap, bridge, callback, bind mounts, rollback. *)
Definition in_stage (n : nat) (e : Event) : bool :=
  match n, e with
  | 0%nat, EvPrepareDir _ m _ _ _ => m =? 448
  | 0%nat, EvGetDevice _ _ => true
  | 1%nat, (EvFork _ | EvExecl _ _ | EvSystemTime _ | EvGetDevice _ _
           | EvUsleep _) => true
  | 2%nat, EvWaitpid _ => true
  | 3%nat, EvMountUserFuse _ _ _ _ => true
  | 4%nat, EvOnVolumeChecking _ _ _ => true
  | 5%nat, EvPrepareDir _ m _ _ _ => m =? 505
  | 5%nat, (EvAccess _ _ | EvBindMount _ _ _) => true
  | 6%nat, e => is_rollback e
  | _, _ => false
  end.

(** [segs] are the calls of the stages from [n] on, in order. *)
Fixpoint staged (n : nat) (segs : list (list Event)) : Prop :=
  match segs with
  | [] => True
  | seg :: rest =>
      (forall x, In x seg -> in_stage n x = true) /\ staged (S n) rest
  end.

(** ** Further scenarios *)

(** As [env_ok], but the read view cannot be created (EACCES). *)
Definition env_no_dir : Env :=
  mkEnv (fun _ p _ _ _ =>
           if String.eqb p "/mnt/runtime/read/emulated"
           then Err 13%positive else Ok tt)
        (fun w p => if has_overlay p w then 64 else 8)
        (fun _ => true)
        (fun _ => Ok 77%positive)
        (fun w => 100000000 <=? clock w)
        (fun _ => 0%N)
        (fun _ _ _ _ => 0)
        (fun _ _ => true)
        (fun _ _ _ => OK)
        (fun _ _ => OK)
        (fun _ _ _ _ => Ok tt)
        (fun _ _ => OK).

(** As [env_ok], but no process can be forked (EAGAIN). *)
Definition env_no_fork : Env :=
  mkEnv (fun _ _ _ _ _ => Ok tt)
        (fun w p => if has_overlay p w then 64 else 8)
        (fun _ => true)
        (fun _ => Err 11%positive)
        (fun w => 100000000 <=? clock w)
        (fun _ => 0%N)
        (fun _ _ _ _ => 0)
        (fun _ _ => true)
        (fun _ _ _ => OK)
        (fun _ _ => OK)
        (fun _ _ _ _ => Ok tt)
        (fun _ _ => OK).

(** As [env_ok], but the bridge cannot be started: MountUserFuse answers
    -ENOMEM. *)
Definition env_no_bridge : Env :=
  mkEnv (fun _ _ _ _ _ => Ok tt)
        (fun w p => if has_overlay p w then 64 else 8)
        (fun _ => true)
        (fun _ => Ok 77%positive)
        (fun w => 100000000 <=? clock w)
        (fun _ => 0%N)
        (fun _ _ _ _ => -12)
        (fun _ _ => true)
        (fun _ _ _ => OK)
        (fun _ _ => OK)
        (fun _ _ _ _ => Ok tt)
        (fun _ _ => OK).

(** As [env_ok], but every bind mount is refused (-EPERM). *)
Definition env_bind_fails : Env :=
  mkEnv (fun _ _ _ _ _ => Ok tt)
        (fun w p => if has_overlay p w then 64 else 8)
        (fun _ => true)
        (fun _ => Ok 77%positive)
        (fun w => 100000000 <=? clock w)
        (fun _ => 0%N)
        (fun _ _ _ _ => 0)
        (fun _ _ => true)
        (fun _ _ _ => -1)
        (fun _ _ => OK)
        (fun _ _ _ _ => Ok tt)
        (fun _ _ => OK).

(** A primary volume of user 0 with the legacy overlay that is not
    visible. *)
Definition scenario_hidden : St :=
  mkSt (EmulatedVolume (base_volume 1 0 None) "/data/media" 0 true) world0.

(** * The methods, step by step *)

Lemma wp_ret {A} (a : A) s Q : Q (Next a) s -> wp (ret a) s Q.
Proof. intros H. exists (Next a), s. split; [reflexivity | exact H]. Qed.

Lemma wp_return {A} r s (Q : Outcome A -> St -> Prop) :
  Q (Return r) s -> wp (return_ r) s Q.
Proof. intros H. exists (Return r), s. split; [reflexivity | exact H]. Qed.

Lemma wp_bind {A B} (m : M A) (k : A -> M B) s Q :
  wp m s (fun o s' => match o with
                      | Next a => wp (k a) s' Q
                      | Return r => Q (Return r) s'
                      end) ->
  wp (bind m k) s Q.
Proof.
  intros (o & s' & E & H). unfold wp, bind. rewrite E.
  destruct o as [a | r].
  - exact H.
  - exists (Return r), s'. split; [reflexivity | exact H].
Qed.

Lemma wp_conseq {A} (m : M A) s (Q Q' : Outcome A -> St -> Prop) :
  wp m s Q -> (forall o s', Q o s' -> Q' o s') -> wp m s Q'.
Proof. intros (o & s' & E & H) HQ. exists o, s'. auto. Qed.

Lemma wp_gets {A} (f : St -> A) s Q : Q (Next (f s)) s -> wp (gets f) s Q.
Proof. intros H. exists (Next (f s)), s. split; [reflexivity | exact H]. Qed.

Lemma wp_modify_vol f s Q :
  Q (Next tt) (mkSt (f (vol s)) (world s)) -> wp (modify_vol f) s Q.
Proof. intros H. eexists _, _. split; [reflexivity | exact H]. Qed.

Lemma wp_modify_world f s Q :
  Q (Next tt) (mkSt (vol s) (f (world s))) -> wp (modify_world f) s Q.
Proof. intros H. eexists _, _. split; [reflexivity | exact H]. Qed.

Lemma wp_emit e s Q :
  (forall t, replay_event t e = t) -> (forall n, replay_errno n e = n) ->
  Q (Next tt) (mkSt (vol s) (after [e] (world s))) -> wp (emit e) s Q.
Proof.
  intros Hm He H. eexists _, _. split; [reflexivity | ].
  unfold after in H. cbn [fold_left] in H. rewrite Hm, He in H. exact H.
Qed.

Lemma wp_getLabel s Q : Q (Next (resolveLabel (vol s))) s -> wp getLabel s Q.
Proof.
  intros H. unfold getLabel. apply wp_bind, wp_gets. cbn [vol].
  unfold resolveLabel in H.
  destruct (truthy _); [apply wp_ret | apply wp_gets]; exact H.
Qed.

Lemma wp_fs_prepare_dir env p m u g s Q :
  (forall r, Q (Next (match r with Ok _ => 0 | Err _ => -1 end))
     (mkSt (vol s) (after [EvPrepareDir p m u g r] (world s)))) ->
  wp (fs_prepare_dir env p m u g) s Q.
Proof.
  intros H. eexists _, _. split; [reflexivity | ].
  specialize (H (env_fs_prepare_dir env (world s) p m u g)).
  destruct (env_fs_prepare_dir env (world s) p m u g); exact H.
Qed.

Lemma wp_access env p s Q :
  (forall present : bool, Q (Next (if present then 0 else -1))
     (mkSt (vol s) (after [EvAccess p present] (world s)))) ->
  wp (access env p) s Q.
Proof. intros H. eexists _, _. split; [reflexivity | apply H]. Qed.

Lemma wp_BindMount env src tgt s Q :
  (forall st, Q (Next st) (mkSt (vol s) (after [EvBindMount src tgt st] (world s)))) ->
  wp (BindMount env src tgt) s Q.
Proof. intros H. eexists _, _. split; [reflexivity | apply H]. Qed.

Lemma wp_UnmountTree env p s Q :
  (forall st, Q (Next st) (mkSt (vol s) (after [EvUnmountTree p st] (world s)))) ->
  wp (UnmountTree env p) s Q.
Proof. intros H. eexists _, _. split; [reflexivity | apply H]. Qed.

Lemma wp_ForceUnmount env p s Q :
  (forall st, Q (Next st) (mkSt (vol s) (after [EvForceUnmount p st] (world s)))) ->
  wp (ForceUnmount env p) s Q.
Proof. intros H. eexists _, _. split; [reflexivity | apply H]. Qed.

Lemma wp_UnmountUserFuse env u i l s Q :
  (forall rs, Q (Next (match rs with Ok _ => OK | Err e => - Zpos e end))
     (mkSt (vol s) (after [EvUnmountUserFuse u i l rs] (world s)))) ->
  wp (UnmountUserFuse env u i l) s Q.
Proof.
  intros H. eexists _, _. split; [reflexivity | ].
  specialize (H (env_UnmountUserFuse env (world s) u i l)).
  destruct (env_UnmountUserFuse env (world s) u i l); exact H.
Qed.

Lemma wp_MountUserFuse env u i l s Q :
  (forall r, Q (Next r) (mkSt (vol s) (after [EvMountUserFuse u i l r] (world s)))) ->
  wp (MountUserFuse env u i l) s Q.
Proof. intros H. eexists _, _. split; [reflexivity | apply H]. Qed.

Lemma after_after evs1 evs2 w : after evs2 (after evs1 w) = after (evs1 ++ evs2) w.
Proof.
  unfold after. cbn [mounts clock errno child trace].
  rewrite !fold_left_app, app_assoc. reflexivity.
Qed.

Ltac wp_simpl :=
  cbn [vol world mId mPath mInternalPath mMountFlags mMountUserId
       mMountCallback mRawPath mLabel mFuseMounted mUseSdcardFs
       mSdcardFsDefault mSdcardFsRead mSdcardFsWrite mSdcardFsFull
       set_mPath set_mInternalPath set_mFuseMounted set_mSdcardFsDefault
       set_mSdcardFsRead set_mSdcardFsWrite set_mSdcardFsFull];
  rewrite ?after_after.

Lemma wp_exact {A} (m : M A) s o s' Q :
  m s = Some (o, s') -> Q o s' -> wp m s Q.
Proof. intros E H. exists o, s'. auto. Qed.

Ltac wp_call := fail.

Ltac wp_step :=
  lazymatch goal with
  | |- wp (bind _ _) _ _ => apply wp_bind
  | |- wp (ret _) _ _ => apply wp_ret
  | |- wp (return_ _) _ _ => apply wp_return
  | |- wp (gets _) _ _ => apply wp_gets
  | |- wp (field _) _ _ => apply wp_gets
  | |- wp getMountFlags _ _ => apply wp_gets
  | |- wp getMountUserId _ _ => apply wp_gets
  | |- wp getPath _ _ => apply wp_gets
  | |- wp getInternalPath _ _ => apply wp_gets
  | |- wp getMountCallback _ _ => apply wp_gets
  | |- wp get_errno _ _ => apply wp_gets
  | |- wp (GetBoolProperty_kPropFuse _) _ _ => apply wp_gets
  | |- wp (modify_vol _) _ _ => apply wp_modify_vol
  | |- wp (setPath _) _ _ => apply wp_modify_vol
  | |- wp (setInternalPath _) _ _ => apply wp_modify_vol
  | |- wp (KillProcessesUsingPath _) _ _ =>
      apply wp_emit; [reflexivity | reflexivity | ]
  | |- wp (rmdir _) _ _ => apply wp_emit; [reflexivity | reflexivity | ]
  | |- wp fd_reset _ _ => apply wp_emit; [reflexivity | reflexivity | ]
  | |- wp (emit _) _ _ => apply wp_emit; [reflexivity | reflexivity | ]
  | |- wp (onVolumeChecking _ _ _) _ _ => unfold onVolumeChecking
  | |- wp (orelse _ _) _ _ => unfold orelse
  | |- wp getLabel _ _ => apply wp_getLabel
  | |- wp (fs_prepare_dir _ _ _ _ _) _ _ =>
      apply wp_fs_prepare_dir; intros [[] | ?]
  | |- wp (access _ _) _ _ => apply wp_access; intros [|]
  | |- wp (BindMount _ _ _) _ _ => apply wp_BindMount; intro
  | |- wp (UnmountTree _ _) _ _ => apply wp_UnmountTree; intro
  | |- wp (ForceUnmount _ _) _ _ => apply wp_ForceUnmount; intro
  | |- wp (UnmountUserFuse _ _ _ _) _ _ =>
      apply wp_UnmountUserFuse; intros [[] | ?]
  | |- wp (MountUserFuse _ _ _ _) _ _ => apply wp_MountUserFuse; intro
  | |- wp (if ?c then _ else _) _ _ =>
      first [ change c with true; cbv iota
            | change c with false; cbv iota
            | match goal with H : c = _ |- _ => rewrite H end
            | destruct c eqn:? ]
  | |- wp (match ?c with _ => _ end) _ _ => destruct c eqn:?
  | |- _ => wp_call
  end; wp_simpl.

Lemma unmountFuseBindMounts_closed env s :
  exists st1 st2,
    unmountFuseBindMounts env s
    = Some (st2, mkSt (vol s)
                   (after (unmountFuseBindMounts_events (vol s) st1 st2) (world s))).
Proof.
  assert (W : wp (unmountFuseBindMounts_body env) s (fun o s' =>
     exists st1 st2,
       (o = Next st2 \/ o = Return st2) /\
       s' = mkSt (vol s)
              (after (unmountFuseBindMounts_events (vol s) st1 st2) (world s)))).
  { unfold unmountFuseBindMounts_body, unmountFuseBindMounts_events.
    repeat wp_step.
    all: rewrite ?negb_true_iff, ?negb_false_iff, ?Z.eqb_eq in *; unfold OK in *; subst.
    all: first
      [ exists 0; eexists; split; [ right; reflexivity | reflexivity ]
      | exists 0; eexists; split; [ left; reflexivity | reflexivity ]
      | eexists _, _; split; [ right; reflexivity | reflexivity ]
      | eexists _, _; split; [ left; reflexivity | reflexivity ] ]. }
  destruct W as (o & s' & E & st1 & st2 & Ho & ->).
  exists st1, st2. unfold unmountFuseBindMounts, call. rewrite E.
  destruct Ho as [-> | ->]; reflexivity.
Qed.


Ltac wp_call ::=
  lazymatch goal with
  | |- wp (invoke (unmountFuseBindMounts ?env)) ?s _ =>
      let E := fresh "E" in
      destruct (unmountFuseBindMounts_closed env s) as (? & ? & E);
      eapply wp_exact; [unfold invoke; rewrite E; reflexivity | ]; clear E
  end.

Lemma call_status (m : M status_t) s o s' :
  m s = Some (o, s') -> call m s = Some (status_of o, s').
Proof. intros E. unfold call. rewrite E. destruct o; reflexivity. Qed.

Ltac use_conditions :=
  repeat match goal with
         | H : negb _ = true |- _ => apply negb_true_iff in H
         | H : negb _ = false |- _ => apply negb_false_iff in H
         end;
  repeat match goal with
         | H : (?a =? OK) = true |- _ => apply Z.eqb_eq in H
         | H : (?a =? 0) = true |- _ => apply Z.eqb_eq in H; try subst a
         end;
  repeat match goal with
         | H : ?a = OK |- _ => rewrite !H
         | H : ?a = true |- _ => rewrite !H
         | H : ?a = false |- _ => rewrite !H
         end;
  rewrite ?andb_false_r, ?andb_true_r, ?orb_false_r, ?orb_true_r;
  cbn [andb orb negb status_of Z.eqb OK].

Lemma errno_after_stop_err evs u i l e w :
  errno (after (evs ++ [EvUnmountUserFuse u i l (Err e)]) w) = Zpos e.
Proof. unfold after. cbn [errno]. rewrite fold_left_app. reflexivity. Qed.

Lemma errno_after_fork_err evs e w :
  errno (after (evs ++ [EvFork (Err e)]) w) = Zpos e.
Proof. unfold after. cbn [errno]. rewrite fold_left_app. reflexivity. Qed.

Lemma errno_after_prepare_err evs p m u g e w :
  errno (after (evs ++ [EvPrepareDir p m u g (Err e)]) w) = Zpos e.
Proof. unfold after. cbn [errno]. rewrite fold_left_app. reflexivity. Qed.

Lemma doUnmount_closed env s :
  exists a,
    doUnmount env s
    = Some (doUnmount_status (vol s) a,
            mkSt (doUnmount_vol (vol s) a)
              (after (doUnmount_events (vol s) a) (world s))).
Proof.
  assert (W : wp (doUnmount_body env) s (fun o s' =>
    exists a,
      (status_of o, s') = (doUnmount_status (vol s) a,
            mkSt (doUnmount_vol (vol s) a)
              (after (doUnmount_events (vol s) a) (world s))))).
  { unfold doUnmount_body, doUnmount_status, doUnmount_vol, doUnmount_events,
      views_teardown_events, past_bridge, owning, kill_scope, clear_views.
    repeat wp_step.
    all: rewrite ?errno_after_stop_err.
    all: first
      [ eexists (mkUnmountAnswers _ _ (Ok tt) _ _ _ _);
        cbn [is_ok negb andb orb status_of u_installer u_android u_stop
             u_default u_read u_write u_full];
        rewrite <- ?app_assoc; cbn [app]; reflexivity
      | match goal with
        | e : positive |- _ =>
            eexists (mkUnmountAnswers _ _ (Err e) _ _ _ _);
            cbn [is_ok negb andb orb status_of u_installer u_android u_stop
                 u_default u_read u_write u_full];
            rewrite <- ?app_assoc; cbn [app]; reflexivity
        end ]. }
  destruct W as (o & s' & E & a & H).
  exists a.
  unfold doUnmount. rewrite (call_status _ _ _ _ E), H. reflexivity.
  Unshelve. all: exact 0.
Qed.

Lemma doFuseBindMount_closed env src tgt s :
  exists a,
    doFuseBindMount env src tgt s
    = Some (Next (doFuseBindMount_status a),
            mkSt (vol s) (after (doFuseBindMount_events src tgt a) (world s))).
Proof.
  assert (W : wp (doFuseBindMount_body env src tgt) s (fun o s' =>
    exists a,
      (status_of o, s') = (doFuseBindMount_status a,
            mkSt (vol s) (after (doFuseBindMount_events src tgt a) (world s))))).
  { unfold doFuseBindMount_body, doFuseBindMount_status, doFuseBindMount_events.
    repeat wp_step.
    all: use_conditions; rewrite ?errno_after_prepare_err.
    all: first
      [ eexists (mkBindAnswers true (Ok tt) _); reflexivity
      | eexists (mkBindAnswers false (Ok tt) _); reflexivity
      | match goal with
        | e : positive |- _ => eexists (mkBindAnswers false (Err e) 0); reflexivity
        end ]. }
  destruct W as (o & s' & E & a & H).
  exists a. unfold doFuseBindMount, invoke.
  rewrite (call_status _ _ _ _ E). injection H as -> ->. reflexivity.
Qed.

Ltac wp_call ::=
  lazymatch goal with
  | |- wp (invoke (unmountFuseBindMounts ?env)) ?s _ =>
      let E := fresh "E" in
      destruct (unmountFuseBindMounts_closed env s) as (? & ? & E);
      eapply wp_exact; [unfold invoke; rewrite E; reflexivity | ]; clear E
  | |- wp (doFuseBindMount ?env ?src ?tgt) ?s _ =>
      let E := fresh "E" in
      destruct (doFuseBindMount_closed env src tgt s) as (? & E);
      eapply wp_exact; [exact E | ]; clear E
  end.

Lemma mountFuseBindMounts_closed env s :
  exists a1 a2,
    mountFuseBindMounts env s
    = Some (mountFuseBindMounts_status (vol s) a1 a2,
            mkSt (vol s)
              (after (mountFuseBindMounts_events (vol s) a1 a2) (world s))).
Proof.
  assert (W : wp (mountFuseBindMounts_body env) s (fun o s' =>
    exists a1 a2,
      (status_of o, s') = (mountFuseBindMounts_status (vol s) a1 a2,
            mkSt (vol s)
              (after (mountFuseBindMounts_events (vol s) a1 a2) (world s))))).
  { unfold mountFuseBindMounts_body, mountFuseBindMounts_status,
      mountFuseBindMounts_events, androidSource, androidTarget,
      installerSource, installerTarget.
    repeat wp_step.
    all: use_conditions.
    all: match goal with
         | x : BindAnswers, y : BindAnswers |- _ =>
             first [ exists y, x; use_conditions; reflexivity
                   | exists x, y; use_conditions; reflexivity ]
         | x : BindAnswers |- _ =>
             exists x, (mkBindAnswers true (Ok tt) 0); use_conditions;
             rewrite ?app_nil_r; reflexivity
         end. }
  destruct W as (o & s' & E & a1 & a2 & H).
  exists a1, a2. unfold mountFuseBindMounts.
  rewrite (call_status _ _ _ _ E). injection H as -> ->. reflexivity.
Qed.

Ltac wp_call ::=
  lazymatch goal with
  | |- wp (invoke (mountFuseBindMounts ?env)) ?s _ =>
      let E := fresh "E" in
      destruct (mountFuseBindMounts_closed env s) as (? & ? & E);
      eapply wp_exact; [unfold invoke; rewrite E; reflexivity | ]; clear E
  | |- wp (invoke (doUnmount ?env)) ?s _ =>
      let E := fresh "Erollback" in
      destruct (doUnmount_closed env s) as (? & E);
      eapply wp_exact; [unfold invoke; rewrite E; reflexivity | ]
  end.

Ltac fuse_fin :=
  cbn [f_mount f_android f_installer f_rollback]; use_conditions;
  rewrite ?app_nil_r; rewrite <- ?app_assoc; cbn [app]; reflexivity.

Ltac fuse_link :=
  cbn [f_mount f_android f_installer f_rollback];
  lazymatch goal with
  | E : doUnmount _ _ = _ |- _ =>
      cbn [vol world] in E; rewrite ?after_after in E; revert E;
      use_conditions; intros E _;
      rewrite ?app_nil_r in E; rewrite ?app_nil_r;
      rewrite <- ?app_assoc in E; cbn [app] in E;
      rewrite <- ?app_assoc; cbn [app]; exact E
  | |- _ =>
      use_conditions;
      let H := fresh in intros H; discriminate H
  end.

Ltac fuse_answer a :=
  exists a; split; [fuse_fin | fuse_link].

Lemma doMount_fuse_wp env label s :
  wp (doMount_fuse env label) s (fun o s' =>
    exists a,
      (status_of o, s') = (doMount_fuse_status (vol s) a,
            mkSt (doMount_fuse_vol (vol s) a)
              (after (doMount_fuse_events (vol s) label a) (world s))) /\
      rollback_is_doUnmount env (vol s) label a (world s)).
Proof.
  unfold rollback_is_doUnmount, doMount_fuse, doMount_fuse_status,
    doMount_fuse_vol, doMount_fuse_events, doMount_fuse_calls, rolled_back,
    fuse_ready, callback_events.
  repeat wp_step.
  all: use_conditions.
  all: first
    [ match goal with
      | x : BindAnswers, y : BindAnswers, u : UnmountAnswers |- _ =>
          first [ fuse_answer (mkFuseAnswers 0 y x u)
                | fuse_answer (mkFuseAnswers 0 x y u) ]
      end
    | match goal with
      | x : BindAnswers, y : BindAnswers |- _ =>
          first
            [ fuse_answer
                (mkFuseAnswers 0 y x (mkUnmountAnswers 0 0 (Ok tt) 0 0 0 0))
            | fuse_answer
                (mkFuseAnswers 0 x y (mkUnmountAnswers 0 0 (Ok tt) 0 0 0 0)) ]
      end
    | match goal with
      | u : UnmountAnswers |- _ =>
          fuse_answer
            (mkFuseAnswers 0 (mkBindAnswers true (Ok tt) 0)
               (mkBindAnswers true (Ok tt) 0) u)
      end
    | match goal with
      | r : Z |- _ =>
          fuse_answer
            (mkFuseAnswers r (mkBindAnswers true (Ok tt) 0)
               (mkBindAnswers true (Ok tt) 0)
               (mkUnmountAnswers 0 0 (Ok tt) 0 0 0 0))
      end ].
Qed.

Lemma wp_GetDevice env p s Q :
  (forall d, (exists w', d = env_GetDevice env w' p) ->
     Q (Next d) (mkSt (vol s) (after [EvGetDevice p d] (world s)))) ->
  wp (GetDevice env p) s Q.
Proof.
  intros H. eexists _, _. split; [reflexivity | apply H].
  exists (world s). reflexivity.
Qed.

Lemma wp_systemTime s Q :
  Q (Next (clock (world s)))
    (mkSt (vol s) (after [EvSystemTime (clock (world s))] (world s))) ->
  wp systemTime s Q.
Proof. intros H. eexists _, _. split; [reflexivity | apply H]. Qed.

Lemma wp_fork_execl env path argv s Q :
  (forall e, Q (Next (-1)) (mkSt (vol s) (after [EvFork (Err e)] (world s)))) ->
  (forall pid w1,
     trace w1 = (trace (world s) ++ [EvFork (Ok pid); EvExecl path argv])%list ->
     clock w1 = clock (world s) ->
     errno w1 = errno (world s) ->
     Q (Next (Zpos pid)) (mkSt (vol s) w1)) ->
  wp (fork env (execl path argv)) s Q.
Proof.
  intros He Ho. unfold wp, fork.
  destruct (env_fork env (world s)) as [pid | e].
  - cbn. eexists _, _. split; [reflexivity | ].
    apply Ho; cbn; rewrite <- ?app_assoc; reflexivity.
  - eexists _, _. split; [reflexivity | apply He].
Qed.

Lemma quot_ms_bound x : Z.quot x 1000000 <= 5000 -> x < 5001000000.
Proof.
  intros H. destruct (Z_lt_le_dec x 5001000000) as [L | L]; [exact L | ].
  exfalso.
  assert (Q : Z.quot 5001000000 1000000 <= Z.quot x 1000000)
    by (apply Z.quot_le_mono; lia).
  change (Z.quot 5001000000 1000000) with 5001 in Q. lia.
Qed.

Lemma sleeps_app a b : sleeps (a ++ b) = sleeps a + sleeps b.
Proof.
  unfold sleeps. rewrite filter_app, length_app. lia.
Qed.

Lemma waitForSdcardFs_wp env before start : forall fuel s,
  5001000000 - (clock (world s) - start) <= 50000000 * Z.of_nat fuel ->
  clock (world s) - start < 5001000000 ->
  wp (waitForSdcardFs env fuel before start) s (fun o s' =>
    vol s' = vol s /\ errno (world s') = errno (world s) /\
    exists polls,
      trace (world s') = (trace (world s) ++ polls)%list /\
      Forall (fun e => is_poll e = true) polls /\
      ((o = Next tt /\
        exists w', env_GetDevice env w' (mSdcardFsFull (vol s)) <> before) \/
       (o = Return (- ETIMEDOUT) /\
        5000 < nanoseconds_to_milliseconds (clock (world s') - start) /\
        exists c, c - start < 5001000000 /\
                  50000000 * (sleeps polls - 1) <= c - clock (world s)))).
Proof.
  induction fuel as [| n IH]; intros s Hfuel Hclock.
  - exfalso. lia.
  - cbn [waitForSdcardFs].
    apply wp_bind, wp_gets. cbn beta iota.
    apply wp_bind, wp_GetDevice. intros d [w' Hd]. cbn beta iota.
    destruct (before =? d) eqn:Hbd.
    + apply wp_bind, wp_modify_world. cbn [vol world].
      apply wp_bind, wp_systemTime. cbn [vol world].
      set (s3 := {| vol := vol s; world := _ |}).
      assert (C3 : clock (world s) + 50000000 <= clock (world s3)).
      { unfold s3.
        cbn [world clock after child_progress set_clock log]. lia. }
      assert (T3 : trace (world s3)
                   = (trace (world s)
                      ++ [EvGetDevice (mSdcardFsFull (vol s)) d; EvUsleep 50000;
                          EvSystemTime (clock (world s3))])%list).
      { unfold s3.
        cbn [world clock trace after child_progress set_clock log].
        rewrite <- !app_assoc. reflexivity. }
      assert (E3 : errno (world s3) = errno (world s)) by reflexivity.
      assert (V3 : vol s3 = vol s) by reflexivity.
      assert (N3 : clock (world s3)
                   = clock (child_progress env
                       (set_clock
                          (clock (after [EvGetDevice (mSdcardFsFull (vol s)) d] (world s))
                           + 50000 * 1000
                           + Z.of_N (env_usleep_overshoot env
                                (after [EvGetDevice (mSdcardFsFull (vol s)) d] (world s))))
                          (log (EvUsleep 50000)
                             (after [EvGetDevice (mSdcardFsFull (vol s)) d] (world s))))))
        by reflexivity.
      rewrite <- N3. clearbody s3.
      destruct (nanoseconds_to_milliseconds (clock (world s3) - start) >? 5000)
        eqn:Hto.
      * apply wp_return. split; [exact V3 | split; [exact E3 | ]].
        eexists. split; [exact T3 | split].
        { repeat constructor. }
        right. split; [reflexivity | split].
        { apply Z.gtb_lt in Hto. exact Hto. }
        exists (clock (world s)). split; [exact Hclock | ].
        change (sleeps [_; _; _]) with 1. lia.
      * assert (Hle : nanoseconds_to_milliseconds (clock (world s3) - start) <= 5000).
        { rewrite Z.gtb_ltb, Z.ltb_ge in Hto. exact Hto. }
        apply quot_ms_bound in Hle.
        eapply wp_conseq.
        { apply (IH s3); lia. }
        cbn beta. intros o s' (Hv & He & polls & Ht & Hp & Ho).
        split; [congruence | split; [congruence | ]].
        exists ([EvGetDevice (mSdcardFsFull (vol s)) d; EvUsleep 50000;
                 EvSystemTime (clock (world s3))] ++ polls)%list.
        split.
        { rewrite Ht, T3, <- app_assoc. reflexivity. }
        split.
        { apply Forall_app. split; [repeat constructor | exact Hp]. }
        destruct Ho as [[-> Hw] | (-> & Hms & c & Hc1 & Hc2)].
        { left. split; [reflexivity | ]. rewrite <- V3. exact Hw. }
        right. split; [reflexivity | split; [exact Hms | ]].
        exists c. split; [exact Hc1 | ].
        rewrite sleeps_app. change (sleeps [_; _; _]) with 1. lia.
    + apply wp_ret. split; [reflexivity | split; [reflexivity | ]].
      exists [EvGetDevice (mSdcardFsFull (vol s)) d].
      split; [reflexivity | split; [repeat constructor | ]].
      left. split; [reflexivity | ].
      exists w'. rewrite <- Hd. apply Z.eqb_neq in Hbd. congruence.
Qed.

Lemma owning_spec v : owning v = mUseSdcardFs v && (mMountUserId v =? 0).
Proof.
  unfold owning. destruct (mUseSdcardFs v), (mMountUserId v =? 0); reflexivity.
Qed.

Lemma trace_after evs w : trace (after evs w) = (trace w ++ evs)%list.
Proof. reflexivity. Qed.

Lemma doMount_fuse_decision env s d ov w2 (isFuse : bool) :
  (exists w0, d = env_GetDevice env w0 (mSdcardFsFull (doMount_setup (vol s)))) ->
  Overlay env (doMount_setup (vol s))
    (after (prepared (doMount_setup (vol s)) d) (world s)) d ov w2 ->
  trace w2 = (trace (world s) ++ prepared (doMount_setup (vol s)) d ++ ov)%list ->
  wp (if isFuse && truthy (Z.land (mMountFlags (vol s)) kVisible)
      then doMount_fuse env (resolveLabel (vol s))
      else ret OK)
    (mkSt (doMount_setup (vol s)) w2)
    (fun o s' =>
       exists evs, trace (world s') = (trace (world s) ++ evs)%list /\
                   MountRun env s (status_of o) s' evs).
Proof.
  intros Hd Hov Ht.
  destruct (isFuse && truthy (Z.land (mMountFlags (vol s)) kVisible)) eqn:Hf.
  - eapply wp_conseq; [apply doMount_fuse_wp | ].
    cbn beta. intros o s' (a & H & Hlink). injection H as -> ->.
    eexists. split.
    + cbn [world]. rewrite trace_after, Ht, <- !app_assoc. reflexivity.
    + apply andb_prop in Hf. destruct Hf as [_ Hvis].
      exact (Run_fuse env s d ov w2 a Hd Hov Hvis Hlink).
  - apply wp_ret. eexists. split; [exact Ht | ].
    exact (Run_not_fuse env s d ov w2 isFuse Hd Hov Hf).
Qed.

Lemma doMount_runs env fuel s :
  (101 <= fuel)%nat ->
  exists r s' evs,
    doMount env fuel s = Some (r, s') /\
    trace (world s') = (trace (world s) ++ evs)%list /\
    MountRun env s r s' evs.
Proof.
  intros Hfuel.
  assert (W : wp (doMount_body env fuel) s (fun o s' =>
    exists evs, trace (world s') = (trace (world s) ++ evs)%list /\
                MountRun env s (status_of o) s' evs)).
  { unfold doMount_body.
    repeat wp_step.
    2-5: cbn [errno after fold_left replay_errno app]; eexists;
      (split; [apply trace_after | ]); cbn [status_of];
      first [ exact (Run_prepare_failed env s (Err code) (Ok tt) (Ok tt) (Ok tt) code eq_refl)
            | exact (Run_prepare_failed env s (Ok tt) (Err code) (Ok tt) (Ok tt) code eq_refl)
            | exact (Run_prepare_failed env s (Ok tt) (Ok tt) (Err code) (Ok tt) code eq_refl)
            | exact (Run_prepare_failed env s (Ok tt) (Ok tt) (Ok tt) (Err code) code eq_refl) ].
    apply wp_GetDevice. intros d Hd. wp_simpl.
    fold (doMount_setup (vol s)).
    change (after _ (world s)) with (after (prepared (doMount_setup (vol s)) d) (world s)).
    change ("/mnt/runtime/full/" ++ resolveLabel (vol s))
      with (mSdcardFsFull (doMount_setup (vol s))) in Hd.
    wp_step. wp_step. wp_step. wp_step. wp_step.
    apply wp_gets. cbn beta iota.
    set (isFuse := env_prop_fuse env _). clearbody isFuse.
    apply wp_bind.
    change (mUseSdcardFs (doMount_setup (vol s))
            && (mMountUserId (vol {| vol := doMount_setup (vol s);
                  world := after (prepared (doMount_setup (vol s)) d) (world s) |}) =? 0))
      with (mUseSdcardFs (vol s) && (mMountUserId (vol s) =? 0)).
    rewrite <- owning_spec.
    destruct (owning (vol s)) eqn:Hown.
    - unfold doMount_sdcardfs.
      apply wp_bind, wp_fork_execl.
      + intros e. repeat wp_step.
        rewrite errno_after_fork_err. eexists. split; [apply trace_after | ].
        exact (Run_fork_failed env s d e Hown).
      + intros pid w1 Ht1 Hc1 He1.
        cbn [world] in Ht1, Hc1, He1.
        repeat wp_step.
        apply wp_systemTime. wp_simpl. apply wp_bind.
        eapply wp_conseq.
        { apply waitForSdcardFs_wp; cbn [world clock after]; lia. }
        cbn beta. intros o s' (Hv & He & polls & Ht & Hp & Ho).
        cbn [vol world] in Hv, He, Ht. rewrite trace_after, Ht1 in Ht.
        cbn [trace after] in Ht. rewrite <- !app_assoc in Ht.
        cbn [clock after] in Hc1.
        destruct s' as [v' w']. cbn [vol world] in *. subst v'.
        destruct Ho as [[-> Hw] | (-> & Hms & c & Hc & Hs)].
        * apply wp_modify_world. cbn [vol world].
          apply (doMount_fuse_decision env s d
                   (spawn_events (doMount_setup (vol s)) pid
                      (clock (after (prepared (doMount_setup (vol s)) d) (world s)))
                    ++ polls ++ [EvWaitpid (Zpos pid)])%list _ isFuse Hd).
          -- apply Overlay_mounted; [exact Hown | exact Hp | exact Hw | ].
             cbn [trace set_child log]. rewrite Ht, Hc1, trace_after.
             unfold spawn_events. cbn [clock after].
             rewrite <- ?app_assoc. cbn [app]. reflexivity.
          -- cbn [trace set_child log]. rewrite Ht, Hc1.
             unfold spawn_events. cbn [clock after].
             rewrite <- ?app_assoc. cbn [app]. reflexivity.
        * exists (prepared (doMount_setup (vol s)) d
                  ++ spawn_events (doMount_setup (vol s)) pid (clock (world s))
                  ++ polls)%list.
          split.
          -- rewrite Ht, Hc1. unfold spawn_events.
             rewrite <- ?app_assoc. cbn [app]. reflexivity.
          -- cbn [status_of]. apply Run_timed_out;
               [exact Hown | exact Hd | exact Hp | | ].
             ++ rewrite <- Hc1. exact Hms.
             ++ cbn [clock after] in Hs. lia.
    - apply wp_ret.
      apply (doMount_fuse_decision env s d [] _ isFuse Hd).
      + apply Overlay_skipped. exact Hown.
      + rewrite trace_after, app_nil_r. reflexivity. }
  destruct W as (o & s' & E & evs & Ht & Hr).
  exists (status_of o), s', evs.
  unfold doMount. rewrite (call_status _ _ _ _ E). auto.
Qed.

(** ** Facts about the closed forms *)

Lemma precedes_b_sound P Q evs :
  precedes_b P Q evs = true -> precedes P Q evs.
Proof.
  induction evs as [| e tl IH]; intros H i j a b Hi Hj Pa Qb.
  - destruct i; discriminate Hi.
  - cbn [precedes_b] in H. apply andb_prop in H. destruct H as [H1 H2].
    destruct j as [| j'].
    + cbn in Hj. injection Hj as <-. rewrite Qb in H1.
      apply nth_error_In in Hi.
      rewrite forallb_forall in H1. specialize (H1 a Hi).
      rewrite Pa in H1. discriminate H1.
    + destruct i as [| i'].
      * apply Nat.lt_0_succ.
      * apply -> Nat.succ_lt_mono. exact (IH H2 i' j' a b Hi Hj Pa Qb).
Qed.

Lemma targets_differ v :
  String.eqb (androidTarget v) (installerTarget v) = false.
Proof. reflexivity. Qed.

Lemma targets_differ' v :
  String.eqb (installerTarget v) (androidTarget v) = false.
Proof. reflexivity. Qed.

Lemma in_unmountFuseBindMounts_events v st1 st2 x :
  In x (unmountFuseBindMounts_events v st1 st2) ->
  (mUseSdcardFs v = true /\ x = EvUnmountTree (installerTarget v) st1)
  \/ x = EvUnmountTree (androidTarget v) st2.
Proof.
  unfold unmountFuseBindMounts_events. intros H.
  apply in_app_or in H. destruct H as [H | H].
  - destruct (mUseSdcardFs v); [ | destruct H].
    destruct H as [<- | []]. left. auto.
  - destruct H as [<- | []]. right. reflexivity.
Qed.

Lemma in_doUnmount_events v a x :
  In x (doUnmount_events v a) ->
  x = EvKillProcessesUsingPath (kill_scope v)
  \/ (mFuseMounted v = true /\
      ((mUseSdcardFs v = true /\
        x = EvUnmountTree (installerTarget v) (u_installer a))
       \/ x = EvUnmountTree (androidTarget v) (u_android a)
       \/ x = EvUnmountUserFuse (mMountUserId v) (mInternalPath v)
                (resolveLabel v) (u_stop a)))
  \/ (past_bridge v a = true /\ owning v = true /\
      In x (views_teardown_events v a)).
Proof.
  unfold doUnmount_events. intros H.
  apply in_app_or in H. destruct H as [[<- | []] | H]; [left; reflexivity | ].
  apply in_app_or in H. destruct H as [H | H].
  - right. left. destruct (mFuseMounted v); [ | destruct H].
    split; [reflexivity | ].
    apply in_app_or in H. destruct H as [H | [<- | []]].
    + apply in_unmountFuseBindMounts_events in H. tauto.
    + tauto.
  - right. right.
    destruct (past_bridge v a), (owning v); cbn in H; try contradiction.
    auto.
Qed.

Lemma kinds_doUnmount_events v a x :
  In x (doUnmount_events v a) -> In (kind x) teardown_kinds.
Proof.
  intros H. apply in_doUnmount_events in H.
  destruct H as [-> | [(_ & [(_ & ->) | [-> | ->]]) | (_ & _ & H)]];
    cbn; auto 6.
  unfold views_teardown_events in H. cbn in H.
  repeat (destruct H as [<- | H]; [cbn; auto 6 | ]). destruct H.
Qed.

Lemma kinds_doFuseBindMount_events src tgt a x :
  In x (doFuseBindMount_events src tgt a) -> In (kind x) bind_kinds.
Proof.
  unfold doFuseBindMount_events. intros H.
  apply in_app_or in H. destruct H as [[<- | []] | H]; [cbn; auto | ].
  apply in_app_or in H. destruct H as [H | H].
  - destruct (b_present a); cbn in H; [contradiction | ].
    destruct H as [<- | []]. cbn. auto.
  - destruct (b_present a || is_ok (b_prepare a)); cbn in H; [ | contradiction].
    destruct H as [<- | []]. cbn. auto.
Qed.

Lemma kinds_mountFuseBindMounts_events v a1 a2 x :
  In x (mountFuseBindMounts_events v a1 a2) -> In (kind x) bind_kinds.
Proof.
  unfold mountFuseBindMounts_events. intros H.
  apply in_app_or in H. destruct H as [H | H].
  - exact (kinds_doFuseBindMount_events _ _ _ _ H).
  - destruct ((doFuseBindMount_status a1 =? OK) && mUseSdcardFs v);
      [ | destruct H].
    exact (kinds_doFuseBindMount_events _ _ _ _ H).
Qed.

Lemma kinds_callback_events v x :
  In x (callback_events v) -> kind x = KOnVolumeChecking.
Proof.
  unfold callback_events. destruct (mMountCallback v); cbn; [ | contradiction].
  intros [<- | []]. reflexivity.
Qed.

Lemma kinds_doMount_fuse_calls v l a x :
  In x (doMount_fuse_calls v l a) ->
  In (kind x) ([KMountUserFuse; KOnVolumeChecking] ++ bind_kinds).
Proof.
  unfold doMount_fuse_calls. intros [<- | H]; [cbn; auto | ].
  destruct (f_mount a =? 0); [ | destruct H].
  apply in_app_or in H. destruct H as [H | H].
  - rewrite (kinds_callback_events _ _ H). cbn. auto.
  - destruct (fuse_ready v); [ | destruct H].
    apply kinds_mountFuseBindMounts_events in H. cbn in *. tauto.
Qed.

Lemma kinds_doMount_fuse_events v l a x :
  In x (doMount_fuse_events v l a) -> In (kind x) fuse_kinds.
Proof.
  unfold doMount_fuse_events. intros H.
  apply in_app_or in H. destruct H as [H | H].
  - apply kinds_doMount_fuse_calls in H. cbn in *. tauto.
  - destruct (rolled_back v a); [ | destruct H].
    destruct H as [<- | H]; [cbn; auto | ].
    apply kinds_doUnmount_events in H. cbn in *. tauto.
Qed.

Lemma kinds_prepare_events v r1 r2 r3 r4 x :
  In x (prepare_events v r1 r2 r3 r4) -> kind x = KPrepareDir.
Proof.
  unfold prepare_events.
  destruct (is_ok r1), (is_ok r2), (is_ok r3); cbn;
    intros H; repeat (destruct H as [<- | H]; [reflexivity | ]); destruct H.
Qed.

Lemma kinds_prepared v d x :
  In x (prepared v d) -> In (kind x) [KPrepareDir; KGetDevice].
Proof.
  unfold prepared. intros H. apply in_app_or in H. destruct H as [H | H].
  - rewrite (kinds_prepare_events _ _ _ _ _ _ H). cbn. auto.
  - destruct H as [<- | []]. cbn. auto.
Qed.

Lemma kinds_poll x :
  is_poll x = true -> In (kind x) [KGetDevice; KSystemTime; KUsleep].
Proof. destruct x; cbn; intros H; try discriminate H; auto. Qed.

(** The mount table after a sequence of calls. *)

Lemma umount_nothing p t : nothing_at p t -> umount p t = t.
Proof.
  intros H. unfold umount. induction t as [| e t IH]; [reflexivity | ].
  cbn. rewrite (H e (or_introl eq_refl)). cbn. f_equal.
  apply IH. intros e' He'. apply H. right. exact He'.
Qed.

Lemma in_umount p t e :
  In e (umount p t) <-> In e t /\ mounted_at p e = false.
Proof.
  unfold umount. rewrite filter_In, negb_true_iff. reflexivity.
Qed.

Lemma views_differ_from_targets v l p :
  In p (view_paths l) ->
  String.eqb p (androidTarget v) = false
  /\ String.eqb p (installerTarget v) = false.
Proof.
  unfold view_paths. cbn [In].
  intros [<- | [<- | [<- | [<- | []]]]]; split; reflexivity.
Qed.

(** ** doUnmount *)

Lemma stop_event_in_doUnmount v a u i l rs :
  In (EvUnmountUserFuse u i l rs) (doUnmount_events v a) ->
  mFuseMounted v = true /\ rs = u_stop a.
Proof.
  intros H. apply in_doUnmount_events in H.
  destruct H as [H | [(Hf & [(_ & H) | [H | H]]) | (_ & _ & H)]];
    try discriminate H.
  - injection H as _ _ _ ->. auto.
  - unfold views_teardown_events in H. cbn in H.
    repeat (destruct H as [H | H]; [discriminate H | ]). destruct H.
Qed.

Lemma stop_event_of_fuseMounted v a :
  mFuseMounted v = true ->
  In (EvUnmountUserFuse (mMountUserId v) (mInternalPath v) (resolveLabel v)
        (u_stop a))
     (doUnmount_events v a).
Proof.
  intros Hf. unfold doUnmount_events. rewrite Hf.
  apply in_or_app. right. apply in_or_app. left.
  apply in_or_app. right. left. reflexivity.
Qed.

Lemma mFuseMounted_doUnmount_vol v a :
  mFuseMounted (doUnmount_vol v a)
  = mFuseMounted v && negb (is_ok (u_stop a)).
Proof.
  unfold doUnmount_vol, past_bridge, clear_views.
  destruct (mFuseMounted v) eqn:Hf, (is_ok (u_stop a)), (owning v);
    cbn; rewrite ?Hf; reflexivity.
Qed.

Lemma stored_views_doUnmount_vol v a :
  stored_views (doUnmount_vol v a)
  = if past_bridge v a && owning v
    then [""; ""; ""; ""]
    else stored_views v.
Proof.
  unfold doUnmount_vol, past_bridge, clear_views.
  destruct (mFuseMounted v), (is_ok (u_stop a)), (owning v); reflexivity.
Qed.

Lemma doUnmount_status_OK v a :
  doUnmount_status v a = OK -> past_bridge v a = true.
Proof.
  unfold doUnmount_status, past_bridge.
  destruct (mFuseMounted v); [ | reflexivity].
  destruct (u_stop a); [reflexivity | ]. intros H. discriminate H.
Qed.

(** doUnmount on a volume whose bridge is not mounted and, in the owning
    context, whose stored view paths are empty: success, and nothing
    changes. *)
Lemma doUnmount_noop env s :
  mFuseMounted (vol s) = false ->
  (owning (vol s) = true -> stored_views (vol s) = [""; ""; ""; ""]) ->
  nothing_at "" (mounts (world s)) ->
  exists s', doUnmount env s = Some (OK, s') /\
             mounts (world s') = mounts (world s) /\
             vol s' = vol s.
Proof.
  intros Hf Hviews Hnone.
  destruct (doUnmount_closed env s) as (a & E).
  eexists. split; [rewrite E; f_equal; f_equal | split].
  - unfold doUnmount_status. rewrite Hf. reflexivity.
  - cbn [world after mounts]. unfold doUnmount_events, past_bridge.
    rewrite Hf. cbn [negb orb andb app fold_left replay_event].
    destruct (owning (vol s)) eqn:Hown; [ | reflexivity].
    specialize (Hviews eq_refl). unfold stored_views in Hviews.
    injection Hviews as H1 H2 H3 H4.
    unfold views_teardown_events. rewrite H1, H2, H3, H4.
    cbn [fold_left replay_event].
    rewrite !(umount_nothing "" _ Hnone).
    destruct (u_default a =? 0), (u_read a =? 0), (u_write a =? 0),
      (u_full a =? 0); rewrite ?(umount_nothing "" _ Hnone); reflexivity.
  - cbn [vol]. unfold doUnmount_vol, past_bridge. rewrite Hf.
    cbn [negb orb andb].
    destruct (owning (vol s)) eqn:Hown; [ | reflexivity].
    specialize (Hviews eq_refl). unfold stored_views in Hviews.
    injection Hviews as H1 H2 H3 H4.
    destruct (vol s). cbn in *. subst. reflexivity.
Qed.

(** C5. In the calls of one doUnmount: the first call kills the processes
    using the volume, scoped to the per-user subpath when the bridge is
    mounted and to the whole volume path otherwise, and it comes before
    every unmount; the teardown of the installer bind mount comes before
    that of the primary bind mount; the bridge stop comes before every
    teardown of a legacy-overlay view. *)
Theorem C5_unmount_order env s :
  exists r s' evs,
    doUnmount env s = Some (r, s') /\
    trace (world s') = (trace (world s) ++ evs)%list /\
    hd_error evs
    = Some (EvKillProcessesUsingPath
              (if mFuseMounted (vol s)
               then mPath (vol s) ++ "/" ++ fmt_d (mMountUserId (vol s))
               else mPath (vol s))) /\
    precedes is_kill is_unmount_op evs /\
    precedes (is_installer_teardown (vol s)) (is_primary_teardown (vol s)) evs /\
    precedes is_bridge_stop is_view_teardown evs /\
    (mFuseMounted (vol s) = true ->
     (exists st, In (EvUnmountTree (androidTarget (vol s)) st) evs) /\
     (exists rs, In (EvUnmountUserFuse (mMountUserId (vol s))
                       (mInternalPath (vol s)) (resolveLabel (vol s)) rs) evs) /\
     (mUseSdcardFs (vol s) = true ->
      exists st, In (EvUnmountTree (installerTarget (vol s)) st) evs)).
Proof.
  destruct (doUnmount_closed env s) as (a & E).
  eexists _, _, (doUnmount_events (vol s) a).
  split; [exact E | split; [reflexivity | ]].
  split; [reflexivity | ].
  assert (Horder :
    precedes_b is_kill is_unmount_op (doUnmount_events (vol s) a) = true /\
    precedes_b (is_installer_teardown (vol s)) (is_primary_teardown (vol s))
      (doUnmount_events (vol s) a) = true /\
    precedes_b is_bridge_stop is_view_teardown (doUnmount_events (vol s) a)
    = true).
  { unfold doUnmount_events, past_bridge, unmountFuseBindMounts_events,
      views_teardown_events.
    destruct (mFuseMounted (vol s)), (mUseSdcardFs (vol s)),
      (is_ok (u_stop a)), (owning (vol s));
      cbn -[androidTarget installerTarget];
      rewrite ?String.eqb_refl, ?targets_differ, ?targets_differ';
      auto. }
  destruct Horder as (H1 & H2 & H3).
  repeat (split; [apply precedes_b_sound; assumption | ]).
  intros Hf. split; [ | split].
  - exists (u_android a). unfold doUnmount_events. rewrite Hf.
    apply in_or_app. right. apply in_or_app. left.
    apply in_or_app. left. unfold unmountFuseBindMounts_events.
    apply in_or_app. right. left. reflexivity.
  - exists (u_stop a). exact (stop_event_of_fuseMounted _ a Hf).
  - intros Hs. exists (u_installer a). unfold doUnmount_events. rewrite Hf.
    apply in_or_app. right. apply in_or_app. left.
    apply in_or_app. left. unfold unmountFuseBindMounts_events. rewrite Hs.
    left. reflexivity.
Qed.

(** C8. With the bridge mounted, doUnmount asks for the bridge to be stopped;
    if that fails with errno [e] it returns [-e] (not OK), makes no call after
    it, leaves the fields (the bridge-mounted flag, the stored view paths) as
    they were and unmounts nothing but the two bind mounts, so the views of
    the legacy overlay stay mounted; the bridge-mounted flag becomes false
    exactly when the stop succeeded. *)
Theorem C8_bridge_stop_failure_aborts env s :
  mFuseMounted (vol s) = true ->
  exists r s' evs,
    doUnmount env s = Some (r, s') /\
    trace (world s') = (trace (world s) ++ evs)%list /\
    (exists rs, In (EvUnmountUserFuse (mMountUserId (vol s))
                      (mInternalPath (vol s)) (resolveLabel (vol s)) rs) evs) /\
    (forall u i l e,
       In (EvUnmountUserFuse u i l (Err e)) evs ->
       r = - Zpos e /\ r <> OK /\ vol s' = vol s /\
       (forall x, In x evs ->
                  In (kind x) [KKill; KUnmountTree; KUnmountUserFuse]) /\
       (forall en, In en (mounts (world s)) ->
                   mounted_at (installerTarget (vol s)) en = false ->
                   mounted_at (androidTarget (vol s)) en = false ->
                   In en (mounts (world s'))) /\
       (forall p, In p (view_paths (resolveLabel (vol s))) ->
                  In (OverlayEntry p) (mounts (world s)) ->
                  In (OverlayEntry p) (mounts (world s')))) /\
    (mFuseMounted (vol s') = false <->
     exists u i l, In (EvUnmountUserFuse u i l (Ok tt)) evs).
Proof.
  intros Hf.
  destruct (doUnmount_closed env s) as (a & E).
  eexists _, _, (doUnmount_events (vol s) a).
  split; [exact E | split; [reflexivity | ]].
  split; [exists (u_stop a); exact (stop_event_of_fuseMounted _ a Hf) | ].
  split.
  - intros u i l e Hin.
    apply stop_event_in_doUnmount in Hin. destruct Hin as [_ Hstop].
    assert (Hpast : past_bridge (vol s) a = false)
      by (unfold past_bridge; rewrite Hf, <- Hstop; reflexivity).
    assert (Hkeep : forall en, In en (mounts (world s)) ->
              mounted_at (installerTarget (vol s)) en = false ->
              mounted_at (androidTarget (vol s)) en = false ->
              In en (fold_left replay_event (doUnmount_events (vol s) a)
                       (mounts (world s)))).
    { intros en Hen Hi Ha. unfold doUnmount_events.
      rewrite Hf, Hpast, <- Hstop. unfold unmountFuseBindMounts_events.
      destruct (mUseSdcardFs (vol s)); cbn [app andb fold_left replay_event].
      - destruct (u_installer a =? 0), (u_android a =? 0);
          rewrite ?in_umount; auto.
      - destruct (u_android a =? 0); rewrite ?in_umount; auto. }
    split; [ | split; [ | split; [ | split; [ | split]]]].
    + unfold doUnmount_status. rewrite Hf, <- Hstop. reflexivity.
    + unfold doUnmount_status. rewrite Hf, <- Hstop. discriminate.
    + cbn [vol]. unfold doUnmount_vol. rewrite Hpast, Hf, <- Hstop.
      reflexivity.
    + intros x Hx. apply in_doUnmount_events in Hx.
      destruct Hx as [-> | [(_ & [(_ & ->) | [-> | ->]]) | (Hp & _)]];
        cbn; auto.
      rewrite Hpast in Hp. discriminate Hp.
    + exact Hkeep.
    + intros p Hp Hin.
      destruct (views_differ_from_targets (vol s) _ p Hp) as [Ha Hi].
      apply Hkeep; [exact Hin | exact Hi | exact Ha].
  - cbn [vol]. rewrite mFuseMounted_doUnmount_vol, Hf. cbn [andb]. split.
    + intros H. apply negb_false_iff in H.
      exists (mMountUserId (vol s)), (mInternalPath (vol s)),
        (resolveLabel (vol s)).
      pose proof (stop_event_of_fuseMounted _ a Hf) as Hin.
      destruct (u_stop a) as [[] | e]; [exact Hin | discriminate H].
    + intros (u & i & l & Hin).
      apply stop_event_in_doUnmount in Hin. destruct Hin as [_ <-].
      reflexivity.
Qed.

(** C8 at a mounted volume whose bridge cannot be stopped: doUnmount returns
    -EBUSY and the bridge stays mounted. *)
Lemma C8_witness :
  mFuseMounted (vol scenario_A_mounted) = true /\
  (exists r s' rs,
     doUnmount env_stop_fails scenario_A_mounted = Some (r, s') /\
     In (EvUnmountUserFuse 5 "/data/media" "emulated" rs) (trace (world s'))) /\
  (exists s', doUnmount env_stop_fails scenario_A_mounted = Some (-16, s') /\
              mFuseMounted (vol s') = true).
Proof.
  assert (Hf : mFuseMounted (vol scenario_A_mounted) = true)
    by (vm_compute; reflexivity).
  split; [exact Hf | split].
  - destruct (C8_bridge_stop_failure_aborts env_stop_fails scenario_A_mounted Hf)
      as (r & s' & evs & E & Ht & (rs & Hin) & _).
    exists r, s', rs. split; [exact E | ].
    rewrite Ht. apply in_or_app. right. exact Hin.
  - vm_compute. eexists. split; reflexivity.
Defined.

(** C9. doUnmount on an instance that was never mounted (as either
    constructor leaves it), or on one that a doUnmount has just left
    unmounted with success, returns OK and changes neither the mount table
    nor the fields - the bridge-mounted flag stays false - provided nothing
    is mounted at the empty path. *)
Theorem C9_unmount_idempotent env :
  (forall v w,
     (exists base rawPath userId sdcardfs,
        v = EmulatedVolume base rawPath userId sdcardfs) \/
     (exists base rawPath major minor fsUuid userId sdcardfs,
        v = EmulatedVolume_dev base rawPath major minor fsUuid userId
              sdcardfs) ->
     nothing_at "" (mounts w) ->
     exists s', doUnmount env (mkSt v w) = Some (OK, s') /\
                mounts (world s') = mounts w /\
                vol s' = v /\ mFuseMounted (vol s') = false) /\
  (forall s, exists r1 s1,
     doUnmount env s = Some (r1, s1) /\
     (r1 = OK -> nothing_at "" (mounts (world s1)) ->
      exists s2, doUnmount env s1 = Some (OK, s2) /\
                 mounts (world s2) = mounts (world s1) /\
                 vol s2 = vol s1 /\ mFuseMounted (vol s2) = false)).
Proof.
  split.
  - intros v w Hv Hnone.
    assert (Hfresh : mFuseMounted v = false /\
                     stored_views v = [""; ""; ""; ""]).
    { destruct Hv as [(b & p & u & f & ->) | (b & p & ma & mi & i & u & f & ->)];
        split; reflexivity. }
    destruct Hfresh as [Hf Hs].
    destruct (doUnmount_noop env (mkSt v w) Hf (fun _ => Hs) Hnone)
      as (s' & E & Hm & Hvol).
    exists s'. cbn [vol world] in *. rewrite Hvol. auto.
  - intros s. destruct (doUnmount_closed env s) as (a & E).
    eexists _, _. split; [exact E | ].
    intros Hok Hnone. apply doUnmount_status_OK in Hok.
    set (s1 := {| vol := doUnmount_vol (vol s) a; world := _ |}) in *.
    assert (Hf : mFuseMounted (vol s1) = false).
    { cbn [s1 vol]. rewrite mFuseMounted_doUnmount_vol.
      unfold past_bridge in Hok.
      destruct (mFuseMounted (vol s)), (is_ok (u_stop a));
        try reflexivity; discriminate Hok. }
    assert (Hs : owning (vol s1) = true ->
                 stored_views (vol s1) = [""; ""; ""; ""]).
    { cbn [s1 vol]. rewrite stored_views_doUnmount_vol, Hok. cbn [andb].
      assert (Ho : owning (doUnmount_vol (vol s) a) = owning (vol s)).
      { unfold doUnmount_vol, owning, clear_views.
        destruct (past_bridge (vol s) a
                  && negb (negb (mMountUserId (vol s) =? 0)
                           || negb (mUseSdcardFs (vol s)))),
          (mFuseMounted (vol s) && is_ok (u_stop a)); reflexivity. }
      rewrite Ho. intros ->. reflexivity. }
    destruct (doUnmount_noop env s1 Hf Hs Hnone) as (s2 & E2 & Hm & Hvol).
    exists s2. rewrite Hvol. auto.
Qed.

(** C9 at a never-mounted volume of user 0 with the legacy overlay, on an
    empty mount table. *)
Lemma C9_witness :
  nothing_at "" (mounts world0) /\
  exists s', doUnmount env_ok scenario_fresh = Some (OK, s') /\
             mounts (world s') = [] /\ mFuseMounted (vol s') = false.
Proof.
  assert (Hnone : nothing_at "" (mounts world0)) by (intros e []).
  split; [exact Hnone | ].
  destruct (C9_unmount_idempotent env_ok) as [Hfresh _].
  destruct (Hfresh (vol scenario_fresh) world0) as (s' & E & Hm & _ & Hf).
  - left. exists (base_volume 0 0 None), "/data/media", 0, true. reflexivity.
  - exact Hnone.
  - exists s'. auto.
Defined.

(** C10. With the bridge mounted, whatever status the teardown of the
    primary bind mount returns, doUnmount goes on to ask for the bridge to be
    stopped, and its own status is that of the stop alone: OK when the stop
    succeeds (and the bridge-mounted flag is then false), also when the
    primary bind mount could not be unmounted. *)
Theorem C10_bind_teardown_status_discarded env s :
  mFuseMounted (vol s) = true ->
  exists r s' evs st rs,
    doUnmount env s = Some (r, s') /\
    trace (world s') = (trace (world s) ++ evs)%list /\
    (exists pre post,
       evs = (pre ++ EvUnmountTree (androidTarget (vol s)) st
                  :: EvUnmountUserFuse (mMountUserId (vol s))
                       (mInternalPath (vol s)) (resolveLabel (vol s)) rs
                  :: post)%list /\
       (forall x, In x pre -> is_bridge_stop x = false)) /\
    (forall st', In (EvUnmountTree (androidTarget (vol s)) st') evs -> st' = st) /\
    r = match rs with Ok _ => OK | Err e => - Zpos e end /\
    mFuseMounted (vol s') = negb (is_ok rs).
Proof.
  intros Hf.
  destruct (doUnmount_closed env s) as (a & E).
  eexists _, _, (doUnmount_events (vol s) a), (u_android a), (u_stop a).
  split; [exact E | split; [reflexivity | ]].
  split; [ | split; [ | split]].
  - exists ([EvKillProcessesUsingPath (kill_scope (vol s))]
            ++ (if mUseSdcardFs (vol s)
                then [EvUnmountTree (installerTarget (vol s)) (u_installer a)]
                else []))%list.
    eexists. split.
    + unfold doUnmount_events, unmountFuseBindMounts_events. rewrite Hf.
      rewrite <- !app_assoc. cbn [app]. reflexivity.
    + intros x Hx. apply in_app_or in Hx.
      destruct Hx as [[<- | []] | Hx]; [reflexivity | ].
      destruct (mUseSdcardFs (vol s)); [ | destruct Hx].
      destruct Hx as [<- | []]. reflexivity.
  - intros st' Hin. apply in_doUnmount_events in Hin.
    destruct Hin as [H | [(_ & [(_ & H) | [H | H]]) | (_ & _ & H)]].
    + discriminate H.
    + exfalso.
      apply (f_equal (fun e => match e with
                               | EvUnmountTree p _ => p
                               | _ => ""
                               end)) in H.
      pose proof (targets_differ (vol s)) as Hd.
      rewrite H, String.eqb_refl in Hd. discriminate Hd.
    + apply (f_equal (fun e => match e with
                               | EvUnmountTree _ x => x
                               | _ => 0
                               end)) in H.
      exact H.
    + discriminate H.
    + unfold views_teardown_events in H. cbn in H.
      repeat (destruct H as [H | H]; [discriminate H | ]). destruct H.
  - unfold doUnmount_status. rewrite Hf. reflexivity.
  - cbn [vol]. rewrite mFuseMounted_doUnmount_vol, Hf. reflexivity.
Qed.

(** C10 at a mounted volume whose primary bind mount cannot be unmounted:
    doUnmount still returns OK. *)
Lemma C10_witness :
  mFuseMounted (vol scenario_A_mounted) = true /\
  (exists r s' (rs : Result unit),
     doUnmount env_busy scenario_A_mounted = Some (r, s') /\
     r = match rs with Ok _ => OK | Err e => - Zpos e end /\
     mFuseMounted (vol s') = negb (is_ok rs)) /\
  (exists s', doUnmount env_busy scenario_A_mounted = Some (OK, s') /\
              In (EvUnmountTree "/mnt/user/5/emulated/5/Android" (-16))
                 (trace (world s')) /\
              mFuseMounted (vol s') = false).
Proof.
  assert (Hf : mFuseMounted (vol scenario_A_mounted) = true)
    by (vm_compute; reflexivity).
  split; [exact Hf | split].
  - destruct (C10_bind_teardown_status_discarded env_busy scenario_A_mounted Hf)
      as (r & s' & evs & st & rs & E & _ & _ & _ & Hr & Hm).
    exists r, s', rs. auto.
  - vm_compute. eexists. split; [reflexivity | split; [ | reflexivity]].
    do 9 right. left. reflexivity.
Defined.

(** ** getLabel *)

(** C4 as stated, refuted: the first constructor stores the label
    "emulated", so a volume that is not primary returns the literal too. *)
Lemma C4_counterexample : ~ getLabel_as_stated.
Proof.
  intros H. destruct (H scenario_A) as (l & E & [Hl _] & _).
  assert (El : l = "emulated").
  { change (getLabel scenario_A) with (Some (Next "emulated", scenario_A)) in E.
    injection E as <-. reflexivity. }
  specialize (Hl El). discriminate Hl.
Qed.

(** C4 (amended). getLabel returns the literal "emulated" when the primary
    flag is set and the stored label otherwise - so it returns the literal
    exactly when the flag is set or the stored label is itself "emulated";
    it leaves the state as it was, and its result depends on the stored
    label and the primary flag alone. *)
Theorem C4_getLabel_resolves s :
  exists l,
    getLabel s = Some (Next l, s) /\
    l = (if primaryFlag (vol s) then "emulated" else mLabel (vol s)) /\
    (l = "emulated" <->
     primaryFlag (vol s) = true \/ mLabel (vol s) = "emulated") /\
    (forall s', mLabel (vol s') = mLabel (vol s) ->
                primaryFlag (vol s') = primaryFlag (vol s) ->
                getLabel s' = Some (Next l, s')).
Proof.
  assert (G : forall t,
             getLabel t
             = Some (Next (if primaryFlag (vol t) then "emulated"
                           else mLabel (vol t)), t)).
  { intros t. unfold getLabel, bind, getMountFlags, field, gets, primaryFlag.
    destruct (truthy (Z.land (mMountFlags (vol t)) kPrimary)); reflexivity. }
  eexists. split; [apply G | split; [reflexivity | split]].
  - destruct (primaryFlag (vol s)); split; auto.
    intros [H | H]; [discriminate H | exact H].
  - intros s' Hl Hp. rewrite G, Hl, Hp. reflexivity.
Qed.

(** ** mountFuseBindMounts *)

Lemma in_doFuseBindMount_events src tgt a x y st :
  In (EvBindMount x y st) (doFuseBindMount_events src tgt a) ->
  x = src /\ y = tgt.
Proof.
  unfold doFuseBindMount_events. intros H.
  apply in_app_or in H. destruct H as [[H | []] | H]; [discriminate H | ].
  apply in_app_or in H. destruct H as [H | H].
  - destruct (b_present a); cbn in H; [contradiction | ].
    destruct H as [H | []]. discriminate H.
  - destruct (b_present a || is_ok (b_prepare a)); cbn in H; [ | contradiction].
    destruct H as [H | []]. injection H as <- <- _. auto.
Qed.

Lemma find_app_first {A} (f : A -> bool) l1 l2 :
  find f (l1 ++ l2)
  = match find f l1 with Some x => Some x | None => find f l2 end.
Proof.
  induction l1 as [| x l1 IH]; [reflexivity | ].
  cbn. destruct (f x); [reflexivity | exact IH].
Qed.

Lemma find_doFuseBindMount_events src tgt a :
  find is_bind_mount (doFuseBindMount_events src tgt a)
  = if b_present a || is_ok (b_prepare a)
    then Some (EvBindMount src tgt (b_bind a))
    else None.
Proof.
  unfold doFuseBindMount_events.
  destruct (b_present a), (is_ok (b_prepare a)); reflexivity.
Qed.

Lemma doFuseBindMount_not_prepared a :
  b_present a || is_ok (b_prepare a) = false ->
  (doFuseBindMount_status a =? OK) = false.
Proof.
  unfold doFuseBindMount_status.
  destruct (b_present a); [discriminate | ].
  destruct (b_prepare a); [discriminate | ]. reflexivity.
Qed.

Lemma squeeze_double_slash raw rest :
  squeeze ("/" ++ String "/" raw ++ rest) = squeeze (String "/" raw ++ rest).
Proof. reflexivity. Qed.

(** C7 as stated, refuted: without the legacy overlay the source string has
    a slash before the raw path. *)
Lemma C7_counterexample : ~ primary_source_as_stated.
Proof.
  intros H.
  assert (E : mountFuseBindMounts env_ok scenario_A
              = Some (OK, scenario_A_bound))
    by (vm_compute; reflexivity).
  specialize (H env_ok scenario_A OK scenario_A_bound
                [EvAccess "//data/media/5/Android" true;
                 EvBindMount "//data/media/5/Android"
                   "/mnt/user/5/emulated/5/Android" 0]
                "//data/media/5/Android" 0 E eq_refl
                (or_intror (or_introl eq_refl))).
  discriminate H.
Qed.

(** C7 (amended). Every bind mount that mountFuseBindMounts asks for is the
    primary one or, with the legacy overlay, the installer one, and the
    first is the primary one.  The primary one has the target
    "/mnt/user/<userId>/<label>/<userId>/Android" and the source
    "/mnt/runtime/default/<label>/<userId>/Android" when the legacy overlay
    is in use, "/<rawPath>/<userId>/Android" otherwise: a slash, then the raw
    path - which, for an absolute raw path, names the directory
    "<rawPath>/<userId>/Android" once a run of slashes is read as one. *)
Theorem C7_primary_bind_mount env s :
  exists r s' evs,
    mountFuseBindMounts env s = Some (r, s') /\
    trace (world s') = (trace (world s) ++ evs)%list /\
    (forall src tgt st,
       In (EvBindMount src tgt st) evs ->
       (tgt = "/mnt/user/" ++ fmt_d (mMountUserId (vol s)) ++ "/"
                ++ resolveLabel (vol s) ++ "/"
                ++ fmt_d (mMountUserId (vol s)) ++ "/Android" /\
        src = (if mUseSdcardFs (vol s)
               then "/mnt/runtime/default/" ++ resolveLabel (vol s) ++ "/"
                      ++ fmt_d (mMountUserId (vol s)) ++ "/Android"
               else "/" ++ mRawPath (vol s) ++ "/"
                      ++ fmt_d (mMountUserId (vol s)) ++ "/Android"))
       \/ (mUseSdcardFs (vol s) = true /\
           tgt = installerTarget (vol s) /\ src = installerSource (vol s))) /\
    (forall e, find is_bind_mount evs = Some e ->
       exists st, e = EvBindMount (androidSource (vol s))
                        (androidTarget (vol s)) st) /\
    (forall raw, mRawPath (vol s) = String "/" raw ->
       squeeze (androidSource (vol s)) = squeeze (spec_primary_source (vol s))).
Proof.
  destruct (mountFuseBindMounts_closed env s) as (a1 & a2 & E).
  eexists _, _, (mountFuseBindMounts_events (vol s) a1 a2).
  split; [exact E | split; [reflexivity | split; [ | split]]].
  - intros src tgt st Hin. unfold mountFuseBindMounts_events in Hin.
    apply in_app_or in Hin. destruct Hin as [Hin | Hin].
    + apply in_doFuseBindMount_events in Hin. destruct Hin as [-> ->].
      left. split; reflexivity.
    + destruct ((doFuseBindMount_status a1 =? OK) && mUseSdcardFs (vol s))
        eqn:Hc; [ | destruct Hin].
      apply andb_prop in Hc. destruct Hc as [_ Hs].
      apply in_doFuseBindMount_events in Hin. destruct Hin as [-> ->].
      right. auto.
  - intros e Hfind. unfold mountFuseBindMounts_events in Hfind.
    destruct (b_present a1 || is_ok (b_prepare a1)) eqn:Hp.
    + rewrite find_app_first, find_doFuseBindMount_events, Hp in Hfind.
      injection Hfind as <-. eexists. reflexivity.
    + rewrite (doFuseBindMount_not_prepared _ Hp) in Hfind.
      cbn [andb] in Hfind. rewrite app_nil_r in Hfind.
      rewrite find_doFuseBindMount_events, Hp in Hfind. discriminate Hfind.
  - intros raw Hraw. unfold androidSource, spec_primary_source.
    destruct (mUseSdcardFs (vol s)); [reflexivity | ].
    rewrite Hraw. apply squeeze_double_slash.
Qed.

(** ** doMount *)

Ltac in_cases H :=
  repeat match type of H with
         | In _ (_ ++ _)%list => apply in_app_or in H; destruct H as [H | H]
         end.

Ltac no_kind H :=
  cbn in H; repeat (destruct H as [H | H]; [discriminate H | ]); destruct H.

Ltac not_in_prepared H := apply kinds_prepared in H; no_kind H.

Ltac not_in_fuse H := apply kinds_doMount_fuse_events in H; no_kind H.

Ltac not_in_polls Hp H :=
  rewrite Forall_forall in Hp; apply Hp in H; discriminate H.

Lemma sleeps_prepared v d : sleeps (prepared v d) = 0.
Proof. reflexivity. Qed.

Lemma sleeps_spawn v pid t : sleeps (spawn_events v pid t) = 0.
Proof. reflexivity. Qed.

(** C2. When doMount has spawned the sdcardfs child and the device of the
    full view never differs from the one recorded before, doMount returns
    -ETIMEDOUT; it does so (given fuel for 101 rounds of the loop) after at
    most 101 sleeps of 50ms each, when more than 5000ms have passed, and it
    has made no call but those that prepare the directories, query the
    device, fork and exec, read the clock and sleep: nothing signals or reaps
    the child. *)
Theorem C2_wait_times_out env fuel s :
  (101 <= fuel)%nat ->
  (forall w w' p, env_GetDevice env w p = env_GetDevice env w' p) ->
  exists r s' evs,
    doMount env fuel s = Some (r, s') /\
    trace (world s') = (trace (world s) ++ evs)%list /\
    (forall pid,
       In (EvFork (Ok pid)) evs ->
       r = - ETIMEDOUT /\
       5000 < nanoseconds_to_milliseconds
                (clock (world s') - clock (world s)) /\
       sleeps evs <= 101 /\
       (forall us, In (EvUsleep us) evs -> us = 50000) /\
       (forall x, In x evs -> In (kind x) wait_kinds)).
Proof.
  intros Hfuel Hconst.
  destruct (doMount_runs env fuel s Hfuel) as (r & s' & evs & E & Ht & Hrun).
  exists r, s', evs. split; [exact E | split; [exact Ht | ]].
  intros pid Hin.
  destruct Hrun as [r1 r2 r3 r4 e He | d e Hown
                   | d pid0 polls w' Hown Hd Hp Hms Hsl
                   | d ov w2 isFuse Hd Hov Hnf
                   | d ov w2 a Hd Hov Hvis Hlink].
  - exfalso. apply kinds_prepare_events in Hin. discriminate Hin.
  - exfalso. in_cases Hin; [not_in_prepared Hin | ].
    destruct Hin as [Hin | []]. discriminate Hin.
  - split; [reflexivity | split; [exact Hms | split; [ | split]]].
    + rewrite !sleeps_app, sleeps_prepared, sleeps_spawn. lia.
    + intros us Hus. in_cases Hus.
      * not_in_prepared Hus.
      * no_kind Hus.
      * rewrite Forall_forall in Hp. apply Hp in Hus.
        apply Z.eqb_eq in Hus. exact Hus.
    + intros x Hx. in_cases Hx.
      * apply kinds_prepared in Hx. cbn in *. tauto.
      * cbn in Hx. destruct Hx as [<- | [<- | [<- | []]]]; cbn; tauto.
      * rewrite Forall_forall in Hp. apply Hp in Hx.
        apply kinds_poll in Hx. cbn in *. tauto.
  - exfalso. destruct Hov as [Hown | pid0 polls w2 Hown Hp Hdev Htr].
    + in_cases Hin; [not_in_prepared Hin | destruct Hin].
    + destruct Hd as [w0 ->]. destruct Hdev as [w1 Hdev].
      apply Hdev. apply Hconst.
  - exfalso. destruct Hov as [Hown | pid0 polls w2 Hown Hp Hdev Htr].
    + in_cases Hin; [not_in_prepared Hin | destruct Hin | not_in_fuse Hin].
    + destruct Hd as [w0 ->]. destruct Hdev as [w1 Hdev].
      apply Hdev. apply Hconst.
Qed.

(** C2 where sdcardfs never comes up: the mount of user 0 times out. *)
Lemma C2_witness :
  (101 <= 101)%nat /\
  (forall w w' p, env_GetDevice env_stuck w p = env_GetDevice env_stuck w' p) /\
  (exists r s' evs,
     doMount env_stuck 101 scenario_C = Some (r, s') /\
     trace (world s') = (trace (world scenario_C) ++ evs)%list) /\
  (exists s', doMount env_stuck 101 scenario_C = Some (- ETIMEDOUT, s') /\
              clock (world s') = 5050000000 /\
              In (EvFork (Ok 77%positive)) (trace (world s'))).
Proof.
  assert (Hc : forall w w' p,
             env_GetDevice env_stuck w p = env_GetDevice env_stuck w' p)
    by reflexivity.
  split; [apply le_n | split; [exact Hc | split]].
  - destruct (C2_wait_times_out env_stuck 101 scenario_C (le_n _) Hc)
      as (r & s' & evs & E & Ht & _).
    exists r, s', evs. auto.
  - vm_compute. eexists. split; [reflexivity | split; [reflexivity | ]].
    do 5 right. left. reflexivity.
Defined.

Lemma doMount_fuse_status_OK v a :
  doMount_fuse_status v a = OK ->
  doMount_fuse_vol v a = set_mFuseMounted true v.
Proof.
  unfold doMount_fuse_status, doMount_fuse_vol, rolled_back.
  destruct (f_mount a =? 0) eqn:Hm.
  - destruct (fuse_ready v); [ | intros H; discriminate H].
    intros ->. reflexivity.
  - intros H. apply Z.eqb_neq in Hm. unfold OK in H. lia.
Qed.

Lemma view_paths_nonempty l : Forall (fun p => p <> "") (view_paths l).
Proof. unfold view_paths. repeat constructor; discriminate. Qed.

(** What doUnmount does to the stored view paths of a mounted volume. *)
Lemma doUnmount_stored_views env s :
  exists ru su,
    doUnmount env s = Some (ru, su) /\
    (owning (vol s) = true -> ru = OK ->
     stored_views (vol su) = [""; ""; ""; ""]) /\
    (owning (vol s) = false -> stored_views (vol su) = stored_views (vol s)).
Proof.
  destruct (doUnmount_closed env s) as (a & E).
  eexists _, _. split; [exact E | ]. cbn [vol].
  rewrite stored_views_doUnmount_vol. split.
  - intros -> Hok. rewrite (doUnmount_status_OK _ _ Hok). reflexivity.
  - intros ->. rewrite andb_false_r. reflexivity.
Qed.

(** C3 as stated, refuted: user 5 on a build without the legacy overlay
    mounts and unmounts with success, and the stored view paths are still
    those that doMount set. *)
Lemma C3_counterexample : ~ stored_views_as_stated.
Proof.
  intros H.
  assert (Em : doMount env_ok 101 scenario_A = Some (OK, scenario_A_mounted))
    by (vm_compute; reflexivity).
  assert (Eu : doUnmount env_ok scenario_A_mounted
               = Some (OK, scenario_A_unmounted))
    by (vm_compute; reflexivity).
  destruct (H env_ok 101%nat scenario_A _ _ Em Eu) as [_ Hempty].
  inversion Hempty as [| p l Hp _]. discriminate Hp.
Qed.

(** C3 (amended). After a doMount that returns OK the four stored view paths
    are "/mnt/runtime/{default,read,write,full}/<label>", so none is empty.
    The doUnmount that follows empties them when it returns OK in the owning
    context (user 0 with the legacy overlay); in any other context it leaves
    them as doMount set them, whether or not the legacy overlay is mounted. *)
Theorem C3_stored_views env fuel s :
  (101 <= fuel)%nat ->
  exists r sm,
    doMount env fuel s = Some (r, sm) /\
    (r = OK ->
     stored_views (vol sm) = view_paths (resolveLabel (vol s)) /\
     Forall (fun p => p <> "") (stored_views (vol sm)) /\
     exists ru su,
       doUnmount env sm = Some (ru, su) /\
       (owning (vol s) = true -> ru = OK ->
        stored_views (vol su) = [""; ""; ""; ""]) /\
       (owning (vol s) = false ->
        stored_views (vol su) = view_paths (resolveLabel (vol s)))).
Proof.
  intros Hfuel.
  destruct (doMount_runs env fuel s Hfuel) as (r & s' & evs & E & Ht & Hrun).
  exists r, s'. split; [exact E | ]. intros Hok.
  assert (Hv : stored_views (vol s') = view_paths (resolveLabel (vol s))
               /\ owning (vol s') = owning (vol s)).
  { destruct Hrun as [r1 r2 r3 r4 e He | d e Hown
                     | d pid0 polls w' Hown Hd Hp Hms Hsl
                     | d ov w2 isFuse Hd Hov Hnf
                     | d ov w2 a Hd Hov Hvis Hlink];
      try discriminate Hok.
    - split; reflexivity.
    - cbn [vol]. rewrite (doMount_fuse_status_OK _ _ Hok). split; reflexivity. }
  destruct Hv as [Hviews Hown].
  split; [exact Hviews | split].
  - rewrite Hviews. apply view_paths_nonempty.
  - destruct (doUnmount_stored_views env s') as (ru & su & Eu & H1 & H2).
    exists ru, su. rewrite Hown, Hviews in *. auto.
Qed.

(** C3 at scenario A: mounted, the views are stored; unmounted by user 5,
    they still are. *)
Lemma C3_witness :
  (101 <= 101)%nat /\
  (exists r sm, doMount env_ok 101 scenario_A = Some (r, sm)) /\
  doMount env_ok 101 scenario_A = Some (OK, scenario_A_mounted) /\
  doUnmount env_ok scenario_A_mounted = Some (OK, scenario_A_unmounted) /\
  stored_views (vol scenario_A_unmounted) = view_paths "emulated".
Proof.
  split; [apply le_n | split].
  - destruct (C3_stored_views env_ok 101 scenario_A (le_n _))
      as (r & sm & E & _).
    exists r, sm. exact E.
  - repeat split; vm_compute; reflexivity.
Defined.

(** C6 as stated, refuted: the code passes "-o" as well. *)
Lemma C6_counterexample : ~ sdcardfs_args_as_stated.
Proof.
  intros H.
  assert (E : doMount env_ok 101 scenario_C = Some (- EIO, scenario_C_failed))
    by (vm_compute; reflexivity).
  specialize (H env_ok 101%nat scenario_C _ _ (trace (world scenario_C_failed))
                "/system/bin/sdcard"
                ["/system/bin/sdcard"; "-u"; "1023"; "-g"; "1023"; "-m"; "-w";
                 "-G"; "-i"; "-o"; "/data/media"; "emulated"]
                E eq_refl).
  assert (Hin : In (EvExecl "/system/bin/sdcard"
                      ["/system/bin/sdcard"; "-u"; "1023"; "-g"; "1023"; "-m";
                       "-w"; "-G"; "-i"; "-o"; "/data/media"; "emulated"])
                   (trace (world scenario_C_failed))).
  { do 6 right. left. reflexivity. }
  specialize (H Hin). discriminate H.
Qed.

(** C6 (amended). Every exec that doMount makes is that of
    "/system/bin/sdcard" with the arguments -u 1023 -g 1023 -m -w -G -i -o,
    then the raw path and the resolved label; and every successful fork is
    followed at once by this exec. *)
Theorem C6_sdcardfs_arguments env fuel s :
  (101 <= fuel)%nat ->
  exists r s' evs,
    doMount env fuel s = Some (r, s') /\
    trace (world s') = (trace (world s) ++ evs)%list /\
    (forall path argv,
       In (EvExecl path argv) evs ->
       path = kSdcardFsPath /\
       argv = [kSdcardFsPath; "-u"; "1023"; "-g"; "1023"; "-m"; "-w"; "-G";
               "-i"; "-o"; mRawPath (vol s); resolveLabel (vol s)]) /\
    (forall pid,
       In (EvFork (Ok pid)) evs ->
       exists pre post,
         evs = (pre ++ EvFork (Ok pid)
                    :: EvExecl kSdcardFsPath
                         [kSdcardFsPath; "-u"; "1023"; "-g"; "1023"; "-m";
                          "-w"; "-G"; "-i"; "-o"; mRawPath (vol s);
                          resolveLabel (vol s)]
                    :: post)%list).
Proof.
  intros Hfuel.
  destruct (doMount_runs env fuel s Hfuel) as (r & s' & evs & E & Ht & Hrun).
  exists r, s', evs. split; [exact E | split; [exact Ht | ]].
  destruct Hrun as [r1 r2 r3 r4 e He | d e Hown
                   | d pid0 polls w' Hown Hd Hp Hms Hsl
                   | d ov w2 isFuse Hd Hov Hnf
                   | d ov w2 a Hd Hov Hvis Hlink].
  - split; [intros path argv Hin | intros pid Hin]; exfalso;
      apply kinds_prepare_events in Hin; discriminate Hin.
  - split; [intros path argv Hin | intros pid Hin]; exfalso;
      (in_cases Hin; [not_in_prepared Hin | ]);
      destruct Hin as [Hin | []]; discriminate Hin.
  - split.
    + intros path argv Hin. in_cases Hin.
      * not_in_prepared Hin.
      * cbn in Hin. destruct Hin as [Hin | [Hin | [Hin | []]]];
          try discriminate Hin.
        injection Hin as <- <-. split; reflexivity.
      * not_in_polls Hp Hin.
    + intros pid Hin. in_cases Hin.
      * not_in_prepared Hin.
      * cbn in Hin. destruct Hin as [Hin | [Hin | [Hin | []]]];
          try discriminate Hin.
        injection Hin as <-. eexists _, _. reflexivity.
      * not_in_polls Hp Hin.
  - destruct Hov as [Hown | pid0 polls w2 Hown Hp Hdev Htr].
    + split; [intros path argv Hin | intros pid Hin]; exfalso;
        (in_cases Hin; [not_in_prepared Hin | destruct Hin]).
    + split.
      * intros path argv Hin. in_cases Hin.
        -- not_in_prepared Hin.
        -- cbn in Hin. destruct Hin as [Hin | [Hin | [Hin | []]]];
             try discriminate Hin.
           injection Hin as <- <-. split; reflexivity.
        -- not_in_polls Hp Hin.
        -- destruct Hin as [Hin | []]. discriminate Hin.
      * intros pid Hin. in_cases Hin.
        -- not_in_prepared Hin.
        -- cbn in Hin. destruct Hin as [Hin | [Hin | [Hin | []]]];
             try discriminate Hin.
           injection Hin as <-. eexists _, _. reflexivity.
        -- not_in_polls Hp Hin.
        -- destruct Hin as [Hin | []]. discriminate Hin.
  - destruct Hov as [Hown | pid0 polls w2 Hown Hp Hdev Htr].
    + split; [intros path argv Hin | intros pid Hin]; exfalso;
        (in_cases Hin; [not_in_prepared Hin | destruct Hin | not_in_fuse Hin]).
    + split.
      * intros path argv Hin. in_cases Hin.
        -- not_in_prepared Hin.
        -- cbn in Hin. destruct Hin as [Hin | [Hin | [Hin | []]]];
             try discriminate Hin.
           injection Hin as <- <-. split; reflexivity.
        -- not_in_polls Hp Hin.
        -- destruct Hin as [Hin | []]. discriminate Hin.
        -- not_in_fuse Hin.
      * intros pid Hin. in_cases Hin.
        -- not_in_prepared Hin.
        -- cbn in Hin. destruct Hin as [Hin | [Hin | [Hin | []]]];
             try discriminate Hin.
           injection Hin as <-. eexists _, _. reflexivity.
        -- not_in_polls Hp Hin.
        -- destruct Hin as [Hin | []]. discriminate Hin.
        -- not_in_fuse Hin.
Qed.

(** C6 at scenario C: the child is spawned with "-o" among its arguments. *)
Lemma C6_witness :
  (101 <= 101)%nat /\
  (exists r s' evs,
     doMount env_ok 101 scenario_C = Some (r, s') /\
     trace (world s') = (trace (world scenario_C) ++ evs)%list) /\
  In (EvExecl "/system/bin/sdcard"
        ["/system/bin/sdcard"; "-u"; "1023"; "-g"; "1023"; "-m"; "-w"; "-G";
         "-i"; "-o"; "/data/media"; "emulated"])
     (trace (world scenario_C_failed)).
Proof.
  split; [apply le_n | split].
  - destruct (C6_sdcardfs_arguments env_ok 101 scenario_C (le_n _))
      as (r & s' & evs & E & Ht & _).
    exists r, s', evs. auto.
  - do 6 right. left. reflexivity.
Defined.

(** The mount table under the teardown of the views. *)

Lemma nothing_at_umount_same p t : nothing_at p (umount p t).
Proof. intros e He. apply in_umount in He. apply He. Qed.

Lemma nothing_at_if (c : bool) p q t :
  nothing_at p t -> nothing_at p (if c then umount q t else t).
Proof.
  intros H. destruct c; [ | exact H].
  intros e He. apply in_umount in He. apply H, He.
Qed.

Lemma nothing_at_teardown v a t view st :
  In (EvForceUnmount view st) (views_teardown_events v a) ->
  st = OK ->
  nothing_at view (fold_left replay_event (views_teardown_events v a) t).
Proof.
  unfold views_teardown_events. cbn [fold_left replay_event In].
  intros [H | [H | [H | [H | H]]]] Hst;
    [injection H as <- Hs; rewrite Hs, Hst; change (OK =? 0) with true;
     cbv iota;
     repeat first [apply nothing_at_umount_same | apply nothing_at_if] .. | ].
  repeat (destruct H as [H | H]; [discriminate H | ]). destruct H.
Qed.

(** The FUSE block in which the callback reported not-ready. *)
Lemma not_ready_fuse v label a p i :
  In (EvOnVolumeChecking p i false) (doMount_fuse_events v label a) ->
  fuse_ready v = false /\
  rolled_back v a = true /\
  doMount_fuse_calls v label a
  = [EvMountUserFuse (mMountUserId v) (mInternalPath v) label 0;
     EvOnVolumeChecking p i false].
Proof.
  intros H.
  assert (Hc : In (EvOnVolumeChecking p i false) (doMount_fuse_calls v label a)).
  { unfold doMount_fuse_events in H. apply in_app_or in H.
    destruct H as [H | H]; [exact H | exfalso].
    destruct (rolled_back v a); [ | destruct H].
    destruct H as [H | H]; [discriminate H | ].
    apply kinds_doUnmount_events in H. no_kind H. }
  clear H. revert Hc.
  unfold doMount_fuse_calls, rolled_back, fuse_ready, callback_events.
  destruct (f_mount a =? 0) eqn:Hm.
  - apply Z.eqb_eq in Hm. rewrite Hm.
    destruct (mMountCallback v) as [cb | ].
    + destruct (cb (mPath v) (mInternalPath v)) eqn:Hcb.
      * intros [H | [H | H]]; [discriminate H | discriminate H | exfalso].
        apply kinds_mountFuseBindMounts_events in H. no_kind H.
      * intros [H | [H | H]]; [discriminate H | | destruct H].
        injection H as <- <-. auto.
    + intros [H | H]; [discriminate H | exfalso].
      apply kinds_mountFuseBindMounts_events in H. no_kind H.
  - intros [H | []]. discriminate H.
Qed.

Lemma trace_overlay env v w d ov w2 :
  Overlay env v w d ov w2 -> trace w2 = (trace w ++ ov)%list.
Proof.
  intros [Hown | pid polls w2' Hown Hp Hdev Htr].
  - rewrite app_nil_r. reflexivity.
  - exact Htr.
Qed.

Lemma no_teardown_before_fuse env v w d ov w2 x :
  Overlay env v w d ov w2 ->
  In x (prepared v d ++ ov)%list ->
  In (kind x) wait_kinds \/ kind x = KWaitpid.
Proof.
  intros Hov H. apply in_app_or in H. destruct H as [H | H].
  - apply kinds_prepared in H. cbn in *. tauto.
  - destruct Hov as [Hown | pid polls w2 Hown Hp Hdev Htr]; [destruct H | ].
    in_cases H.
    + cbn in H. destruct H as [<- | [<- | [<- | []]]]; cbn; tauto.
    + rewrite Forall_forall in Hp. apply Hp in H.
      apply kinds_poll in H. cbn in *. tauto.
    + destruct H as [<- | []]. right. reflexivity.
Qed.

(** C1 as stated, refuted: in scenario C the views were mounted in this
    attempt (the child was reaped), the callback reported not-ready, and
    after the call nothing is mounted any more. *)
Lemma C1_counterexample : ~ not_ready_as_stated.
Proof.
  intros H.
  assert (E : doMount env_ok 101 scenario_C = Some (- EIO, scenario_C_failed))
    by (vm_compute; reflexivity).
  destruct (H env_ok 101%nat scenario_C _ _ (trace (world scenario_C_failed))
              "/storage/emulated" "/data/media" E eq_refl)
    as (_ & _ & _ & Hviews).
  { do 17 right. left. reflexivity. }
  assert (Hw : In (EvWaitpid 77) (trace (world scenario_C_failed))).
  { do 15 right. left. reflexivity. }
  exact (Hviews 77 Hw (OverlayEntry "/mnt/runtime/default/emulated")
           (or_introl eq_refl)).
Qed.

(** C1 (amended). When the readiness callback reports not-ready, doMount
    returns -EIO. The bridge had been started and the flag set; the handle is
    released right after the callback and the rest of the call is one
    doUnmount. No bind mount is made. That doUnmount stops the bridge: when
    the stop succeeds the flag is false again, and in the owning context
    (user 0 with the legacy overlay) each of the four views is
    force-unmounted - nothing stays mounted at a view whose unmount
    succeeded - and the stored view paths are emptied. When the stop fails
    (the bridge stays flagged as mounted) or the context is not the owning
    one, no view is unmounted and the stored paths are kept. *)
Theorem C1_not_ready_rolls_back env fuel s :
  (101 <= fuel)%nat ->
  exists r s' evs,
    doMount env fuel s = Some (r, s') /\
    trace (world s') = (trace (world s) ++ evs)%list /\
    forall p i,
      In (EvOnVolumeChecking p i false) evs ->
      r = - EIO /\
      (exists pre s1 ru,
         In (EvMountUserFuse (mMountUserId (vol s)) (mRawPath (vol s))
               (resolveLabel (vol s)) 0) pre /\
         mFuseMounted (vol s1) = true /\
         trace (world s1)
         = (trace (world s) ++ pre
            ++ [EvOnVolumeChecking p i false; EvFdReset])%list /\
         doUnmount env s1 = Some (ru, s')) /\
      (forall src tgt st, ~ In (EvBindMount src tgt st) evs) /\
      (exists rs,
         In (EvUnmountUserFuse (mMountUserId (vol s)) (mRawPath (vol s))
               (resolveLabel (vol s)) rs) evs /\
         mFuseMounted (vol s') = negb (is_ok rs) /\
         (is_ok rs = true -> owning (vol s) = true ->
          stored_views (vol s') = [""; ""; ""; ""] /\
          forall view,
            In view (view_paths (resolveLabel (vol s))) ->
            exists st,
              In (EvForceUnmount view st) evs /\
              (st = OK -> nothing_at view (mounts (world s')))) /\
         (is_ok rs = false \/ owning (vol s) = false ->
          stored_views (vol s') = view_paths (resolveLabel (vol s)) /\
          forall view st, ~ In (EvForceUnmount view st) evs)).
Proof.
  intros Hfuel.
  destruct (doMount_runs env fuel s Hfuel) as (r & s' & evs & E & Ht & Hrun).
  exists r, s', evs. split; [exact E | split; [exact Ht | ]].
  intros p i Hin.
  destruct Hrun as [r1 r2 r3 r4 e He | d e Hown
                   | d pid0 polls w' Hown Hd Hp Hms Hsl
                   | d ov w2 isFuse Hd Hov Hnf
                   | d ov w2 a Hd Hov Hvis Hlink].
  - exfalso. apply kinds_prepare_events in Hin. discriminate Hin.
  - exfalso. in_cases Hin; [not_in_prepared Hin | ].
    destruct Hin as [Hin | []]. discriminate Hin.
  - exfalso. in_cases Hin.
    + not_in_prepared Hin.
    + no_kind Hin.
    + not_in_polls Hp Hin.
  - exfalso. apply (no_teardown_before_fuse _ _ _ _ _ _ _ Hov) in Hin.
    cbn in Hin. intuition discriminate.
  - set (v0 := doMount_setup (vol s)) in *.
    set (label := resolveLabel (vol s)) in *.
    assert (Hf : In (EvOnVolumeChecking p i false)
                    (doMount_fuse_events v0 label a)).
    { rewrite app_assoc in Hin. apply in_app_or in Hin.
      destruct Hin as [Hin | Hin]; [exfalso | exact Hin].
      apply (no_teardown_before_fuse _ _ _ _ _ _ _ Hov) in Hin.
      cbn in Hin. intuition discriminate. }
    destruct (not_ready_fuse _ _ _ _ _ Hf) as (Hready & Hrb & Hcalls).
    assert (Hm : (f_mount a =? 0) = true).
    { unfold rolled_back in Hrb. apply andb_true_iff in Hrb. apply Hrb. }
    assert (Hevs : doMount_fuse_events v0 label a
                   = ([EvMountUserFuse (mMountUserId v0) (mInternalPath v0)
                         label 0;
                       EvOnVolumeChecking p i false; EvFdReset]
                      ++ doUnmount_events (set_mFuseMounted true v0)
                           (f_rollback a))%list).
    { unfold doMount_fuse_events. rewrite Hrb, Hcalls. reflexivity. }
    assert (Hvol : doMount_fuse_vol v0 a
                   = doUnmount_vol (set_mFuseMounted true v0) (f_rollback a)).
    { unfold doMount_fuse_vol. rewrite Hm, Hrb. reflexivity. }
    split; [ | split; [ | split]].
    + unfold doMount_fuse_status. rewrite Hm, Hready. reflexivity.
    + specialize (Hlink Hrb). rewrite Hcalls in Hlink.
      eexists (prepared v0 d ++ ov
               ++ [EvMountUserFuse (mMountUserId v0) (mInternalPath v0)
                     label 0])%list, _, _.
      split; [ | split; [ | split; [ | exact Hlink]]].
      * apply in_or_app. right. apply in_or_app. right. left. reflexivity.
      * reflexivity.
      * cbn [world after trace].
        rewrite (trace_overlay _ _ _ _ _ _ Hov). cbn [after trace].
        rewrite <- !app_assoc. reflexivity.
    + intros src tgt st Hb. rewrite app_assoc in Hb. apply in_app_or in Hb.
      destruct Hb as [Hb | Hb].
      * apply (no_teardown_before_fuse _ _ _ _ _ _ _ Hov) in Hb.
        cbn in Hb. intuition discriminate.
      * rewrite Hevs in Hb. apply in_app_or in Hb. destruct Hb as [Hb | Hb].
        -- no_kind Hb.
        -- apply kinds_doUnmount_events in Hb. no_kind Hb.
    + exists (u_stop (f_rollback a)). split; [ | split; [ | split]].
      * apply in_or_app. right. apply in_or_app. right. rewrite Hevs.
        apply in_or_app. right. unfold doUnmount_events.
        apply in_or_app. right. apply in_or_app. left.
        cbn [mFuseMounted set_mFuseMounted].
        apply in_or_app. right. left. reflexivity.
      * cbn [vol]. rewrite Hvol. rewrite mFuseMounted_doUnmount_vol.
        cbn [mFuseMounted set_mFuseMounted].
        destruct (is_ok (u_stop (f_rollback a))); reflexivity.
      * intros Hok Hown. cbn [vol world]. rewrite Hvol.
        rewrite stored_views_doUnmount_vol.
        assert (Hpo : past_bridge (set_mFuseMounted true v0) (f_rollback a)
                      && owning (set_mFuseMounted true v0) = true).
        { unfold past_bridge. rewrite Hok, orb_true_r.
          change (owning (set_mFuseMounted true v0)) with (owning (vol s)).
          rewrite Hown. reflexivity. }
        rewrite Hpo. split; [reflexivity | ].
        intros view Hview.
        assert (Hst : exists st,
                   In (EvForceUnmount view st)
                      (views_teardown_events (set_mFuseMounted true v0)
                         (f_rollback a))).
        { unfold view_paths in Hview. cbn [In] in Hview.
          destruct Hview as [<- | [<- | [<- | [<- | []]]]];
            eexists; unfold views_teardown_events; cbn [In];
            [left | right; left | do 2 right; left | do 3 right; left];
            reflexivity. }
        destruct Hst as (st & Hst). exists st. split.
        -- apply in_or_app. right. apply in_or_app. right. rewrite Hevs.
           apply in_or_app. right. unfold doUnmount_events. rewrite Hpo.
           apply in_or_app. right. apply in_or_app. right. exact Hst.
        -- intros Hz. cbn [after mounts]. rewrite Hevs.
           unfold doUnmount_events. rewrite Hpo.
           rewrite !fold_left_app.
           apply (nothing_at_teardown _ _ _ _ st); assumption.
      * intros Hno. cbn [vol]. rewrite Hvol.
        rewrite stored_views_doUnmount_vol.
        assert (Hpo : past_bridge (set_mFuseMounted true v0) (f_rollback a)
                      && owning (set_mFuseMounted true v0) = false).
        { unfold past_bridge.
          change (owning (set_mFuseMounted true v0)) with (owning (vol s)).
          cbn [mFuseMounted set_mFuseMounted negb orb].
          destruct Hno as [-> | ->]; [reflexivity | apply andb_false_r]. }
        rewrite Hpo. split; [reflexivity | ].
        intros view st Hfu. rewrite app_assoc in Hfu.
        apply in_app_or in Hfu. destruct Hfu as [Hfu | Hfu].
        -- apply (no_teardown_before_fuse _ _ _ _ _ _ _ Hov) in Hfu.
           cbn in Hfu. intuition discriminate.
        -- rewrite Hevs in Hfu. apply in_app_or in Hfu.
           destruct Hfu as [Hfu | Hfu]; [no_kind Hfu | ].
           apply in_doUnmount_events in Hfu.
           destruct Hfu as [Hfu | [(_ & [(_ & Hfu) | [Hfu | Hfu]])
                                  | (Hp1 & Hp2 & _)]];
             try discriminate Hfu.
           rewrite Hp1, Hp2 in Hpo. discriminate Hpo.
Qed.

(** C1 at scenario C: -EIO, the bridge is stopped, the stored view paths are
    empty and nothing is mounted. *)
Lemma C1_witness :
  (101 <= 101)%nat /\
  (exists r s' evs,
     doMount env_ok 101 scenario_C = Some (r, s') /\
     trace (world s') = (trace (world scenario_C) ++ evs)%list) /\
  doMount env_ok 101 scenario_C = Some (- EIO, scenario_C_failed) /\
  In (EvOnVolumeChecking "/storage/emulated" "/data/media" false)
     (trace (world scenario_C_failed)) /\
  mFuseMounted (vol scenario_C_failed) = false /\
  stored_views (vol scenario_C_failed) = [""; ""; ""; ""] /\
  mounts (world scenario_C_failed) = [].
Proof.
  split; [apply le_n | split].
  - destruct (C1_not_ready_rolls_back env_ok 101 scenario_C (le_n _))
      as (r & s' & evs & E & Ht & _).
    exists r, s', evs. auto.
  - split; [vm_compute; reflexivity | split].
    + do 17 right. left. reflexivity.
    + repeat split.
Defined.

(** * Further properties of the methods *)

(** ** The mount table under a sequence of calls *)

Lemma mounts_after evs w :
  mounts (after evs w) = fold_left replay_event evs (mounts w).
Proof. reflexivity. Qed.

Lemma replay_keeps evs : forall t,
  (forall x, In x evs -> is_unmount_op x = false) ->
  forall e, In e t -> In e (fold_left replay_event evs t).
Proof.
  induction evs as [| x evs IH]; intros t Hno e He; [exact He | ].
  cbn [fold_left]. apply IH.
  - intros y Hy. apply Hno. right. exact Hy.
  - specialize (Hno x (or_introl eq_refl)).
    destruct x; cbn in Hno |- *; try discriminate Hno; try exact He;
      match goal with
      | |- context [if ?c then _ else _] => destruct c
      end; try (apply in_or_app; left); exact He.
Qed.

Lemma replay_shrinks evs : forall t,
  (forall x, In x evs -> kind x <> KMountUserFuse /\ kind x <> KBindMount) ->
  forall e, In e (fold_left replay_event evs t) -> In e t.
Proof.
  induction evs as [| x evs IH]; intros t Hno e He; [exact He | ].
  cbn [fold_left] in He. apply IH in He.
  - destruct (Hno x (or_introl eq_refl)) as [H1 H2].
    destruct x; cbn in He, H1, H2; try congruence;
      repeat match type of He with
             | context [if ?c then _ else _] => destruct c
             | context [match ?c with Ok _ => _ | Err _ => _ end] => destruct c
             end; try exact He;
      first [apply in_umount in He | apply filter_In in He]; apply He.
  - intros y Hy. apply Hno. right. exact Hy.
Qed.

Lemma replay_bind_mount evs src tgt : forall t,
  (forall x, In x evs -> is_unmount_op x = false) ->
  In (EvBindMount src tgt OK) evs ->
  In (BindEntry src tgt) (fold_left replay_event evs t).
Proof.
  induction evs as [| x evs IH]; intros t Hno Hin; [destruct Hin | ].
  cbn [fold_left]. destruct Hin as [-> | Hin].
  - apply replay_keeps.
    + intros y Hy. apply Hno. right. exact Hy.
    + cbn. apply in_or_app. right. left. reflexivity.
  - apply IH; [ | exact Hin]. intros y Hy. apply Hno. right. exact Hy.
Qed.

Lemma replay_bridge evs u i l : forall t,
  (forall x, In x evs -> is_unmount_op x = false) ->
  In (EvMountUserFuse u i l 0) evs ->
  In (BridgeEntry u i l) (fold_left replay_event evs t).
Proof.
  induction evs as [| x evs IH]; intros t Hno Hin; [destruct Hin | ].
  cbn [fold_left]. destruct Hin as [-> | Hin].
  - apply replay_keeps.
    + intros y Hy. apply Hno. right. exact Hy.
    + cbn. apply in_or_app. right. left. reflexivity.
  - apply IH; [ | exact Hin]. intros y Hy. apply Hno. right. exact Hy.
Qed.

Lemma bind_kinds_no_unmount x :
  In (kind x) ([KMountUserFuse; KOnVolumeChecking] ++ bind_kinds) ->
  is_unmount_op x = false.
Proof.
  destruct x; cbn; intros H; try reflexivity;
    repeat (destruct H as [H | H]; [discriminate H | ]); destruct H.
Qed.

(** ** doFuseBindMount *)

(** X1. doFuseBindMount first asks whether the source exists. Only when it
    does not, it creates it - the source, with mode 0771 and owner and group
    media_rw (1023) - and when that fails with errno [e] it returns [-e]
    without asking for the bind mount, the mount table unchanged. Otherwise
    its last call is the bind mount of the source on the target, and it
    returns the status of that call. *)
Theorem X1_doFuseBindMount_creates_missing_source env src tgt s :
  exists r s' evs present,
    doFuseBindMount env src tgt s = Some (Next r, s') /\
    vol s' = vol s /\
    trace (world s') = (trace (world s) ++ evs)%list /\
    hd_error evs = Some (EvAccess src present) /\
    (forall p m u g res,
       In (EvPrepareDir p m u g res) evs ->
       present = false /\ p = src /\ m = 505 /\ u = 1023 /\ g = 1023) /\
    (present = false ->
     exists res, In (EvPrepareDir src 505 1023 1023 res) evs) /\
    (forall p m u g e,
       In (EvPrepareDir p m u g (Err e)) evs ->
       r = - Zpos e /\ errno (world s') = Zpos e /\
       (forall a b st, ~ In (EvBindMount a b st) evs) /\
       mounts (world s') = mounts (world s)) /\
    ((forall p m u g e, ~ In (EvPrepareDir p m u g (Err e)) evs) ->
     last evs (EvAccess src present) = EvBindMount src tgt r /\
     (forall a b st, In (EvBindMount a b st) evs ->
                     a = src /\ b = tgt /\ st = r) /\
     mounts (world s')
     = (if r =? OK then mounts (world s) ++ [BindEntry src tgt]
        else mounts (world s))%list).
Proof.
  destruct (doFuseBindMount_closed env src tgt s) as ([present prep st] & E).
  eexists _, _, _, present. split; [exact E | ].
  cbn [vol world]. rewrite trace_after, mounts_after.
  unfold doFuseBindMount_events, doFuseBindMount_status.
  cbn [b_present b_prepare b_bind].
  split; [reflexivity | split; [reflexivity | split; [reflexivity | ]]].
  destruct present; [ | destruct prep as [[] | e]]; cbn [app orb is_ok].
  - split; [ | split; [ | split; [ | ]]].
    + intros p m u g res [H | [H | []]]; discriminate H.
    + intros H. discriminate H.
    + intros p m u g e [H | [H | []]]; discriminate H.
    + intros _. split; [reflexivity | split].
      * intros a b st' [H | [H | []]]; [discriminate H | ].
        injection H as <- <- <-. auto.
      * cbn. unfold OK. destruct (st =? 0); reflexivity.
  - split; [ | split; [ | split; [ | ]]].
    + intros p m u g res [H | [H | [H | []]]]; try discriminate H.
      injection H as <- <- <- <- _. auto.
    + intros _. eexists. right. left. reflexivity.
    + intros p m u g e [H | [H | [H | []]]]; discriminate H.
    + intros _. split; [reflexivity | split].
      * intros a b st' [H | [H | [H | []]]]; try discriminate H.
        injection H as <- <- <-. auto.
      * cbn. unfold OK. destruct (st =? 0); reflexivity.
  - split; [ | split; [ | split; [ | ]]].
    + intros p m u g res [H | [H | []]]; try discriminate H.
      injection H as <- <- <- <- _. auto.
    + intros _. eexists. right. left. reflexivity.
    + intros p m u g e' [H | [H | []]]; try discriminate H.
      injection H as _ _ _ _ <-. cbn.
      split; [reflexivity | split; [reflexivity | split; [ | reflexivity]]].
      intros a b st' [H | [H | []]]; discriminate H.
    + intros Hno. exfalso. apply (Hno src 505 1023 1023 e).
      right. left. reflexivity.
Qed.

(** ** mountFuseBindMounts and unmountFuseBindMounts *)

Lemma bind_event_of_status src tgt a :
  doFuseBindMount_status a = OK ->
  In (EvBindMount src tgt OK) (doFuseBindMount_events src tgt a).
Proof.
  unfold doFuseBindMount_status, doFuseBindMount_events.
  destruct (b_present a); [ | destruct (b_prepare a) as [[] | e]];
    cbn [app orb is_ok].
  - intros ->. right. left. reflexivity.
  - intros ->. right. right. left. reflexivity.
  - intros H. unfold OK in H. lia.
Qed.

Lemma bind_status_of_event src tgt a x y st :
  In (EvBindMount x y st) (doFuseBindMount_events src tgt a) ->
  doFuseBindMount_status a = st.
Proof.
  unfold doFuseBindMount_status, doFuseBindMount_events.
  destruct (b_present a); [ | destruct (b_prepare a) as [[] | e]];
    cbn [app orb is_ok]; intros H;
    repeat (destruct H as [H | H];
            [first [discriminate H | injection H as _ _ <-; reflexivity] | ]);
    destruct H.
Qed.

(** X2. mountFuseBindMounts asks for the installer bind mount - of
    "/mnt/runtime/write/<label>/<userId>/Android/obb" on
    "/mnt/installer/<userId>/<label>/<userId>/Android/obb" - only with the
    legacy overlay in use and after the primary bind mount has succeeded, and
    then returns its status. When the primary bind mount fails, its status is
    returned and nothing is asked for the installer. On OK the bind mounts
    asked for are in the mount table. The method never unmounts: whatever was
    mounted stays mounted, also what it mounted itself before it failed. *)
Theorem X2_mountFuseBindMounts_installer env s :
  exists r s' evs,
    mountFuseBindMounts env s = Some (r, s') /\
    vol s' = vol s /\
    trace (world s') = (trace (world s) ++ evs)%list /\
    installerSource (vol s)
    = "/mnt/runtime/write/" ++ resolveLabel (vol s) ++ "/"
        ++ fmt_d (mMountUserId (vol s)) ++ "/Android/obb" /\
    installerTarget (vol s)
    = "/mnt/installer/" ++ fmt_d (mMountUserId (vol s)) ++ "/"
        ++ resolveLabel (vol s) ++ "/" ++ fmt_d (mMountUserId (vol s))
        ++ "/Android/obb" /\
    (forall x, In x evs -> In (kind x) bind_kinds) /\
    (forall src st,
       In (EvBindMount src (installerTarget (vol s)) st) evs ->
       src = installerSource (vol s) /\
       mUseSdcardFs (vol s) = true /\
       In (EvBindMount (androidSource (vol s)) (androidTarget (vol s)) OK)
          evs /\
       r = st) /\
    (forall src st,
       In (EvBindMount src (androidTarget (vol s)) st) evs ->
       st <> OK ->
       r = st /\
       forall a b st', In (EvBindMount a b st') evs ->
                       b = androidTarget (vol s)) /\
    (r = OK ->
     In (BindEntry (androidSource (vol s)) (androidTarget (vol s)))
        (mounts (world s')) /\
     (mUseSdcardFs (vol s) = true ->
      In (BindEntry (installerSource (vol s)) (installerTarget (vol s)))
         (mounts (world s')))) /\
    (forall e, In e (mounts (world s)) -> In e (mounts (world s'))).
Proof.
  destruct (mountFuseBindMounts_closed env s) as (a1 & a2 & E).
  eexists _, _, _. split; [exact E | ].
  cbn [vol world]. rewrite trace_after, mounts_after.
  split; [reflexivity | split; [reflexivity | ]].
  split; [reflexivity | split; [reflexivity | ]].
  assert (Hk : forall x,
             In x (mountFuseBindMounts_events (vol s) a1 a2) ->
             is_unmount_op x = false).
  { intros x Hx. apply bind_kinds_no_unmount. apply in_or_app. right.
    exact (kinds_mountFuseBindMounts_events _ _ _ _ Hx). }
  split; [exact (kinds_mountFuseBindMounts_events _ _ _) | ].
  unfold mountFuseBindMounts_status.
  split; [ | split; [ | split]].
  - intros src st Hin. unfold mountFuseBindMounts_events in Hin.
    apply in_app_or in Hin. destruct Hin as [Hin | Hin].
    + apply in_doFuseBindMount_events in Hin. destruct Hin as [_ Hin].
      pose proof (targets_differ' (vol s)) as Hd.
      rewrite Hin, String.eqb_refl in Hd. discriminate Hd.
    + destruct ((doFuseBindMount_status a1 =? OK) && mUseSdcardFs (vol s))
        eqn:Hc; [ | destruct Hin].
      apply andb_prop in Hc. destruct Hc as [H1 H2].
      apply Z.eqb_eq in H1.
      pose proof (in_doFuseBindMount_events _ _ _ _ _ _ Hin) as [-> _].
      split; [reflexivity | split; [exact H2 | split]].
      * unfold mountFuseBindMounts_events. apply in_or_app. left.
        exact (bind_event_of_status _ _ _ H1).
      * exact (bind_status_of_event _ _ _ _ _ _ Hin).
  - intros src st Hin Hst. unfold mountFuseBindMounts_events in Hin |- *.
    apply in_app_or in Hin. destruct Hin as [Hin | Hin].
    + pose proof (bind_status_of_event _ _ _ _ _ _ Hin) as H1.
      assert (Hz : (doFuseBindMount_status a1 =? OK) = false).
      { apply Z.eqb_neq. rewrite H1. exact Hst. }
      rewrite Hz. cbn [andb]. rewrite app_nil_r.
      split; [exact H1 | ].
      intros a b st' Hb. apply in_doFuseBindMount_events in Hb. apply Hb.
    + destruct ((doFuseBindMount_status a1 =? OK) && mUseSdcardFs (vol s));
        [ | destruct Hin].
      apply in_doFuseBindMount_events in Hin. destruct Hin as [_ Hin].
      pose proof (targets_differ (vol s)) as Hd.
      rewrite Hin, String.eqb_refl in Hd. discriminate Hd.
  - intros Hok.
    assert (H1 : doFuseBindMount_status a1 = OK).
    { destruct (doFuseBindMount_status a1 =? OK) eqn:Hz.
      - apply Z.eqb_eq. exact Hz.
      - exact Hok. }
    split.
    + apply replay_bind_mount; [exact Hk | ].
      unfold mountFuseBindMounts_events. apply in_or_app. left.
      exact (bind_event_of_status _ _ _ H1).
    + intros Hs. apply replay_bind_mount; [exact Hk | ].
      unfold mountFuseBindMounts_events. apply in_or_app. right.
      rewrite H1, Hs in Hok |- *. cbn [Z.eqb OK andb] in Hok |- *.
      exact (bind_event_of_status _ _ _ Hok).
  - intros e He. apply replay_keeps; [exact Hk | exact He].
Qed.

(** X3. unmountFuseBindMounts asks for the installer bind mount to be
    unmounted only with the legacy overlay in use, and whatever the answer it
    goes on to the primary bind mount: the status of that second unmount is
    the result. The fields are left as they were and nothing gets mounted. *)
Theorem X3_unmountFuseBindMounts_status env s :
  exists r s' evs,
    unmountFuseBindMounts env s = Some (r, s') /\
    vol s' = vol s /\
    trace (world s') = (trace (world s) ++ evs)%list /\
    (mUseSdcardFs (vol s) = true ->
     exists st1,
       evs = [EvUnmountTree (installerTarget (vol s)) st1;
              EvUnmountTree (androidTarget (vol s)) r]) /\
    (mUseSdcardFs (vol s) = false ->
     evs = [EvUnmountTree (androidTarget (vol s)) r]) /\
    androidTarget (vol s)
    = "/mnt/user/" ++ fmt_d (mMountUserId (vol s)) ++ "/"
        ++ resolveLabel (vol s) ++ "/" ++ fmt_d (mMountUserId (vol s))
        ++ "/Android" /\
    (r = OK -> nothing_at (androidTarget (vol s)) (mounts (world s'))) /\
    (forall e, In e (mounts (world s')) -> In e (mounts (world s))).
Proof.
  destruct (unmountFuseBindMounts_closed env s) as (st1 & st2 & E).
  eexists _, _, _. split; [exact E | ].
  cbn [vol world]. rewrite trace_after, mounts_after.
  split; [reflexivity | split; [reflexivity | ]].
  unfold unmountFuseBindMounts_events.
  split; [ | split; [ | split; [reflexivity | split]]].
  - intros ->. exists st1. reflexivity.
  - intros ->. reflexivity.
  - intros ->. rewrite fold_left_app. cbn [fold_left replay_event].
    change (OK =? 0) with true. cbv iota. apply nothing_at_umount_same.
  - intros e He. apply replay_shrinks in He; [exact He | ].
    intros x Hx. apply in_app_or in Hx.
    destruct Hx as [Hx | [<- | []]]; [ | split; discriminate].
    destruct (mUseSdcardFs (vol s)); [ | destruct Hx].
    destruct Hx as [<- | []]. split; discriminate.
Qed.

(** ** doMount: the runs again *)

Lemma prepare_in_fuse_events v l a p m u g r :
  In (EvPrepareDir p m u g r) (doMount_fuse_events v l a) -> m = 505.
Proof.
  assert (B : forall src tgt b,
             In (EvPrepareDir p m u g r) (doFuseBindMount_events src tgt b) ->
             m = 505).
  { intros src tgt b H. unfold doFuseBindMount_events in H.
    apply in_app_or in H. destruct H as [[H | []] | H]; [discriminate H | ].
    apply in_app_or in H. destruct H as [H | H].
    - destruct (b_present b); [destruct H | ].
      destruct H as [H | []]. injection H as _ <- _ _ _. reflexivity.
    - destruct (b_present b || is_ok (b_prepare b)); [ | destruct H].
      destruct H as [H | []]. discriminate H. }
  unfold doMount_fuse_events, doMount_fuse_calls. intros H.
  apply in_app_or in H. destruct H as [[H | H] | H].
  - discriminate H.
  - destruct (f_mount a =? 0); [ | destruct H].
    apply in_app_or in H. destruct H as [H | H].
    + apply kinds_callback_events in H. discriminate H.
    + destruct (fuse_ready v); [ | destruct H].
      unfold mountFuseBindMounts_events in H.
      apply in_app_or in H. destruct H as [H | H]; [exact (B _ _ _ H) | ].
      destruct ((doFuseBindMount_status (f_android a) =? OK)
                && mUseSdcardFs (set_mFuseMounted true v)); [ | destruct H].
      exact (B _ _ _ H).
  - destruct (rolled_back v a); [ | destruct H].
    destruct H as [H | H]; [discriminate H | ].
    apply kinds_doUnmount_events in H. no_kind H.
Qed.

(** The bridge is asked for in the FUSE block alone, and first. *)
Lemma bridge_start_in_run env s r s' evs u i l res :
  MountRun env s r s' evs ->
  In (EvMountUserFuse u i l res) evs ->
  exists d ov w2 a,
    Overlay env (doMount_setup (vol s))
      (after (prepared (doMount_setup (vol s)) d) (world s)) d ov w2 /\
    isVisible (vol s) = true /\
    rollback_is_doUnmount env (doMount_setup (vol s)) (resolveLabel (vol s))
      a w2 /\
    r = doMount_fuse_status (doMount_setup (vol s)) a /\
    s' = mkSt (doMount_fuse_vol (doMount_setup (vol s)) a)
           (after (doMount_fuse_events (doMount_setup (vol s))
                     (resolveLabel (vol s)) a) w2) /\
    evs = (prepared (doMount_setup (vol s)) d ++ ov
           ++ doMount_fuse_events (doMount_setup (vol s))
                (resolveLabel (vol s)) a)%list /\
    u = mMountUserId (vol s) /\ i = mRawPath (vol s) /\
    l = resolveLabel (vol s) /\ res = f_mount a.
Proof.
  intros Hrun Hin.
  destruct Hrun as [r1 r2 r3 r4 e He | d e Hown
                   | d pid0 polls w' Hown Hd Hp Hms Hsl
                   | d ov w2 isFuse Hd Hov Hnf
                   | d ov w2 a Hd Hov Hvis Hlink].
  - exfalso. apply kinds_prepare_events in Hin. discriminate Hin.
  - exfalso. in_cases Hin; [not_in_prepared Hin | ].
    destruct Hin as [Hin | []]. discriminate Hin.
  - exfalso. in_cases Hin.
    + not_in_prepared Hin.
    + no_kind Hin.
    + not_in_polls Hp Hin.
  - exfalso. apply (no_teardown_before_fuse _ _ _ _ _ _ _ Hov) in Hin.
    cbn in Hin. intuition discriminate.
  - exists d, ov, w2, a.
    repeat (split; [first [assumption | reflexivity] | ]).
    rewrite app_assoc in Hin. apply in_app_or in Hin.
    destruct Hin as [Hin | Hin].
    { exfalso. apply (no_teardown_before_fuse _ _ _ _ _ _ _ Hov) in Hin.
      cbn in Hin. intuition discriminate. }
    unfold doMount_fuse_events, doMount_fuse_calls in Hin.
    apply in_app_or in Hin. destruct Hin as [[Hin | Hin] | Hin].
    + injection Hin as <- <- <- <-. auto.
    + exfalso. destruct (f_mount a =? 0); [ | destruct Hin].
      apply in_app_or in Hin. destruct Hin as [Hin | Hin].
      * apply kinds_callback_events in Hin. discriminate Hin.
      * destruct (fuse_ready _); [ | destruct Hin].
        apply kinds_mountFuseBindMounts_events in Hin. no_kind Hin.
    + exfalso. destruct (rolled_back _ a); [ | destruct Hin].
      destruct Hin as [Hin | Hin]; [discriminate Hin | ].
      apply kinds_doUnmount_events in Hin. no_kind Hin.
Qed.

Lemma mounts_after_prepared v d w :
  mounts (after (prepared v d) w) = mounts w.
Proof. reflexivity. Qed.

(** X4. doMount prepares the four mount points in the order default, read,
    write, full, with mode 0700 and owner and group root, and stops at the
    first that fails: it then returns minus the errno of that call, having
    made no other call than the successful fs_prepare_dir before it - no
    device query, no fork, no mount - so the mount table and the
    bridge-mounted flag are as they were. *)
Theorem X4_doMount_prepare_failure env fuel s :
  (101 <= fuel)%nat ->
  exists r s' evs,
    doMount env fuel s = Some (r, s') /\
    trace (world s') = (trace (world s) ++ evs)%list /\
    (exists r1,
       hd_error evs
       = Some (EvPrepareDir ("/mnt/runtime/default/" ++ resolveLabel (vol s))
                 448 0 0 r1)) /\
    (forall i p u g e,
       nth_error evs i = Some (EvPrepareDir p 448 u g (Err e)) ->
       r = - Zpos e /\ errno (world s') = Zpos e /\
       nth_error (view_paths (resolveLabel (vol s))) i = Some p /\
       u = 0 /\ g = 0 /\
       List.length evs = S i /\
       (forall j q,
          (j < i)%nat ->
          nth_error (view_paths (resolveLabel (vol s))) j = Some q ->
          nth_error evs j = Some (EvPrepareDir q 448 0 0 (Ok tt))) /\
       mounts (world s') = mounts (world s) /\
       mFuseMounted (vol s') = mFuseMounted (vol s)).
Proof.
  intros Hfuel.
  destruct (doMount_runs env fuel s Hfuel) as (r & s' & evs & E & Ht & Hrun).
  exists r, s', evs. split; [exact E | split; [exact Ht | ]].
  assert (Hother : forall d rest i p u g e,
             (forall x, In x rest ->
                match x with
                | EvPrepareDir _ m _ _ _ => m = 505
                | _ => True
                end) ->
             nth_error (prepared (doMount_setup (vol s)) d ++ rest) i
             = Some (EvPrepareDir p 448 u g (Err e)) -> False).
  { intros d rest i p u g e Hrest Hn. apply nth_error_In in Hn.
    apply in_app_or in Hn. destruct Hn as [Hn | Hn].
    - cbn in Hn.
      repeat (destruct Hn as [Hn | Hn]; [discriminate Hn | ]). destruct Hn.
    - apply Hrest in Hn. discriminate Hn. }
  destruct Hrun as [r1 r2 r3 r4 e He | d e Hown
                   | d pid0 polls w' Hown Hd Hp Hms Hsl
                   | d ov w2 isFuse Hd Hov Hnf
                   | d ov w2 a Hd Hov Hvis Hlink].
  - split; [exists r1; reflexivity | ].
    intros i p u g e' Hn.
    destruct r1 as [[] | e1];
      [destruct r2 as [[] | e2];
       [destruct r3 as [[] | e3]; [destruct r4 as [[] | e4] | ] | ] | ];
      cbn in He; try discriminate He; injection He as <-;
      (destruct i as [| [| [| [| i]]]]; cbn in Hn; try discriminate Hn;
       try (destruct i; discriminate Hn);
       injection Hn as <- <- <- <-;
       repeat (split; [reflexivity | ]);
       (split; [ | split; reflexivity]);
       intros j q Hj Hq;
       destruct j as [| [| [| [| j]]]]; try lia;
       cbn in Hq |- *; injection Hq as <-; reflexivity).
  - split; [eexists; reflexivity | ].
    intros i p u g e' Hn. exfalso.
    apply (Hother _ _ _ _ _ _ _) in Hn; [exact Hn | ].
    intros x [<- | []]. exact I.
  - split; [eexists; reflexivity | ].
    intros i p u g e' Hn. exfalso.
    apply (Hother _ _ _ _ _ _ _) in Hn; [exact Hn | ].
    intros x Hx. in_cases Hx.
    + cbn in Hx. destruct Hx as [<- | [<- | [<- | []]]]; exact I.
    + rewrite Forall_forall in Hp. apply Hp in Hx.
      destruct x; try exact I. discriminate Hx.
  - split; [eexists; reflexivity | ].
    intros i p u g e' Hn. exfalso.
    apply (Hother _ _ _ _ _ _ _) in Hn; [exact Hn | ].
    intros x Hx.
    destruct Hov as [Hown | pid0 polls w2 Hown Hp Hdev Htr];
      [destruct Hx | ].
    in_cases Hx.
    + cbn in Hx. destruct Hx as [<- | [<- | [<- | []]]]; exact I.
    + rewrite Forall_forall in Hp. apply Hp in Hx.
      destruct x; try exact I. discriminate Hx.
    + destruct Hx as [<- | []]. exact I.
  - split; [eexists; reflexivity | ].
    intros i p u g e' Hn. exfalso.
    apply (Hother _ _ _ _ _ _ _) in Hn; [exact Hn | ].
    intros x Hx. apply in_app_or in Hx. destruct Hx as [Hx | Hx].
    + destruct Hov as [Hown | pid0 polls w2 Hown Hp Hdev Htr];
        [destruct Hx | ].
      in_cases Hx.
      * cbn in Hx. destruct Hx as [<- | [<- | [<- | []]]]; exact I.
      * rewrite Forall_forall in Hp. apply Hp in Hx.
        destruct x; try exact I. discriminate Hx.
      * destruct Hx as [<- | []]. exact I.
    + destruct x; try exact I.
      exact (prepare_in_fuse_events _ _ _ _ _ _ _ _ Hx).
Qed.

(** X5. When the fork of the sdcardfs child fails with errno [e], doMount
    returns [-e] at once: the failed fork is its last call, after the four
    fs_prepare_dir and the device query; nothing is executed, waited for or
    mounted, and the bridge-mounted flag is as it was. A fork is only ever
    attempted for user 0 with the legacy overlay. *)
Theorem X5_doMount_fork_failure env fuel s :
  (101 <= fuel)%nat ->
  exists r s' evs,
    doMount env fuel s = Some (r, s') /\
    trace (world s') = (trace (world s) ++ evs)%list /\
    (forall res, In (EvFork res) evs ->
                 mUseSdcardFs (vol s) = true /\ mMountUserId (vol s) = 0) /\
    (forall e,
       In (EvFork (Err e)) evs ->
       r = - Zpos e /\ errno (world s') = Zpos e /\
       last evs (EvFork (Err e)) = EvFork (Err e) /\
       (forall x, In x evs -> In (kind x) [KPrepareDir; KGetDevice; KFork]) /\
       mounts (world s') = mounts (world s) /\
       mFuseMounted (vol s') = mFuseMounted (vol s)).
Proof.
  intros Hfuel.
  destruct (doMount_runs env fuel s Hfuel) as (r & s' & evs & E & Ht & Hrun).
  exists r, s', evs. split; [exact E | split; [exact Ht | ]].
  assert (Hown : forall res, In (EvFork res) evs -> owning (vol s) = true).
  { intros res Hin.
    destruct Hrun as [r1 r2 r3 r4 e He | d e Hown
                     | d pid0 polls w' Hown Hd Hp Hms Hsl
                     | d ov w2 isFuse Hd Hov Hnf
                     | d ov w2 a Hd Hov Hvis Hlink]; try exact Hown.
    - apply kinds_prepare_events in Hin. discriminate Hin.
    - destruct Hov as [Hown | pid0 polls w2 Hown Hp Hdev Htr];
        [ | exact Hown].
      in_cases Hin; [not_in_prepared Hin | destruct Hin].
    - destruct Hov as [Hown | pid0 polls w2 Hown Hp Hdev Htr];
        [ | exact Hown].
      in_cases Hin; [not_in_prepared Hin | destruct Hin | not_in_fuse Hin]. }
  split.
  { intros res Hin. apply Hown in Hin. rewrite owning_spec in Hin.
    apply andb_prop in Hin. destruct Hin as [H1 H2].
    apply Z.eqb_eq in H2. auto. }
  intros e Hin.
  destruct Hrun as [r1 r2 r3 r4 e0 He | d e0 Hown0
                   | d pid0 polls w' Hown0 Hd Hp Hms Hsl
                   | d ov w2 isFuse Hd Hov Hnf
                   | d ov w2 a Hd Hov Hvis Hlink].
  - exfalso. apply kinds_prepare_events in Hin. discriminate Hin.
  - in_cases Hin; [not_in_prepared Hin | ].
    destruct Hin as [Hin | []]. injection Hin as ->.
    split; [reflexivity | split; [reflexivity | split; [ | split]]].
    + apply last_last.
    + intros x Hx. in_cases Hx.
      * apply kinds_prepared in Hx. cbn in *. tauto.
      * destruct Hx as [<- | []]. cbn. tauto.
    + split; reflexivity.
  - exfalso. in_cases Hin.
    + not_in_prepared Hin.
    + cbn in Hin. destruct Hin as [Hin | [Hin | [Hin | []]]]; discriminate Hin.
    + not_in_polls Hp Hin.
  - exfalso. destruct Hov as [Hown1 | pid0 polls w2 Hown1 Hp Hdev Htr].
    + in_cases Hin; [not_in_prepared Hin | destruct Hin].
    + in_cases Hin.
      * not_in_prepared Hin.
      * cbn in Hin.
        destruct Hin as [Hin | [Hin | [Hin | []]]]; discriminate Hin.
      * not_in_polls Hp Hin.
      * destruct Hin as [Hin | []]. discriminate Hin.
  - exfalso. destruct Hov as [Hown1 | pid0 polls w2 Hown1 Hp Hdev Htr].
    + in_cases Hin; [not_in_prepared Hin | destruct Hin | not_in_fuse Hin].
    + in_cases Hin.
      * not_in_prepared Hin.
      * cbn in Hin.
        destruct Hin as [Hin | [Hin | [Hin | []]]]; discriminate Hin.
      * not_in_polls Hp Hin.
      * destruct Hin as [Hin | []]. discriminate Hin.
      * not_in_fuse Hin.
Qed.

(** X6. The bridge is asked for with the user id of the volume, the raw path
    as internal path and the resolved label. When MountUserFuse answers a
    result other than 0, doMount returns minus that result at once: that call
    is its last, the bridge-mounted flag is as it was before the call, the
    callback is not invoked, and nothing is rolled back - in particular the
    legacy overlay spawned in this attempt is neither unmounted nor killed. *)
Theorem X6_doMount_bridge_start_failure env fuel s :
  (101 <= fuel)%nat ->
  exists r s' evs,
    doMount env fuel s = Some (r, s') /\
    trace (world s') = (trace (world s) ++ evs)%list /\
    (forall u i l res,
       In (EvMountUserFuse u i l res) evs ->
       u = mMountUserId (vol s) /\ i = mRawPath (vol s) /\
       l = resolveLabel (vol s) /\
       (res <> 0 ->
        r = - res /\
        mFuseMounted (vol s') = mFuseMounted (vol s) /\
        last evs (EvMountUserFuse u i l res) = EvMountUserFuse u i l res /\
        (forall x, In x evs ->
                   In (kind x) (wait_kinds ++ [KWaitpid; KMountUserFuse])))).
Proof.
  intros Hfuel.
  destruct (doMount_runs env fuel s Hfuel) as (r & s' & evs & E & Ht & Hrun).
  exists r, s', evs. split; [exact E | split; [exact Ht | ]].
  intros u i l res Hin.
  destruct (bridge_start_in_run _ _ _ _ _ _ _ _ _ Hrun Hin)
    as (d & ov & w2 & a & Hov & Hvis & Hlink & -> & -> & -> & -> & -> & -> & ->).
  repeat (split; [reflexivity | ]).
  intros Hres. apply Z.eqb_neq in Hres.
  unfold doMount_fuse_status, doMount_fuse_vol, doMount_fuse_events,
    doMount_fuse_calls, rolled_back.
  rewrite Hres. cbn [andb app vol].
  split; [reflexivity | split; [reflexivity | split]].
  - rewrite ?app_nil_r, app_assoc. apply last_last.
  - intros x Hx. rewrite ?app_nil_r, app_assoc in Hx.
    apply in_app_or in Hx. destruct Hx as [Hx | [<- | []]].
    + apply (no_teardown_before_fuse _ _ _ _ _ _ _ Hov) in Hx.
      apply in_or_app. destruct Hx as [Hx | ->]; [left; exact Hx | ].
      right. left. reflexivity.
    + apply in_or_app. right. right. left. reflexivity.
Qed.

Lemma failed_bind_is_status v a1 a2 src tgt st :
  In (EvBindMount src tgt st) (mountFuseBindMounts_events v a1 a2) ->
  st <> OK ->
  mountFuseBindMounts_status v a1 a2 = st.
Proof.
  unfold mountFuseBindMounts_events, mountFuseBindMounts_status.
  intros Hin Hst. apply in_app_or in Hin. destruct Hin as [Hin | Hin].
  - pose proof (bind_status_of_event _ _ _ _ _ _ Hin) as H1.
    assert (Hz : (doFuseBindMount_status a1 =? OK) = false)
      by (apply Z.eqb_neq; rewrite H1; exact Hst).
    rewrite Hz. exact H1.
  - destruct ((doFuseBindMount_status a1 =? OK) && mUseSdcardFs v);
      [ | destruct Hin].
    exact (bind_status_of_event _ _ _ _ _ _ Hin).
Qed.

Lemma failed_prepare_is_status_one src tgt b p m u g e :
  In (EvPrepareDir p m u g (Err e)) (doFuseBindMount_events src tgt b) ->
  doFuseBindMount_status b = - Zpos e.
Proof.
  unfold doFuseBindMount_events, doFuseBindMount_status. intros H.
  apply in_app_or in H. destruct H as [[H | []] | H]; [discriminate H | ].
  destruct (b_present b); cbn [app orb] in H.
  - destruct H as [H | []]. discriminate H.
  - destruct H as [H | H].
    + injection H as _ _ _ _ ->. reflexivity.
    + destruct (is_ok (b_prepare b)); [ | destruct H].
      destruct H as [H | []]. discriminate H.
Qed.

Lemma failed_prepare_is_status v a1 a2 p m u g e :
  In (EvPrepareDir p m u g (Err e)) (mountFuseBindMounts_events v a1 a2) ->
  mountFuseBindMounts_status v a1 a2 = - Zpos e.
Proof.
  unfold mountFuseBindMounts_events, mountFuseBindMounts_status.
  intros Hin. apply in_app_or in Hin. destruct Hin as [Hin | Hin].
  - pose proof (failed_prepare_is_status_one _ _ _ _ _ _ _ _ Hin) as H1.
    rewrite H1. reflexivity.
  - destruct ((doFuseBindMount_status a1 =? OK) && mUseSdcardFs v);
      [ | destruct Hin].
    exact (failed_prepare_is_status_one _ _ _ _ _ _ _ _ Hin).
Qed.

Lemma rolled_back_status v a :
  f_mount a = 0 ->
  (rolled_back v a = true <-> doMount_fuse_status v a <> OK).
Proof.
  intros Hm. unfold rolled_back, doMount_fuse_status. rewrite Hm.
  cbn [Z.eqb andb]. destruct (fuse_ready v); cbn [andb negb].
  - rewrite negb_true_iff, Z.eqb_neq. reflexivity.
  - split; [intros _ H; discriminate H | reflexivity].
Qed.

Lemma calls_of_fuse_events v l a x :
  In x (doMount_fuse_calls v l a) ->
  ~ In (kind x) (KFdReset :: teardown_kinds).
Proof.
  intros H Hk. apply kinds_doMount_fuse_calls in H.
  destruct x; cbn in H, Hk; intuition discriminate.
Qed.

Lemma before_fuse_no_teardown env v w d ov w2 x :
  Overlay env v w d ov w2 ->
  In x (prepared v d ++ ov)%list ->
  ~ In (kind x) (KFdReset :: teardown_kinds).
Proof.
  intros Hov H Hk. apply (no_teardown_before_fuse _ _ _ _ _ _ _ Hov) in H.
  destruct x; cbn in H, Hk; intuition discriminate.
Qed.

(** X7. Once the bridge has been started, doMount fails exactly when it
    rolls back. Its status is then that of what failed - the status of the
    bind mount that was refused, or minus the errno of the source directory
    that could not be created (or -EIO for a callback that reported
    not-ready) - and never that of the rollback: the bridge handle is
    released after the last call of the attempt, and the rest of the call is
    one doUnmount, entered with the bridge-mounted flag set, whose status is
    dropped. *)
Theorem X7_doMount_rolls_back_after_bridge env fuel s :
  (101 <= fuel)%nat ->
  exists r s' evs,
    doMount env fuel s = Some (r, s') /\
    trace (world s') = (trace (world s) ++ evs)%list /\
    (forall u i l,
       In (EvMountUserFuse u i l 0) evs ->
       (r = OK <-> ~ In EvFdReset evs) /\
       (forall src tgt st,
          In (EvBindMount src tgt st) evs -> st <> OK -> r = st) /\
       (forall p u' g e,
          In (EvPrepareDir p 505 u' g (Err e)) evs -> r = - Zpos e) /\
       (r <> OK ->
        exists pre post s1 ru,
          evs = (pre ++ EvFdReset :: post)%list /\
          (forall x, In x pre -> ~ In (kind x) (KFdReset :: teardown_kinds)) /\
          mFuseMounted (vol s1) = true /\
          trace (world s1) = (trace (world s) ++ pre ++ [EvFdReset])%list /\
          doUnmount env s1 = Some (ru, s') /\
          trace (world s') = (trace (world s1) ++ post)%list)).
Proof.
  intros Hfuel.
  destruct (doMount_runs env fuel s Hfuel) as (r & s' & evs & E & Ht & Hrun).
  exists r, s', evs. split; [exact E | split; [exact Ht | ]].
  intros u i l Hin.
  destruct (bridge_start_in_run _ _ _ _ _ _ _ _ _ Hrun Hin)
    as (d & ov & w2 & a & Hov & Hvis & Hlink & -> & -> & -> & _ & _ & _ & Hm).
  symmetry in Hm.
  set (v0 := doMount_setup (vol s)) in *.
  set (label := resolveLabel (vol s)) in *.
  pose proof (rolled_back_status v0 a Hm) as Hrb.
  assert (Hmz : (f_mount a =? 0) = true) by (apply Z.eqb_eq; exact Hm).
  split; [ | split; [ | split]].
  - split.
    + intros Hok Hfd. rewrite app_assoc in Hfd. apply in_app_or in Hfd.
      destruct Hfd as [Hfd | Hfd].
      * apply (before_fuse_no_teardown _ _ _ _ _ _ _ Hov) in Hfd.
        apply Hfd. left. reflexivity.
      * unfold doMount_fuse_events in Hfd.
        destruct (rolled_back v0 a) eqn:Hr.
        -- apply (proj1 Hrb); [reflexivity | exact Hok].
        -- rewrite app_nil_r in Hfd. apply calls_of_fuse_events in Hfd.
           apply Hfd. left. reflexivity.
    + intros Hno. destruct (rolled_back v0 a) eqn:Hr.
      * exfalso. apply Hno. apply in_or_app. right. apply in_or_app. right.
        unfold doMount_fuse_events. rewrite Hr.
        apply in_or_app. right. left. reflexivity.
      * destruct (Z.eq_dec (doMount_fuse_status v0 a) OK) as [H | H];
          [exact H | ].
        apply (proj2 Hrb) in H. discriminate H.
  - intros src tgt st Hb Hst. rewrite app_assoc in Hb.
    apply in_app_or in Hb. destruct Hb as [Hb | Hb].
    { exfalso. apply (no_teardown_before_fuse _ _ _ _ _ _ _ Hov) in Hb.
      cbn in Hb. intuition discriminate. }
    unfold doMount_fuse_events, doMount_fuse_calls in Hb.
    unfold doMount_fuse_status. rewrite Hmz in Hb |- *.
    apply in_app_or in Hb. destruct Hb as [[Hb | Hb] | Hb].
    + discriminate Hb.
    + apply in_app_or in Hb. destruct Hb as [Hb | Hb].
      * apply kinds_callback_events in Hb. discriminate Hb.
      * destruct (fuse_ready v0); [ | destruct Hb].
        exact (failed_bind_is_status _ _ _ _ _ _ Hb Hst).
    + exfalso. destruct (rolled_back v0 a); [ | destruct Hb].
      destruct Hb as [Hb | Hb]; [discriminate Hb | ].
      apply kinds_doUnmount_events in Hb. no_kind Hb.
  - intros p u' g e Hp. rewrite app_assoc in Hp.
    apply in_app_or in Hp. destruct Hp as [Hp | Hp].
    { exfalso. apply in_app_or in Hp. destruct Hp as [Hp | Hp].
      - cbn in Hp.
        repeat (destruct Hp as [Hp | Hp]; [discriminate Hp | ]). destruct Hp.
      - destruct Hov as [Hown | pid0 polls w2 Hown Hpl Hdev Htr];
          [destruct Hp | ].
        in_cases Hp.
        + no_kind Hp.
        + not_in_polls Hpl Hp.
        + destruct Hp as [Hp | []]. discriminate Hp. }
    unfold doMount_fuse_events, doMount_fuse_calls in Hp.
    unfold doMount_fuse_status. rewrite Hmz in Hp |- *.
    apply in_app_or in Hp. destruct Hp as [[Hp | Hp] | Hp].
    + discriminate Hp.
    + apply in_app_or in Hp. destruct Hp as [Hp | Hp].
      * apply kinds_callback_events in Hp. discriminate Hp.
      * destruct (fuse_ready v0); [ | destruct Hp].
        exact (failed_prepare_is_status _ _ _ _ _ _ _ _ Hp).
    + exfalso. destruct (rolled_back v0 a); [ | destruct Hp].
      destruct Hp as [Hp | Hp]; [discriminate Hp | ].
      apply kinds_doUnmount_events in Hp. no_kind Hp.
  - intros Hr. apply (proj2 Hrb) in Hr.
    specialize (Hlink Hr).
    exists (prepared v0 d ++ ov ++ doMount_fuse_calls v0 label a)%list,
      (doUnmount_events (set_mFuseMounted true v0) (f_rollback a)).
    eexists _, _.
    split; [ | split; [ | split; [ | split; [ | split; [exact Hlink | ]]]]].
    + unfold doMount_fuse_events. rewrite Hr, <- !app_assoc. reflexivity.
    + intros x Hx. rewrite app_assoc in Hx. apply in_app_or in Hx.
      destruct Hx as [Hx | Hx].
      * exact (before_fuse_no_teardown _ _ _ _ _ _ _ Hov Hx).
      * exact (calls_of_fuse_events _ _ _ _ Hx).
    + reflexivity.
    + cbn [world]. rewrite trace_after, (trace_overlay _ _ _ _ _ _ Hov),
        trace_after, <- !app_assoc. reflexivity.
    + cbn [world]. rewrite !trace_after. unfold doMount_fuse_events.
      rewrite Hr, <- !app_assoc. reflexivity.
Qed.

(** X8. When doMount returns OK nothing was rolled back: it has made no
    kill, unmount or rmdir call and has not released the bridge handle. If
    the bridge was started, the bridge-mounted flag is set, the callback (if
    one is registered) was given the path "/storage/<label>" and the raw
    path and reported ready, and the bridge, the primary bind mount and -
    with the legacy overlay - the installer bind mount are in the mount
    table. If it was not, the flag is as it was. *)
Theorem X8_doMount_success env fuel s :
  (101 <= fuel)%nat ->
  exists r s' evs,
    doMount env fuel s = Some (r, s') /\
    trace (world s') = (trace (world s) ++ evs)%list /\
    (r = OK ->
     (forall x, In x evs -> ~ In (kind x) (KFdReset :: teardown_kinds)) /\
     (forall p i ready,
        In (EvOnVolumeChecking p i ready) evs ->
        ready = true /\ p = "/storage/" ++ resolveLabel (vol s) /\
        i = mRawPath (vol s)) /\
     (forall u i l res,
        In (EvMountUserFuse u i l res) evs ->
        res = 0 /\
        mFuseMounted (vol s') = true /\
        In (BridgeEntry (mMountUserId (vol s)) (mRawPath (vol s))
              (resolveLabel (vol s))) (mounts (world s')) /\
        In (BindEntry (androidSource (vol s)) (androidTarget (vol s)))
           (mounts (world s')) /\
        (mUseSdcardFs (vol s) = true ->
         In (BindEntry (installerSource (vol s)) (installerTarget (vol s)))
            (mounts (world s'))) /\
        (forall cb, mMountCallback (vol s) = Some cb ->
           In (EvOnVolumeChecking ("/storage/" ++ resolveLabel (vol s))
                 (mRawPath (vol s)) true) evs)) /\
     ((forall u i l res, ~ In (EvMountUserFuse u i l res) evs) ->
      mFuseMounted (vol s') = mFuseMounted (vol s))).
Proof.
  intros Hfuel.
  destruct (doMount_runs env fuel s Hfuel) as (r & s' & evs & E & Ht & Hrun).
  exists r, s', evs. split; [exact E | split; [exact Ht | ]].
  intros Hok.
  destruct Hrun as [r1 r2 r3 r4 e He | d e Hown
                   | d pid0 polls w' Hown Hd Hp Hms Hsl
                   | d ov w2 isFuse Hd Hov Hnf
                   | d ov w2 a Hd Hov Hvis Hlink];
    try discriminate Hok.
  - split; [ | split; [ | split]].
    + intros x Hx. exact (before_fuse_no_teardown _ _ _ _ _ _ _ Hov Hx).
    + intros p i ready Hin. exfalso.
      apply (no_teardown_before_fuse _ _ _ _ _ _ _ Hov) in Hin.
      cbn in Hin. intuition discriminate.
    + intros u i l res Hin. exfalso.
      apply (no_teardown_before_fuse _ _ _ _ _ _ _ Hov) in Hin.
      cbn in Hin. intuition discriminate.
    + intros _. reflexivity.
  - set (v0 := doMount_setup (vol s)) in *.
    set (label := resolveLabel (vol s)) in *.
    assert (Hm : f_mount a = 0).
    { unfold doMount_fuse_status in Hok.
      destruct (f_mount a =? 0) eqn:Hz; [apply Z.eqb_eq; exact Hz | ].
      apply Z.eqb_neq in Hz. unfold OK in Hok. lia. }
    assert (Hmz : (f_mount a =? 0) = true) by (apply Z.eqb_eq; exact Hm).
    assert (Hr : rolled_back v0 a = false).
    { destruct (rolled_back v0 a) eqn:Hr; [ | reflexivity].
      apply (rolled_back_status v0 a Hm) in Hr. contradiction. }
    assert (Hready : fuse_ready v0 = true).
    { unfold doMount_fuse_status in Hok. rewrite Hmz in Hok.
      destruct (fuse_ready v0); [reflexivity | discriminate Hok]. }
    assert (Hst : mountFuseBindMounts_status (set_mFuseMounted true v0)
                    (f_android a) (f_installer a) = OK).
    { unfold doMount_fuse_status in Hok. rewrite Hmz, Hready in Hok.
      exact Hok. }
    assert (Hevs : doMount_fuse_events v0 label a
                   = (EvMountUserFuse (mMountUserId v0) (mInternalPath v0)
                        label 0
                      :: callback_events v0
                      ++ mountFuseBindMounts_events (set_mFuseMounted true v0)
                           (f_android a) (f_installer a))%list).
    { unfold doMount_fuse_events, doMount_fuse_calls.
      rewrite Hr, Hmz, Hready, app_nil_r, Hm. reflexivity. }
    assert (Hcalls : doMount_fuse_events v0 label a
                     = doMount_fuse_calls v0 label a).
    { unfold doMount_fuse_events. rewrite Hr, app_nil_r. reflexivity. }
    assert (Hno : forall x, In x (doMount_fuse_events v0 label a) ->
                            is_unmount_op x = false).
    { intros x Hx. rewrite Hcalls in Hx. apply bind_kinds_no_unmount.
      exact (kinds_doMount_fuse_calls _ _ _ _ Hx). }
    assert (H1 : doFuseBindMount_status (f_android a) = OK).
    { unfold mountFuseBindMounts_status in Hst.
      destruct (doFuseBindMount_status (f_android a) =? OK) eqn:Hz.
      - apply Z.eqb_eq. exact Hz.
      - exact Hst. }
    split; [ | split; [ | split]].
    + intros x Hx. rewrite app_assoc in Hx. apply in_app_or in Hx.
      destruct Hx as [Hx | Hx].
      * exact (before_fuse_no_teardown _ _ _ _ _ _ _ Hov Hx).
      * rewrite Hcalls in Hx. exact (calls_of_fuse_events _ _ _ _ Hx).
    + intros p i ready Hin. rewrite app_assoc in Hin.
      apply in_app_or in Hin. destruct Hin as [Hin | Hin].
      { exfalso. apply (no_teardown_before_fuse _ _ _ _ _ _ _ Hov) in Hin.
        cbn in Hin. intuition discriminate. }
      rewrite Hevs in Hin. destruct Hin as [Hin | Hin]; [discriminate Hin | ].
      apply in_app_or in Hin. destruct Hin as [Hin | Hin].
      * unfold callback_events in Hin. unfold fuse_ready in Hready.
        destruct (mMountCallback v0) as [cb | ]; [ | destruct Hin].
        destruct Hin as [Hin | []]. injection Hin as <- <- <-.
        split; [exact Hready | split; reflexivity].
      * exfalso. apply kinds_mountFuseBindMounts_events in Hin. no_kind Hin.
    + intros u i l res Hin.
      destruct (bridge_start_in_run _ _ _ _ _ _ _ _ _
                  (Run_fuse env s d ov w2 a Hd Hov Hvis Hlink) Hin)
        as (d' & ov' & w2' & a' & _ & _ & _ & _ & Hs & _).
      clear d' ov' w2' a' Hs.
      assert (Hres : res = 0).
      { rewrite app_assoc in Hin. apply in_app_or in Hin.
        destruct Hin as [Hin | Hin].
        { exfalso. apply (no_teardown_before_fuse _ _ _ _ _ _ _ Hov) in Hin.
          cbn in Hin. intuition discriminate. }
        rewrite Hevs in Hin. destruct Hin as [Hin | Hin].
        - injection Hin as _ _ _ <-. reflexivity.
        - exfalso. apply in_app_or in Hin. destruct Hin as [Hin | Hin].
          + apply kinds_callback_events in Hin. discriminate Hin.
          + apply kinds_mountFuseBindMounts_events in Hin. no_kind Hin. }
      split; [exact Hres | ]. cbn [vol world]. rewrite mounts_after.
      split; [ | split; [ | split; [ | split]]].
      * unfold doMount_fuse_vol. rewrite Hmz, Hr. reflexivity.
      * apply replay_bridge; [exact Hno | ]. rewrite Hevs. left. reflexivity.
      * apply replay_bind_mount; [exact Hno | ]. rewrite Hevs. right.
        apply in_or_app. right. unfold mountFuseBindMounts_events.
        apply in_or_app. left.
        exact (bind_event_of_status _ _ _ H1).
      * intros Hs. apply replay_bind_mount; [exact Hno | ]. rewrite Hevs.
        right. apply in_or_app. right.
        unfold mountFuseBindMounts_events, mountFuseBindMounts_status in *.
        change (mUseSdcardFs (set_mFuseMounted true v0))
          with (mUseSdcardFs (vol s)) in *.
        rewrite H1, Hs in Hst |- *. cbn [Z.eqb OK andb] in Hst |- *.
        apply in_or_app. right.
        exact (bind_event_of_status _ _ _ Hst).
      * intros cb Hcb. apply in_or_app. right. apply in_or_app. right.
        rewrite Hevs. right. apply in_or_app. left.
        unfold callback_events. unfold fuse_ready in Hready.
        change (mMountCallback v0) with (mMountCallback (vol s)) in *.
        rewrite Hcb in Hready |- *. rewrite Hready. left. reflexivity.
    + intros Hnone. exfalso.
      apply (Hnone (mMountUserId v0) (mInternalPath v0) label 0).
      apply in_or_app. right. apply in_or_app. right. rewrite Hevs.
      left. reflexivity.
Qed.

(** ** doMount: when the bridge is asked for *)

Lemma doMount_fuse_decision_prop env s d ov w2 (isFuse : bool) :
  (exists w0, d = env_GetDevice env w0 (mSdcardFsFull (doMount_setup (vol s)))) ->
  Overlay env (doMount_setup (vol s))
    (after (prepared (doMount_setup (vol s)) d) (world s)) d ov w2 ->
  trace w2 = (trace (world s) ++ prepared (doMount_setup (vol s)) d ++ ov)%list ->
  wp (if isFuse && truthy (Z.land (mMountFlags (vol s)) kVisible)
      then doMount_fuse env (resolveLabel (vol s))
      else ret OK)
    (mkSt (doMount_setup (vol s)) w2)
    (fun o s' =>
       exists evs, trace (world s') = (trace (world s) ++ evs)%list /\
                   MountRun env s (status_of o) s' evs /\
                   ((exists u i l res, In (EvMountUserFuse u i l res) evs) ->
                    isFuse && isVisible (vol s) = true) /\
                   (status_of o = OK ->
                    (forall u i l res, ~ In (EvMountUserFuse u i l res) evs) ->
                    isFuse && isVisible (vol s) = false)).
Proof.
  intros Hd Hov Ht. unfold isVisible.
  destruct (isFuse && truthy (Z.land (mMountFlags (vol s)) kVisible)) eqn:Hf.
  - eapply wp_conseq; [apply doMount_fuse_wp | ].
    cbn beta. intros o s' (a & H & Hlink). injection H as -> ->.
    eexists. split; [ | split; [ | split]].
    + cbn [world]. rewrite trace_after, Ht, <- !app_assoc. reflexivity.
    + apply andb_prop in Hf. destruct Hf as [_ Hvis].
      exact (Run_fuse env s d ov w2 a Hd Hov Hvis Hlink).
    + intros _. reflexivity.
    + intros _ Hno. exfalso.
      apply (Hno (mMountUserId (doMount_setup (vol s)))
               (mInternalPath (doMount_setup (vol s)))
               (resolveLabel (vol s)) (f_mount a)).
      apply in_or_app. right. apply in_or_app. right.
      unfold doMount_fuse_events, doMount_fuse_calls.
      apply in_or_app. left. left. reflexivity.
  - apply wp_ret. eexists. split; [exact Ht | split; [ | split]].
    + exact (Run_not_fuse env s d ov w2 isFuse Hd Hov Hf).
    + intros (u & i & l & res & Hin). exfalso.
      apply (no_teardown_before_fuse _ _ _ _ _ _ _ Hov) in Hin.
      cbn in Hin. intuition discriminate.
    + intros _ _. reflexivity.
Qed.

(** Every run of doMount again, with the world in which the FUSE property
    was read: that after the first device query. *)
Lemma doMount_runs_prop env fuel s :
  (101 <= fuel)%nat ->
  exists r s' evs d,
    doMount env fuel s = Some (r, s') /\
    trace (world s') = (trace (world s) ++ evs)%list /\
    MountRun env s r s' evs /\
    ((exists u i l res, In (EvMountUserFuse u i l res) evs) ->
     env_prop_fuse env (after (prepared (doMount_setup (vol s)) d) (world s))
     && isVisible (vol s) = true) /\
    (r = OK ->
     (forall u i l res, ~ In (EvMountUserFuse u i l res) evs) ->
     env_prop_fuse env (after (prepared (doMount_setup (vol s)) d) (world s))
     && isVisible (vol s) = false).
Proof.
  intros Hfuel.
  assert (W : wp (doMount_body env fuel) s (fun o s' =>
    exists evs d, trace (world s') = (trace (world s) ++ evs)%list /\
                MountRun env s (status_of o) s' evs /\
    ((exists u i l res, In (EvMountUserFuse u i l res) evs) ->
     env_prop_fuse env (after (prepared (doMount_setup (vol s)) d) (world s))
     && isVisible (vol s) = true) /\
    (status_of o = OK ->
     (forall u i l res, ~ In (EvMountUserFuse u i l res) evs) ->
     env_prop_fuse env (after (prepared (doMount_setup (vol s)) d) (world s))
     && isVisible (vol s) = false))).
  { match goal with |- wp _ _ ?Q => set (Post := Q) end.
    unfold doMount_body.
    repeat wp_step.
    2-5: subst Post; cbn beta;
      cbn [errno after fold_left replay_errno app]; eexists; exists 0;
      (split; [apply trace_after | ]); cbn [status_of];
      (split;
       [first [ exact (Run_prepare_failed env s (Err code) (Ok tt) (Ok tt) (Ok tt) code eq_refl)
              | exact (Run_prepare_failed env s (Ok tt) (Err code) (Ok tt) (Ok tt) code eq_refl)
              | exact (Run_prepare_failed env s (Ok tt) (Ok tt) (Err code) (Ok tt) code eq_refl)
              | exact (Run_prepare_failed env s (Ok tt) (Ok tt) (Ok tt) (Err code) code eq_refl) ]
       | split;
         [ intros (u & i & l & res & Hin); exfalso; no_kind Hin
         | intros Hok; exfalso; unfold OK in Hok; lia ]]).
    apply wp_GetDevice. intros d Hd. wp_simpl.
    fold (doMount_setup (vol s)).
    match goal with
    | |- wp _ {| vol := _; world := ?w |} _ =>
        change w with (after (prepared (doMount_setup (vol s)) d) (world s))
    end.
    change ("/mnt/runtime/full/" ++ resolveLabel (vol s))
      with (mSdcardFsFull (doMount_setup (vol s))) in Hd.
    wp_step. wp_step. wp_step. wp_step. wp_step.
    apply wp_gets. cbn beta iota.
    set (isFuse := env_prop_fuse env _).
    assert (HisFuse : isFuse
                      = env_prop_fuse env
                          (after (prepared (doMount_setup (vol s)) d) (world s)))
      by reflexivity.
    clearbody isFuse.
    apply wp_bind.
    change (mUseSdcardFs (doMount_setup (vol s))
            && (mMountUserId (vol {| vol := doMount_setup (vol s);
                  world := after (prepared (doMount_setup (vol s)) d) (world s) |}) =? 0))
      with (mUseSdcardFs (vol s) && (mMountUserId (vol s) =? 0)).
    rewrite <- owning_spec.
    destruct (owning (vol s)) eqn:Hown.
    - unfold doMount_sdcardfs.
      apply wp_bind, wp_fork_execl.
      + intros e. repeat wp_step. subst Post. cbn beta.
        rewrite errno_after_fork_err. eexists. exists d.
        split; [apply trace_after | split; [ | split]].
        * exact (Run_fork_failed env s d e Hown).
        * intros (u & i & l & res & Hin). exfalso.
          in_cases Hin; [not_in_prepared Hin | ].
          destruct Hin as [Hin | []]. discriminate Hin.
        * cbn [status_of]. intros Hok. exfalso. unfold OK in Hok. lia.
      + intros pid w1 Ht1 Hc1 He1.
        cbn [world] in Ht1, Hc1, He1.
        repeat wp_step.
        apply wp_systemTime. wp_simpl. apply wp_bind.
        eapply wp_conseq.
        { apply waitForSdcardFs_wp; cbn [world clock after]; lia. }
        cbn beta. intros o s' (Hv & He & polls & Ht & Hp & Ho).
        cbn [vol world] in Hv, He, Ht. rewrite trace_after, Ht1 in Ht.
        cbn [trace after] in Ht. rewrite <- !app_assoc in Ht.
        cbn [clock after] in Hc1.
        destruct s' as [v' w']. cbn [vol world] in *. subst v'.
        destruct Ho as [[-> Hw] | (-> & Hms & c & Hc & Hs)].
        * apply wp_modify_world. cbn [vol world].
          eapply wp_conseq.
          { apply (doMount_fuse_decision_prop env s d
                   (spawn_events (doMount_setup (vol s)) pid
                      (clock (after (prepared (doMount_setup (vol s)) d) (world s)))
                    ++ polls ++ [EvWaitpid (Zpos pid)])%list _ isFuse Hd).
            - apply Overlay_mounted; [exact Hown | exact Hp | exact Hw | ].
              cbn [trace set_child log]. rewrite Ht, Hc1, trace_after.
              unfold spawn_events. cbn [clock after].
              rewrite <- ?app_assoc. cbn [app]. reflexivity.
            - cbn [trace set_child log]. rewrite Ht, Hc1.
              unfold spawn_events. cbn [clock after].
              rewrite <- ?app_assoc. cbn [app]. reflexivity. }
          subst Post. cbn beta. intros o1 s1 (evs & H1 & H2 & H3 & H4).
          exists evs, d. rewrite <- HisFuse. auto.
        * subst Post. cbn beta. cbn [vol world]. exists (prepared (doMount_setup (vol s)) d
                  ++ spawn_events (doMount_setup (vol s)) pid (clock (world s))
                  ++ polls)%list, d.
          split; [ | split; [ | split]].
          -- rewrite Ht, Hc1. unfold spawn_events.
             rewrite <- ?app_assoc. cbn [app]. reflexivity.
          -- cbn [status_of]. apply Run_timed_out;
               [exact Hown | exact Hd | exact Hp | | ].
             ++ rewrite <- Hc1. exact Hms.
             ++ cbn [clock after] in Hs. lia.
          -- intros (u & i & l & res & Hin). exfalso. in_cases Hin.
             ++ not_in_prepared Hin.
             ++ no_kind Hin.
             ++ not_in_polls Hp Hin.
          -- cbn [status_of]. intros Hok. discriminate Hok.
    - apply wp_ret.
      eapply wp_conseq.
      { apply (doMount_fuse_decision_prop env s d [] _ isFuse Hd).
        - apply Overlay_skipped. exact Hown.
        - rewrite trace_after, app_nil_r. reflexivity. }
      subst Post. cbn beta. intros o1 s1 (evs & H1 & H2 & H3 & H4).
      exists evs, d. rewrite <- HisFuse. auto. }
  destruct W as (o & s' & E & evs & d & Ht & Hr & H3 & H4).
  exists (status_of o), s', evs, d.
  unfold doMount. rewrite (call_status _ _ _ _ E). auto.
Qed.

Lemma errno_after_prepare_failed v r1 r2 r3 r4 e w :
  prepare_error r1 r2 r3 r4 = Some e ->
  errno (after (prepare_events v r1 r2 r3 r4) w) = Zpos e.
Proof.
  destruct r1 as [[] | e1];
    [destruct r2 as [[] | e2];
     [destruct r3 as [[] | e3]; [destruct r4 as [[] | e4] | ] | ] | ];
    cbn; intros H; try discriminate H; injection H as <-; reflexivity.
Qed.

(** X9. The bridge is asked for only when the FUSE property is set and the
    volume is visible. Without either, doMount makes no call beyond the
    preparation of the mount points and the spawning of sdcardfs, leaves the
    bridge-mounted flag alone, and returns OK unless one of those failed
    (minus the errno of the failure, or -ETIMEDOUT). With both, a doMount
    that returns OK has started the bridge for the user id, raw path and
    resolved label of the volume, and the flag is set. *)
Theorem X9_doMount_bridge_applicable env fuel s :
  (101 <= fuel)%nat ->
  exists r s' evs,
    doMount env fuel s = Some (r, s') /\
    trace (world s') = (trace (world s) ++ evs)%list /\
    ((forall w, env_prop_fuse env w = false) \/ isVisible (vol s) = false ->
     (forall x, In x evs -> In (kind x) (wait_kinds ++ [KWaitpid])) /\
     mFuseMounted (vol s') = mFuseMounted (vol s) /\
     (r = OK \/ r = - ETIMEDOUT \/
      exists e, r = - Zpos e /\ errno (world s') = Zpos e)) /\
    ((forall w, env_prop_fuse env w = true) ->
     isVisible (vol s) = true ->
     r = OK ->
     In (EvMountUserFuse (mMountUserId (vol s)) (mRawPath (vol s))
           (resolveLabel (vol s)) 0) evs /\
     mFuseMounted (vol s') = true).
Proof.
  intros Hfuel.
  destruct (doMount_runs_prop env fuel s Hfuel)
    as (r & s' & evs & d & E & Ht & Hrun & Hyes & Hno).
  exists r, s', evs. split; [exact E | split; [exact Ht | split]].
  - intros Hoff.
    assert (Hnone : forall u i l res, ~ In (EvMountUserFuse u i l res) evs).
    { intros u i l res Hin.
      assert (Hb : env_prop_fuse env
                     (after (prepared (doMount_setup (vol s)) d) (world s))
                   && isVisible (vol s) = true)
        by (apply Hyes; eauto).
      apply andb_prop in Hb. destruct Hb as [H1 H2].
      destruct Hoff as [Hoff | Hoff]; [rewrite Hoff in H1 | rewrite Hoff in H2];
        discriminate. }
    destruct Hrun as [r1 r2 r3 r4 e He | d0 e Hown
                     | d0 pid0 polls w' Hown Hd Hp Hms Hsl
                     | d0 ov w2 isFuse Hd Hov Hnf
                     | d0 ov w2 a Hd Hov Hvis Hlink].
    + split; [ | split; [reflexivity | ]].
      * intros x Hx. apply kinds_prepare_events in Hx. rewrite Hx.
        left. reflexivity.
      * right. right. exists e. split; [reflexivity | ].
        exact (errno_after_prepare_failed _ _ _ _ _ _ _ He).
    + split; [ | split; [reflexivity | ]].
      * intros x Hx. in_cases Hx.
        -- apply kinds_prepared in Hx. cbn in *. tauto.
        -- destruct Hx as [<- | []]. cbn. tauto.
      * right. right. exists e. split; [reflexivity | ].
        apply errno_after_fork_err.
    + split; [ | split; [reflexivity | ]].
      * intros x Hx. in_cases Hx.
        -- apply kinds_prepared in Hx. cbn in *. tauto.
        -- cbn in Hx. destruct Hx as [<- | [<- | [<- | []]]]; cbn; tauto.
        -- rewrite Forall_forall in Hp. apply Hp in Hx.
           apply kinds_poll in Hx. cbn in *. tauto.
      * right. left. reflexivity.
    + split; [ | split; [reflexivity | left; reflexivity]].
      intros x Hx. apply (no_teardown_before_fuse _ _ _ _ _ _ _ Hov) in Hx.
      apply in_or_app. destruct Hx as [Hx | ->]; [left; exact Hx | ].
      right. left. reflexivity.
    + exfalso.
      apply (Hnone (mMountUserId (doMount_setup (vol s)))
               (mInternalPath (doMount_setup (vol s)))
               (resolveLabel (vol s)) (f_mount a)).
      apply in_or_app. right. apply in_or_app. right.
      unfold doMount_fuse_events, doMount_fuse_calls.
      apply in_or_app. left. left. reflexivity.
  - intros Hon Hvis Hok.
    destruct Hrun as [r1 r2 r3 r4 e He | d0 e Hown
                     | d0 pid0 polls w' Hown Hd Hp Hms Hsl
                     | d0 ov w2 isFuse Hd Hov Hnf
                     | d0 ov w2 a Hd Hov Hvis' Hlink];
      try discriminate Hok.
    + exfalso.
      assert (Hb : env_prop_fuse env
                     (after (prepared (doMount_setup (vol s)) d) (world s))
                   && isVisible (vol s) = false).
      { apply Hno; [reflexivity | ]. intros u i l res Hin.
        apply (no_teardown_before_fuse _ _ _ _ _ _ _ Hov) in Hin.
        cbn in Hin. intuition discriminate. }
      rewrite Hon, Hvis in Hb. discriminate Hb.
    + assert (Hm : f_mount a = 0).
      { unfold doMount_fuse_status in Hok.
        destruct (f_mount a =? 0) eqn:Hz; [apply Z.eqb_eq; exact Hz | ].
        apply Z.eqb_neq in Hz. unfold OK in Hok. lia. }
      split.
      * apply in_or_app. right. apply in_or_app. right.
        unfold doMount_fuse_events, doMount_fuse_calls.
        apply in_or_app. left. left. rewrite Hm. reflexivity.
      * cbn [vol]. unfold doMount_fuse_vol.
        destruct (rolled_back (doMount_setup (vol s)) a) eqn:Hr.
        -- apply (rolled_back_status _ a Hm) in Hr. contradiction.
        -- rewrite Hm. reflexivity.
Qed.


Lemma doUnmount_vol_fields v a :
  let v' := doUnmount_vol v a in
  mId v' = mId v /\ mPath v' = mPath v /\ mInternalPath v' = mInternalPath v /\
  mMountFlags v' = mMountFlags v /\ mMountUserId v' = mMountUserId v /\
  mMountCallback v' = mMountCallback v /\
  mRawPath v' = mRawPath v /\ mLabel v' = mLabel v /\
  mUseSdcardFs v' = mUseSdcardFs v.
Proof.
  unfold doUnmount_vol.
  destruct (mFuseMounted v && is_ok (u_stop a)), (past_bridge v a && owning v);
    cbn; repeat split.
Qed.

(** X11. Whatever its outcome - also when it fails, and after a rollback -
    doMount leaves the path of the volume at "/storage/<label>" and its
    internal path at the raw path, and changes neither the id, the raw path,
    the stored label, the mount flags, the user id nor the use of the legacy
    overlay; so the label resolves as before. *)
Theorem X11_doMount_sets_paths env fuel s :
  (101 <= fuel)%nat ->
  exists r s',
    doMount env fuel s = Some (r, s') /\
    mPath (vol s') = "/storage/" ++ resolveLabel (vol s) /\
    mInternalPath (vol s') = mRawPath (vol s) /\
    mId (vol s') = mId (vol s) /\
    mRawPath (vol s') = mRawPath (vol s) /\
    mLabel (vol s') = mLabel (vol s) /\
    mMountFlags (vol s') = mMountFlags (vol s) /\
    mMountUserId (vol s') = mMountUserId (vol s) /\
    mUseSdcardFs (vol s') = mUseSdcardFs (vol s) /\
    resolveLabel (vol s') = resolveLabel (vol s).
Proof.
  intros Hfuel.
  destruct (doMount_runs env fuel s Hfuel) as (r & s' & evs & E & Ht & Hrun).
  exists r, s'. split; [exact E | ].
  assert (H : mPath (vol s') = "/storage/" ++ resolveLabel (vol s) /\
              mInternalPath (vol s') = mRawPath (vol s) /\
              mId (vol s') = mId (vol s) /\
              mRawPath (vol s') = mRawPath (vol s) /\
              mLabel (vol s') = mLabel (vol s) /\
              mMountFlags (vol s') = mMountFlags (vol s) /\
              mMountUserId (vol s') = mMountUserId (vol s) /\
              mUseSdcardFs (vol s') = mUseSdcardFs (vol s)).
  { destruct Hrun as [r1 r2 r3 r4 e He | d e Hown
                     | d pid0 polls w' Hown Hd Hp Hms Hsl
                     | d ov w2 isFuse Hd Hov Hnf
                     | d ov w2 a Hd Hov Hvis Hlink];
      try solve [cbn; repeat split].
    cbn [vol]. unfold doMount_fuse_vol.
    destruct (f_mount a =? 0); [ | cbn; repeat split].
    destruct (rolled_back (doMount_setup (vol s)) a); [ | cbn; repeat split].
    destruct (doUnmount_vol_fields
                (set_mFuseMounted true (doMount_setup (vol s))) (f_rollback a))
      as (H1 & H2 & H3 & H4 & H5 & H6 & H7 & H8 & H9).
    cbv iota. rewrite H1, H2, H3, H4, H5, H7, H8, H9. cbn. repeat split. }
  destruct H as (H1 & H2 & H3 & H4 & H5 & H6 & H7 & H8).
  repeat (split; [assumption | ]).
  unfold resolveLabel. rewrite H5, H6. reflexivity.
Qed.

(** ** doUnmount *)

Lemma owning_true v :
  owning v = true <-> mMountUserId v = 0 /\ mUseSdcardFs v = true.
Proof.
  rewrite owning_spec, andb_true_iff, Z.eqb_eq. tauto.
Qed.

(** X12. doUnmount tears the views of the legacy overlay down only for user
    0 with the legacy overlay. There, unless the bridge could not be
    stopped, its last eight calls are ForceUnmount of the stored default,
    read, write and full paths and then rmdir of the same four paths; the
    statuses of the four unmounts are ignored: doUnmount returns OK, the
    stored paths are emptied and the bridge-mounted flag is false whatever
    they are, and nothing stays mounted at a view whose unmount succeeded. *)
Theorem X12_doUnmount_views_teardown env s :
  exists r s' evs,
    doUnmount env s = Some (r, s') /\
    trace (world s') = (trace (world s) ++ evs)%list /\
    (forall x, In x evs -> is_view_teardown x = true ->
               mMountUserId (vol s) = 0 /\ mUseSdcardFs (vol s) = true) /\
    (mMountUserId (vol s) = 0 -> mUseSdcardFs (vol s) = true ->
     (forall u i l e, ~ In (EvUnmountUserFuse u i l (Err e)) evs) ->
     exists pre st1 st2 st3 st4,
       evs = (pre ++ [EvForceUnmount (mSdcardFsDefault (vol s)) st1;
                      EvForceUnmount (mSdcardFsRead (vol s)) st2;
                      EvForceUnmount (mSdcardFsWrite (vol s)) st3;
                      EvForceUnmount (mSdcardFsFull (vol s)) st4;
                      EvRmdir (mSdcardFsDefault (vol s));
                      EvRmdir (mSdcardFsRead (vol s));
                      EvRmdir (mSdcardFsWrite (vol s));
                      EvRmdir (mSdcardFsFull (vol s))])%list /\
       (forall x, In x pre -> is_view_teardown x = false) /\
       r = OK /\
       stored_views (vol s') = [""; ""; ""; ""] /\
       mFuseMounted (vol s') = false /\
       (forall view st,
          In (EvForceUnmount view st) evs -> st = OK ->
          nothing_at view (mounts (world s')))).
Proof.
  destruct (doUnmount_closed env s) as (a & E).
  eexists _, _, (doUnmount_events (vol s) a).
  split; [exact E | split; [reflexivity | split]].
  - intros x Hx Hv. apply in_doUnmount_events in Hx.
    destruct Hx as [-> | [(_ & [(_ & ->) | [-> | ->]]) | (_ & Hown & _)]];
      try discriminate Hv.
    apply owning_true. exact Hown.
  - intros Hu Hs Hstop.
    assert (Hown : owning (vol s) = true) by (apply owning_true; auto).
    assert (Hpast : past_bridge (vol s) a = true).
    { unfold past_bridge. destruct (mFuseMounted (vol s)) eqn:Hf;
        [ | reflexivity].
      destruct (u_stop a) as [[] | e] eqn:Hst; [reflexivity | exfalso].
      apply (Hstop (mMountUserId (vol s)) (mInternalPath (vol s))
               (resolveLabel (vol s)) e).
      rewrite <- Hst. exact (stop_event_of_fuseMounted _ a Hf). }
    exists ([EvKillProcessesUsingPath (kill_scope (vol s))]
            ++ (if mFuseMounted (vol s)
                then unmountFuseBindMounts_events (vol s)
                       (u_installer a) (u_android a)
                     ++ [EvUnmountUserFuse (mMountUserId (vol s))
                           (mInternalPath (vol s)) (resolveLabel (vol s))
                           (u_stop a)]
                else []))%list,
      (u_default a), (u_read a), (u_write a), (u_full a).
    split; [ | split; [ | split; [ | split; [ | split]]]].
    + unfold doUnmount_events. rewrite Hpast, Hown.
      rewrite <- !app_assoc. reflexivity.
    + intros x Hx. apply in_app_or in Hx.
      destruct Hx as [[<- | []] | Hx]; [reflexivity | ].
      destruct (mFuseMounted (vol s)); [ | destruct Hx].
      apply in_app_or in Hx. destruct Hx as [Hx | [<- | []]];
        [ | reflexivity].
      apply in_unmountFuseBindMounts_events in Hx.
      destruct Hx as [(_ & ->) | ->]; reflexivity.
    + cbn [fst]. unfold doUnmount_status, past_bridge in *.
      destruct (mFuseMounted (vol s)); [ | reflexivity].
      destruct (u_stop a); [reflexivity | discriminate Hpast].
    + cbn [vol]. rewrite stored_views_doUnmount_vol, Hpast, Hown.
      reflexivity.
    + cbn [vol]. rewrite mFuseMounted_doUnmount_vol.
      unfold past_bridge in Hpast.
      destruct (mFuseMounted (vol s)), (is_ok (u_stop a));
        try reflexivity; discriminate Hpast.
    + intros view st Hin Hst. cbn [world]. rewrite mounts_after.
      apply in_doUnmount_events in Hin.
      destruct Hin as [Hin | [(_ & [(_ & Hin) | [Hin | Hin]]) | (_ & _ & Hin)]];
        try discriminate Hin.
      unfold doUnmount_events. rewrite Hpast, Hown.
      rewrite !fold_left_app.
      exact (nothing_at_teardown _ _ _ _ _ Hin Hst).
Qed.

(** X13. doUnmount only ever takes mounts away: every entry of the mount
    table after it was there before. It makes no call but kills, unmounts
    and rmdirs, and it changes no field but the bridge-mounted flag, which
    it never sets, and the stored view paths. Its only failure is that of
    the bridge stop, which it reports as minus the errno, all fields
    unchanged. *)
Theorem X13_doUnmount_only_unmounts env s :
  exists r s' evs,
    doUnmount env s = Some (r, s') /\
    trace (world s') = (trace (world s) ++ evs)%list /\
    (forall x, In x evs -> In (kind x) teardown_kinds) /\
    (forall e, In e (mounts (world s')) -> In e (mounts (world s))) /\
    (mFuseMounted (vol s') = true -> mFuseMounted (vol s) = true) /\
    mId (vol s') = mId (vol s) /\
    mPath (vol s') = mPath (vol s) /\
    mInternalPath (vol s') = mInternalPath (vol s) /\
    mRawPath (vol s') = mRawPath (vol s) /\
    mLabel (vol s') = mLabel (vol s) /\
    mMountFlags (vol s') = mMountFlags (vol s) /\
    mMountUserId (vol s') = mMountUserId (vol s) /\
    mUseSdcardFs (vol s') = mUseSdcardFs (vol s) /\
    (r = OK \/
     exists e, r = - Zpos e /\ errno (world s') = Zpos e /\
               mFuseMounted (vol s) = true /\ vol s' = vol s).
Proof.
  destruct (doUnmount_closed env s) as (a & E).
  eexists _, _, (doUnmount_events (vol s) a).
  split; [exact E | split; [reflexivity | ]].
  split; [exact (kinds_doUnmount_events _ _) | ].
  cbn [vol world].
  destruct (doUnmount_vol_fields (vol s) a)
    as (H1 & H2 & H3 & H4 & H5 & H6 & H7 & H8 & H9).
  split; [ | split; [ | repeat (split; [assumption | ])]].
  - intros e He. rewrite mounts_after in He.
    apply replay_shrinks in He; [exact He | ].
    intros x Hx. apply kinds_doUnmount_events in Hx.
    destruct x; cbn in Hx |- *; split; try discriminate;
      intuition discriminate.
  - rewrite mFuseMounted_doUnmount_vol. intros H.
    apply andb_prop in H. apply H.
  - unfold doUnmount_status.
    destruct (mFuseMounted (vol s)) eqn:Hf; [ | left; reflexivity].
    destruct (u_stop a) as [[] | e] eqn:Hst; [left; reflexivity | ].
    right. exists e. split; [reflexivity | split; [ | split; [reflexivity | ]]].
    + unfold doUnmount_events, past_bridge. rewrite Hf, Hst.
      cbn [negb is_ok orb andb]. rewrite app_nil_r, app_assoc.
      apply errno_after_stop_err.
    + unfold doUnmount_vol, past_bridge. rewrite Hf, Hst. reflexivity.
Qed.

(** ** doMount followed by doUnmount *)

Lemma bind_target_in_fuse_events v l a src tgt st :
  In (EvBindMount src tgt st) (doMount_fuse_calls v l a) ->
  tgt = androidTarget v \/ (mUseSdcardFs v = true /\ tgt = installerTarget v).
Proof.
  unfold doMount_fuse_calls. intros [H | H]; [discriminate H | ].
  destruct (f_mount a =? 0); [ | destruct H].
  apply in_app_or in H. destruct H as [H | H].
  { apply kinds_callback_events in H. discriminate H. }
  destruct (fuse_ready v); [ | destruct H].
  unfold mountFuseBindMounts_events in H.
  apply in_app_or in H. destruct H as [H | H].
  - apply in_doFuseBindMount_events in H. left. apply H.
  - destruct ((doFuseBindMount_status (f_android a) =? OK)
              && mUseSdcardFs (set_mFuseMounted true v)) eqn:Hc;
      [ | destruct H].
    apply andb_prop in Hc. apply in_doFuseBindMount_events in H.
    right. split; [apply Hc | apply H].
Qed.

(** X14. What doUnmount takes down is what doMount put up. After a doMount
    that returned OK, the doUnmount that follows - whatever the environment
    answers by then - stops the bridge with the very user id, internal path
    and label it was started with, asks for the unmount of the target of
    every bind mount that was made, and force-unmounts only mount points
    that doMount had prepared; when no bridge was started (and none was
    flagged before), it touches neither bind mounts nor bridge. *)
Theorem X14_doUnmount_matches_doMount env env' fuel s :
  (101 <= fuel)%nat ->
  exists r sm evs,
    doMount env fuel s = Some (r, sm) /\
    trace (world sm) = (trace (world s) ++ evs)%list /\
    (r = OK ->
     exists ru su evu,
       doUnmount env' sm = Some (ru, su) /\
       trace (world su) = (trace (world sm) ++ evu)%list /\
       (forall u i l res,
          In (EvMountUserFuse u i l res) evs ->
          exists rs, In (EvUnmountUserFuse u i l rs) evu) /\
       (forall src tgt st,
          In (EvBindMount src tgt st) evs ->
          exists st', In (EvUnmountTree tgt st') evu) /\
       (forall p st,
          In (EvForceUnmount p st) evu ->
          In (EvPrepareDir p 448 0 0 (Ok tt)) evs) /\
       ((forall u i l res, ~ In (EvMountUserFuse u i l res) evs) ->
        mFuseMounted (vol s) = false ->
        forall x, In x evu ->
          In (kind x) [KKill; KForceUnmount; KRmdir])).
Proof.
  intros Hfuel.
  destruct (doMount_runs env fuel s Hfuel) as (r & sm & evs & E & Ht & Hrun).
  exists r, sm, evs. split; [exact E | split; [exact Ht | ]].
  intros Hok.
  destruct (doUnmount_closed env' sm) as (b & Eu).
  eexists _, _, (doUnmount_events (vol sm) b).
  split; [exact Eu | split; [reflexivity | ]].
  assert (Hforce : forall v p st,
             stored_views v = view_paths (resolveLabel (vol s)) ->
             In (EvForceUnmount p st) (doUnmount_events v b) ->
             In (EvPrepareDir p 448 0 0 (Ok tt))
                (prepare_events (doMount_setup (vol s))
                   (Ok tt) (Ok tt) (Ok tt) (Ok tt))).
  { intros v p st Hv Hin. apply in_doUnmount_events in Hin.
    destruct Hin as [Hin | [(_ & [(_ & Hin) | [Hin | Hin]]) | (_ & _ & Hin)]];
      try discriminate Hin.
    unfold stored_views, view_paths in Hv. injection Hv as H1 H2 H3 H4.
    unfold views_teardown_events in Hin. rewrite H1, H2, H3, H4 in Hin.
    cbn [In] in Hin.
    destruct Hin as [Hin | [Hin | [Hin | [Hin | Hin]]]];
      try (injection Hin as <- _; cbn; tauto).
    repeat (destruct Hin as [Hin | Hin]; [discriminate Hin | ]).
    destruct Hin. }
  destruct Hrun as [r1 r2 r3 r4 e He | d e Hown
                   | d pid0 polls w' Hown Hd Hp Hms Hsl
                   | d ov w2 isFuse Hd Hov Hnf
                   | d ov w2 a Hd Hov Hvis Hlink];
    try discriminate Hok.
  - cbn [vol]. split; [ | split; [ | split]].
    + intros u i l res Hin. exfalso.
      apply (no_teardown_before_fuse _ _ _ _ _ _ _ Hov) in Hin.
      cbn in Hin. intuition discriminate.
    + intros src tgt st Hin. exfalso.
      apply (no_teardown_before_fuse _ _ _ _ _ _ _ Hov) in Hin.
      cbn in Hin. intuition discriminate.
    + intros p st Hin. apply in_or_app. left. apply in_or_app. left.
      exact (Hforce (doMount_setup (vol s)) p st eq_refl Hin).
    + intros _ Hf x Hx. apply in_doUnmount_events in Hx.
      change (mFuseMounted (doMount_setup (vol s)))
        with (mFuseMounted (vol s)) in Hx.
      rewrite Hf in Hx.
      destruct Hx as [-> | [(Hx & _) | (_ & _ & Hx)]];
        [cbn; tauto | discriminate Hx | ].
      unfold views_teardown_events in Hx. cbn [In] in Hx.
      repeat (destruct Hx as [<- | Hx]; [cbn; tauto | ]). destruct Hx.
  - set (v0 := doMount_setup (vol s)) in *.
    set (label := resolveLabel (vol s)) in *.
    assert (Hm : f_mount a = 0).
    { unfold doMount_fuse_status in Hok.
      destruct (f_mount a =? 0) eqn:Hz; [apply Z.eqb_eq; exact Hz | ].
      apply Z.eqb_neq in Hz. unfold OK in Hok. lia. }
    assert (Hr : rolled_back v0 a = false).
    { destruct (rolled_back v0 a) eqn:Hr; [ | reflexivity].
      apply (rolled_back_status v0 a Hm) in Hr. contradiction. }
    assert (Hvol : doMount_fuse_vol v0 a = set_mFuseMounted true v0)
      by exact (doMount_fuse_status_OK _ _ Hok).
    assert (Hcalls : doMount_fuse_events v0 label a
                     = doMount_fuse_calls v0 label a).
    { unfold doMount_fuse_events. rewrite Hr, app_nil_r. reflexivity. }
    cbn [vol]. rewrite Hvol, Hcalls.
    split; [ | split; [ | split]].
    + intros u i l res Hin. rewrite <- Hcalls in Hin.
      destruct (bridge_start_in_run _ _ _ _ _ _ _ _ _
                  (Run_fuse env s d ov w2 a Hd Hov Hvis Hlink) Hin)
        as (d' & ov' & w2' & a' & _ & _ & _ & _ & _ & _ & -> & -> & -> & _).
      exists (u_stop b).
      exact (stop_event_of_fuseMounted (set_mFuseMounted true v0) b eq_refl).
    + intros src tgt st Hin. rewrite app_assoc in Hin.
      apply in_app_or in Hin. destruct Hin as [Hin | Hin].
      { exfalso. apply (no_teardown_before_fuse _ _ _ _ _ _ _ Hov) in Hin.
        cbn in Hin. intuition discriminate. }
      apply bind_target_in_fuse_events in Hin.
      unfold doUnmount_events, unmountFuseBindMounts_events.
      cbn [mFuseMounted set_mFuseMounted].
      change (mUseSdcardFs (set_mFuseMounted true v0))
        with (mUseSdcardFs v0) in *.
      change (installerTarget (set_mFuseMounted true v0))
        with (installerTarget v0) in *.
      change (androidTarget (set_mFuseMounted true v0))
        with (androidTarget v0) in *.
      destruct Hin as [-> | (Hs & ->)].
      * exists (u_android b). apply in_or_app. right. apply in_or_app. left.
        apply in_or_app. left. apply in_or_app. right. left. reflexivity.
      * exists (u_installer b). rewrite Hs.
        apply in_or_app. right. apply in_or_app. left.
        apply in_or_app. left. left. reflexivity.
    + intros p st Hin. apply in_or_app. left. apply in_or_app. left.
      exact (Hforce (set_mFuseMounted true v0) p st eq_refl Hin).
    + intros Hnone. exfalso.
      apply (Hnone (mMountUserId v0) (mInternalPath v0) label (f_mount a)).
      apply in_or_app. right. apply in_or_app. right.
      unfold doMount_fuse_calls. left. reflexivity.
Qed.

Lemma umount_app p a b : umount p (a ++ b) = (umount p a ++ umount p b)%list.
Proof. apply filter_app. Qed.

Lemma umount_bridge_app u i l a b :
  umount_bridge u i l (a ++ b)
  = (umount_bridge u i l a ++ umount_bridge u i l b)%list.
Proof. apply filter_app. Qed.

Lemma umount_bridge_nothing u i l t :
  (forall e, In e t -> is_bridge u i l e = false) -> umount_bridge u i l t = t.
Proof.
  intros H. unfold umount_bridge. induction t as [| e t IH]; [reflexivity | ].
  cbn. rewrite (H e (or_introl eq_refl)). cbn. f_equal.
  apply IH. intros e' He'. apply H. right. exact He'.
Qed.

Lemma replay_callback v t : fold_left replay_event (callback_events v) t = t.
Proof. unfold callback_events. destruct (mMountCallback v); reflexivity. Qed.

Lemma replay_doFuseBindMount_ok src tgt a t :
  doFuseBindMount_status a = OK ->
  fold_left replay_event (doFuseBindMount_events src tgt a) t
  = (t ++ [BindEntry src tgt])%list.
Proof.
  unfold doFuseBindMount_status, doFuseBindMount_events.
  destruct (b_present a); [ | destruct (b_prepare a) as [[] | e]];
    cbn [app orb is_ok fold_left replay_event].
  - intros ->. reflexivity.
  - intros ->. reflexivity.
  - intros H. unfold OK in H. lia.
Qed.

Lemma replay_mountFuseBindMounts_ok v a1 a2 t :
  mountFuseBindMounts_status v a1 a2 = OK ->
  fold_left replay_event (mountFuseBindMounts_events v a1 a2) t
  = (t ++ [BindEntry (androidSource v) (androidTarget v)]
       ++ (if mUseSdcardFs v
           then [BindEntry (installerSource v) (installerTarget v)]
           else []))%list.
Proof.
  unfold mountFuseBindMounts_status, mountFuseBindMounts_events. intros H.
  assert (H1 : doFuseBindMount_status a1 = OK).
  { destruct (doFuseBindMount_status a1 =? OK) eqn:Hz.
    - apply Z.eqb_eq. exact Hz.
    - exact H. }
  rewrite H1 in H |- *. cbn [Z.eqb OK andb] in H |- *.
  rewrite fold_left_app, (replay_doFuseBindMount_ok _ _ _ _ H1).
  destruct (mUseSdcardFs v).
  - rewrite (replay_doFuseBindMount_ok _ _ _ _ H), <- app_assoc. reflexivity.
  - reflexivity.
Qed.

Lemma overlay_skipped env v w d ov w2 :
  Overlay env v w d ov w2 -> owning v = false -> ov = [] /\ w2 = w.
Proof.
  intros [Hown | pid polls w2' Hown Hp Hdev Htr] H; [auto | ].
  rewrite H in Hown. discriminate Hown.
Qed.

(** The mount table after the bind mounts and the bridge are taken down
    with success. *)
Lemma teardown_restores v t :
  nothing_at (androidTarget v) t ->
  nothing_at (installerTarget v) t ->
  (forall e, In e t ->
     is_bridge (mMountUserId v) (mInternalPath v) (resolveLabel v) e = false) ->
  umount_bridge (mMountUserId v) (mInternalPath v) (resolveLabel v)
    (umount (androidTarget v)
       (if mUseSdcardFs v
        then umount (installerTarget v)
               (t ++ [BridgeEntry (mMountUserId v) (mInternalPath v)
                        (resolveLabel v);
                      BindEntry (androidSource v) (androidTarget v);
                      BindEntry (installerSource v) (installerTarget v)])
        else (t ++ [BridgeEntry (mMountUserId v) (mInternalPath v)
                      (resolveLabel v);
                    BindEntry (androidSource v) (androidTarget v)])%list))
  = t.
Proof.
  intros Ha Hi Hb.
  assert (Hlast : umount_bridge (mMountUserId v) (mInternalPath v)
                    (resolveLabel v)
                    (umount (androidTarget v)
                       (t ++ [BridgeEntry (mMountUserId v) (mInternalPath v)
                                (resolveLabel v);
                              BindEntry (androidSource v) (androidTarget v)]))
                  = t).
  { rewrite umount_app, (umount_nothing _ _ Ha).
    unfold umount at 1. cbn [filter mounted_at negb].
    rewrite String.eqb_refl. cbn [negb].
    rewrite umount_bridge_app, (umount_bridge_nothing _ _ _ _ Hb).
    unfold umount_bridge. cbn [filter is_bridge].
    rewrite Z.eqb_refl, !String.eqb_refl. cbn [andb negb].
    apply app_nil_r. }
  destruct (mUseSdcardFs v); [ | exact Hlast].
  rewrite umount_app, (umount_nothing _ _ Hi).
  unfold umount at 2. cbn [filter mounted_at negb].
  rewrite targets_differ, String.eqb_refl. cbn [negb].
  exact Hlast.
Qed.

(** X15. Mounting and unmounting cancel out on the mount table. Outside the
    owning context of the legacy overlay, if nothing was mounted at the two
    bind targets and no such bridge was up, then a doMount that returns OK,
    followed by a doUnmount that returns OK and whose unmounts of the bind
    mounts succeed, leaves the mount table exactly as it was before the
    doMount, with the bridge-mounted flag false. *)
Theorem X15_mount_unmount_round_trip env env' fuel s :
  (101 <= fuel)%nat ->
  mUseSdcardFs (vol s) && (mMountUserId (vol s) =? 0) = false ->
  nothing_at (androidTarget (vol s)) (mounts (world s)) ->
  nothing_at (installerTarget (vol s)) (mounts (world s)) ->
  (forall e, In e (mounts (world s)) ->
     is_bridge (mMountUserId (vol s)) (mRawPath (vol s))
       (resolveLabel (vol s)) e = false) ->
  exists r sm,
    doMount env fuel s = Some (r, sm) /\
    (r = OK ->
     exists ru su evu,
       doUnmount env' sm = Some (ru, su) /\
       trace (world su) = (trace (world sm) ++ evu)%list /\
       (ru = OK ->
        (forall p st, In (EvUnmountTree p st) evu -> st = OK) ->
        mounts (world su) = mounts (world s) /\
        mFuseMounted (vol su) = false)).
Proof.
  intros Hfuel Hnown Ha Hi Hb. rewrite <- owning_spec in Hnown.
  destruct (doMount_runs env fuel s Hfuel) as (r & sm & evs & E & Ht & Hrun).
  exists r, sm. split; [exact E | ]. intros Hok.
  destruct (doUnmount_closed env' sm) as (b & Eu).
  eexists _, _, (doUnmount_events (vol sm) b).
  split; [exact Eu | split; [reflexivity | ]].
  intros Hru Hst. cbn [vol world].
  assert (Hpast : past_bridge (vol sm) b = true)
    by exact (doUnmount_status_OK _ _ Hru).
  split; [ | rewrite mFuseMounted_doUnmount_vol; unfold past_bridge in Hpast;
             destruct (mFuseMounted (vol sm)), (is_ok (u_stop b));
             try reflexivity; discriminate Hpast].
  set (v0 := doMount_setup (vol s)) in *.
  assert (Hunmount : forall v t,
             v = v0 \/ v = set_mFuseMounted true v0 ->
             vol sm = v ->
             fold_left replay_event (doUnmount_events v b) t
             = if mFuseMounted v
               then umount_bridge (mMountUserId v0) (mInternalPath v0)
                      (resolveLabel v0)
                      (umount (androidTarget v0)
                         (if mUseSdcardFs v0
                          then umount (installerTarget v0) t else t))
               else t).
  { intros v t Hv Hsm.
    assert (Hown : owning v = false) by (destruct Hv as [-> | ->]; exact Hnown).
    assert (Hfields : mMountUserId v = mMountUserId v0
                      /\ mInternalPath v = mInternalPath v0
                      /\ resolveLabel v = resolveLabel v0
                      /\ androidTarget v = androidTarget v0
                      /\ installerTarget v = installerTarget v0
                      /\ mUseSdcardFs v = mUseSdcardFs v0)
      by (destruct Hv as [-> | ->]; repeat split).
    destruct Hfields as (F1 & F2 & F3 & F4 & F5 & F6).
    rewrite Hsm in Hst, Hpast.
    unfold doUnmount_events in Hst |- *. rewrite Hown, andb_false_r in Hst |- *.
    rewrite app_nil_r in Hst |- *.
    unfold past_bridge in Hpast.
    destruct (mFuseMounted v); [ | reflexivity].
    cbn [negb orb] in Hpast.
    unfold unmountFuseBindMounts_events in Hst |- *.
    rewrite F1, F2, F3, F4, F5, F6 in Hst |- *.
    destruct (u_stop b) as [[] | e]; [ | discriminate Hpast].
    assert (H2 : u_android b = OK).
    { apply (Hst (androidTarget v0)). apply in_or_app. right.
      apply in_or_app. left. apply in_or_app. right. left. reflexivity. }
    destruct (mUseSdcardFs v0) eqn:Hs.
    - assert (H1 : u_installer b = OK).
      { apply (Hst (installerTarget v0)). apply in_or_app. right.
        apply in_or_app. left. apply in_or_app. left. left. reflexivity. }
      rewrite H1, H2. reflexivity.
    - rewrite H2. reflexivity. }
  change (mRawPath (vol s)) with (mInternalPath v0) in Hb.
  change (resolveLabel (vol s)) with (resolveLabel v0) in Hb.
  change (mMountUserId (vol s)) with (mMountUserId v0) in Hb.
  change (androidTarget (vol s)) with (androidTarget v0) in Ha.
  change (installerTarget (vol s)) with (installerTarget v0) in Hi.
  destruct Hrun as [r1 r2 r3 r4 e He | d e Hown
                   | d pid0 polls w' Hown Hd Hp Hms Hsl
                   | d ov w2 isFuse Hd Hov Hnf
                   | d ov w2 a Hd Hov Hvis Hlink];
    try discriminate Hok.
  - destruct (overlay_skipped _ _ _ _ _ _ Hov Hnown) as [-> ->].
    rewrite mounts_after, (Hunmount v0 _ (or_introl eq_refl) eq_refl).
    cbn [world]. rewrite mounts_after_prepared.
    destruct (mFuseMounted v0); [ | reflexivity].
    assert (Hinner : (if mUseSdcardFs v0
                      then umount (installerTarget v0) (mounts (world s))
                      else mounts (world s)) = mounts (world s)).
    { destruct (mUseSdcardFs v0); [apply umount_nothing; exact Hi | ].
      reflexivity. }
    rewrite Hinner, (umount_nothing _ _ Ha).
    exact (umount_bridge_nothing _ _ _ _ Hb).
  - destruct (overlay_skipped _ _ _ _ _ _ Hov Hnown) as [-> ->].
    fold v0 in Hok |- *.
    assert (Hm : f_mount a = 0).
    { unfold doMount_fuse_status in Hok.
      destruct (f_mount a =? 0) eqn:Hz; [apply Z.eqb_eq; exact Hz | ].
      apply Z.eqb_neq in Hz. unfold OK in Hok. lia. }
    assert (Hmz : (f_mount a =? 0) = true) by (apply Z.eqb_eq; exact Hm).
    assert (Hr : rolled_back v0 a = false).
    { destruct (rolled_back v0 a) eqn:Hr; [ | reflexivity].
      apply (rolled_back_status v0 a Hm) in Hr. contradiction. }
    assert (Hready : fuse_ready v0 = true).
    { unfold doMount_fuse_status in Hok. rewrite Hmz in Hok.
      destruct (fuse_ready v0); [reflexivity | ].
      unfold OK, EIO in Hok. lia. }
    assert (Hstm : mountFuseBindMounts_status (set_mFuseMounted true v0)
                     (f_android a) (f_installer a) = OK).
    { unfold doMount_fuse_status in Hok. rewrite Hmz, Hready in Hok.
      exact Hok. }
    assert (Hvol : doMount_fuse_vol v0 a = set_mFuseMounted true v0)
      by exact (doMount_fuse_status_OK _ _ Hok).
    rewrite Hvol.
    rewrite mounts_after,
      (Hunmount (set_mFuseMounted true v0) _ (or_intror eq_refl) Hvol).
    cbn [mFuseMounted set_mFuseMounted world].
    rewrite mounts_after, mounts_after_prepared.
    unfold doMount_fuse_events, doMount_fuse_calls.
    rewrite Hr, Hmz, Hready, Hm, app_nil_r.
    cbn [fold_left replay_event Z.eqb].
    rewrite fold_left_app, replay_callback,
      (replay_mountFuseBindMounts_ok _ _ _ _ Hstm), <- app_assoc.
    change (mUseSdcardFs (set_mFuseMounted true v0)) with (mUseSdcardFs v0).
    pose proof (teardown_restores v0 _ Ha Hi Hb) as Hfin.
    destruct (mUseSdcardFs v0); exact Hfin.
Qed.

(** ** Formatted numbers, ids and per-user paths *)

Lemma uint_chars d ch :
  In ch (list_ascii_of_string (NilEmpty.string_of_uint d)) ->
  In ch ["0"; "1"; "2"; "3"; "4"; "5"; "6"; "7"; "8"; "9"]%char.
Proof.
  induction d; cbn [NilEmpty.string_of_uint list_ascii_of_string In];
    [intros [] | intros [<- | H]; [cbn; tauto | exact (IHd H)] ..].
Qed.

Lemma N_to_uint_nonnil n : N.to_uint n <> Decimal.Nil.
Proof.
  destruct n; [discriminate | apply DecimalPos.Unsigned.to_uint_nonnil].
Qed.

Lemma fmt_u_chars z ch :
  In ch (list_ascii_of_string (fmt_u z)) ->
  In ch ["0"; "1"; "2"; "3"; "4"; "5"; "6"; "7"; "8"; "9"]%char.
Proof.
  unfold fmt_u, NilZero.string_of_uint.
  pose proof (N_to_uint_nonnil (Z.to_N (z mod 4294967296))) as Hn.
  destruct (N.to_uint (Z.to_N (z mod 4294967296))) eqn:Hd;
    [contradiction | rewrite <- Hd; apply uint_chars ..].
Qed.

Lemma fmt_d_chars z ch :
  In ch (list_ascii_of_string (fmt_d z)) ->
  In ch ["-"; "0"; "1"; "2"; "3"; "4"; "5"; "6"; "7"; "8"; "9"]%char.
Proof.
  assert (U : forall d, d <> Decimal.Nil ->
              In ch (list_ascii_of_string (NilZero.string_of_uint d)) ->
              In ch ["0"; "1"; "2"; "3"; "4"; "5"; "6"; "7"; "8"; "9"]%char).
  { intros d Hd. unfold NilZero.string_of_uint.
    destruct d eqn:E; [contradiction | rewrite <- E; apply uint_chars ..]. }
  unfold fmt_d, NilZero.string_of_int.
  destruct z as [| p | p]; cbn [Z.to_int].
  - intros H. right. cbn in H. destruct H as [<- | []]. left. reflexivity.
  - intros H. right.
    exact (U _ (DecimalPos.Unsigned.to_uint_nonnil p) H).
  - cbn [list_ascii_of_string In]. intros [<- | H]; [left; reflexivity | ].
    right. exact (U _ (DecimalPos.Unsigned.to_uint_nonnil p) H).
Qed.

Lemma string_of_uint_inj d d' :
  d <> Decimal.Nil -> d' <> Decimal.Nil ->
  NilZero.string_of_uint d = NilZero.string_of_uint d' -> d = d'.
Proof.
  intros H H' E. apply NilZero.usu in H. apply NilZero.usu in H'.
  rewrite E, H' in H. injection H as <-. reflexivity.
Qed.

Lemma fmt_u_inj z z' :
  fmt_u z = fmt_u z' <-> z mod 4294967296 = z' mod 4294967296.
Proof.
  split; [ | intros H; unfold fmt_u; rewrite H; reflexivity].
  unfold fmt_u. intros E.
  apply string_of_uint_inj in E; try apply N_to_uint_nonnil.
  apply DecimalN.Unsigned.to_uint_inj in E.
  pose proof (Z.mod_pos_bound z 4294967296 eq_refl).
  pose proof (Z.mod_pos_bound z' 4294967296 eq_refl).
  lia.
Qed.

Lemma fmt_d_inj z z' : fmt_d z = fmt_d z' -> z = z'.
Proof.
  unfold fmt_d. intros E. apply DecimalZ.to_int_inj.
  assert (N1 : forall x, Z.to_int x <> Decimal.Pos Decimal.Nil
                         /\ Z.to_int x <> Decimal.Neg Decimal.Nil).
  { intros [| p | p]; cbn; split; try discriminate;
      intros H; injection H as H;
      exact (DecimalPos.Unsigned.to_uint_nonnil _ H). }
  pose proof (NilZero.isi _ (proj1 (N1 z)) (proj2 (N1 z))) as H.
  pose proof (NilZero.isi _ (proj1 (N1 z')) (proj2 (N1 z'))) as H'.
  rewrite E, H' in H. injection H as <-. reflexivity.
Qed.

(** A string is cut in one way only at the first occurrence of a
    character. *)
Lemma cut_unique (c : ascii) : forall a b r r',
  ~ In c (list_ascii_of_string a) ->
  ~ In c (list_ascii_of_string b) ->
  a ++ String c r = b ++ String c r' ->
  a = b /\ r = r'.
Proof.
  induction a as [| x a IH]; intros [| y b] r r' Ha Hb E; cbn in *.
  - injection E as <-. auto.
  - injection E as -> _. exfalso. apply Hb. left. reflexivity.
  - injection E as -> _. exfalso. apply Ha. left. reflexivity.
  - injection E as -> E.
    destruct (IH b r r') as [-> ->]; auto.
Qed.

Lemma app_inv_prefix (p a b : string) : p ++ a = p ++ b -> a = b.
Proof.
  induction p as [| x p IH]; cbn; intros E; [exact E | ].
  injection E as E. exact (IH E).
Qed.

Lemma digits_free ch (l : list ascii) (c : ascii) :
  In ch l ->
  forallb (fun x => negb (Ascii.eqb x c)) l = true ->
  ch <> c.
Proof.
  intros Hin Hall ->. rewrite forallb_forall in Hall.
  specialize (Hall c Hin). rewrite Ascii.eqb_refl in Hall. discriminate Hall.
Qed.

Lemma fmt_u_free z (c : ascii) :
  forallb (fun x => negb (Ascii.eqb x c))
    ["0"; "1"; "2"; "3"; "4"; "5"; "6"; "7"; "8"; "9"]%char = true ->
  ~ In c (list_ascii_of_string (fmt_u z)).
Proof.
  intros Hall Hin. apply fmt_u_chars in Hin.
  exact (digits_free _ _ _ Hin Hall eq_refl).
Qed.

Lemma fmt_d_free z (c : ascii) :
  forallb (fun x => negb (Ascii.eqb x c))
    ["-"; "0"; "1"; "2"; "3"; "4"; "5"; "6"; "7"; "8"; "9"]%char = true ->
  ~ In c (list_ascii_of_string (fmt_d z)).
Proof.
  intros Hall Hin. apply fmt_d_chars in Hin.
  exact (digits_free _ _ _ Hin Hall eq_refl).
Qed.

(** X16. The id a constructor gives tells the volumes apart. Two volumes
    built by the first constructor have the same id exactly when their user
    ids agree as 32-bit unsigned numbers; two built by the second exactly
    when device major, minor and user id so agree; and an id of the first
    form is never one of the second. Either constructor leaves the volume
    not bridge-mounted, with the four view paths empty and with the stored
    label "emulated" (the first) or the filesystem UUID (the second), so
    that the first always resolves its label to "emulated". *)
Theorem X16_constructor_ids base base' rawPath rawPath' sdcardfs sdcardfs' :
  (forall u u',
     mId (EmulatedVolume base rawPath u sdcardfs)
     = mId (EmulatedVolume base' rawPath' u' sdcardfs')
     <-> u mod 4294967296 = u' mod 4294967296) /\
  (forall ma mi uuid u ma' mi' uuid' u',
     mId (EmulatedVolume_dev base rawPath ma mi uuid u sdcardfs)
     = mId (EmulatedVolume_dev base' rawPath' ma' mi' uuid' u' sdcardfs')
     <-> ma mod 4294967296 = ma' mod 4294967296
         /\ mi mod 4294967296 = mi' mod 4294967296
         /\ u mod 4294967296 = u' mod 4294967296) /\
  (forall u ma mi uuid u',
     mId (EmulatedVolume base rawPath u sdcardfs)
     <> mId (EmulatedVolume_dev base' rawPath' ma mi uuid u' sdcardfs')) /\
  (forall u,
     let v := EmulatedVolume base rawPath u sdcardfs in
     mFuseMounted v = false /\ stored_views v = [""; ""; ""; ""] /\
     mRawPath v = rawPath /\ mUseSdcardFs v = sdcardfs /\
     resolveLabel v = "emulated") /\
  (forall ma mi uuid u,
     let v := EmulatedVolume_dev base rawPath ma mi uuid u sdcardfs in
     mFuseMounted v = false /\ stored_views v = [""; ""; ""; ""] /\
     mRawPath v = rawPath /\ mUseSdcardFs v = sdcardfs /\
     resolveLabel v = (if primaryFlag v then "emulated" else uuid)).
Proof.
  split; [ | split; [ | split; [ | split]]].
  - intros u u'. cbn [mId EmulatedVolume]. rewrite <- fmt_u_inj. split.
    + intros E. exact (app_inv_prefix _ _ _ E).
    + intros ->. reflexivity.
  - intros ma mi uuid u ma' mi' uuid' u'. cbn [mId EmulatedVolume_dev].
    rewrite <- !fmt_u_inj. split.
    + intros E. apply app_inv_prefix in E.
      apply cut_unique in E; try (apply fmt_u_free; reflexivity).
      destruct E as [E1 E].
      apply cut_unique in E; try (apply fmt_u_free; reflexivity).
      destruct E as [E2 E3]. auto.
    + intros (-> & -> & ->). reflexivity.
  - intros u ma mi uuid u' E. cbn [mId EmulatedVolume EmulatedVolume_dev] in E.
    discriminate E.
  - intros u. cbn. repeat split. unfold resolveLabel. cbn.
    destruct (truthy (Z.land (mMountFlags base) kPrimary)); reflexivity.
  - intros ma mi uuid u. cbn. repeat split.
Qed.

Lemma target_of_user v v' :
  androidTarget v = androidTarget v' \/ installerTarget v = installerTarget v' ->
  mMountUserId v = mMountUserId v'.
Proof.
  unfold androidTarget, installerTarget. intros [E | E].
  - apply (app_inv_prefix "/mnt/user/") in E.
    apply cut_unique in E; try (apply fmt_d_free; reflexivity).
    apply fmt_d_inj, E.
  - apply (app_inv_prefix "/mnt/installer/") in E.
    apply cut_unique in E; try (apply fmt_d_free; reflexivity).
    apply fmt_d_inj, E.
Qed.

Lemma targets_apart v v' :
  androidTarget v <> installerTarget v'.
Proof. unfold androidTarget, installerTarget. cbn. discriminate. Qed.

(** X17. The bind mounts are kept apart by user. The targets that
    mountFuseBindMounts binds and that doUnmount (or unmountFuseBindMounts)
    unmounts carry the user id of the volume, so for a volume of another
    user - whatever its label - they are never its primary or installer
    target; and with the bridge mounted the processes killed are those under
    "<path>/<userId>", which differs from user to user under the same
    path. *)
Theorem X17_targets_per_user env s v' :
  mMountUserId v' <> mMountUserId (vol s) ->
  (exists r s1 evs,
     mountFuseBindMounts env s = Some (r, s1) /\
     trace (world s1) = (trace (world s) ++ evs)%list /\
     forall src tgt st,
       In (EvBindMount src tgt st) evs ->
       tgt <> androidTarget v' /\ tgt <> installerTarget v') /\
  (exists r s2 evs,
     doUnmount env s = Some (r, s2) /\
     trace (world s2) = (trace (world s) ++ evs)%list /\
     (forall p st,
        In (EvUnmountTree p st) evs ->
        p <> androidTarget v' /\ p <> installerTarget v') /\
     (mFuseMounted (vol s) = true -> mFuseMounted v' = true ->
      mPath v' = mPath (vol s) ->
      forall p, In (EvKillProcessesUsingPath p) evs -> p <> kill_scope v')).
Proof.
  intros Hu.
  assert (Ha : androidTarget (vol s) <> androidTarget v').
  { intros E. apply Hu. symmetry. apply target_of_user. left. exact E. }
  assert (Hi : installerTarget (vol s) <> installerTarget v').
  { intros E. apply Hu. symmetry. apply target_of_user. right. exact E. }
  assert (Hx : androidTarget (vol s) <> installerTarget v')
    by apply targets_apart.
  assert (Hy : installerTarget (vol s) <> androidTarget v').
  { intros E. exact (targets_apart v' (vol s) (eq_sym E)). }
  split.
  - destruct (mountFuseBindMounts_closed env s) as (a1 & a2 & E).
    eexists _, _, _. split; [exact E | split; [reflexivity | ]].
    intros src tgt st Hin. unfold mountFuseBindMounts_events in Hin.
    apply in_app_or in Hin. destruct Hin as [Hin | Hin].
    + apply in_doFuseBindMount_events in Hin. destruct Hin as [_ ->]. auto.
    + destruct ((doFuseBindMount_status a1 =? OK) && mUseSdcardFs (vol s));
        [ | destruct Hin].
      apply in_doFuseBindMount_events in Hin. destruct Hin as [_ ->]. auto.
  - destruct (doUnmount_closed env s) as (a & E).
    eexists _, _, _. split; [exact E | split; [reflexivity | split]].
    + intros p st Hin. apply in_doUnmount_events in Hin.
      destruct Hin as [Hin | [(_ & [(_ & Hin) | [Hin | Hin]]) | (_ & _ & Hin)]];
        try discriminate Hin.
      * injection Hin as -> _. auto.
      * injection Hin as -> _. auto.
      * exfalso. unfold views_teardown_events in Hin. cbn [In] in Hin.
        repeat (destruct Hin as [Hin | Hin]; [discriminate Hin | ]).
        destruct Hin.
    + intros Hf Hf' Hp p Hin Ep. apply in_doUnmount_events in Hin.
      destruct Hin as [Hin | [(_ & [(_ & Hin) | [Hin | Hin]]) | (_ & _ & Hin)]];
        try discriminate Hin.
      * injection Hin as ->. unfold kill_scope in Ep.
        rewrite Hf, Hf', Hp in Ep. apply app_inv_prefix in Ep.
        injection Ep as Ep. apply fmt_d_inj in Ep. apply Hu. symmetry.
        exact Ep.
      * exfalso. unfold views_teardown_events in Hin. cbn [In] in Hin.
        repeat (destruct Hin as [Hin | Hin]; [discriminate Hin | ]).
        destruct Hin.
Qed.

(** ** The order of the calls of doMount *)

Lemma precedes_noP P Q l :
  (forall x, In x l -> P x = false) -> precedes P Q l.
Proof.
  intros H i j a b Hi _ HP _. apply nth_error_In in Hi.
  rewrite (H _ Hi) in HP. discriminate HP.
Qed.

Lemma precedes_after P Q a b :
  (forall x, In x a -> Q x = false) ->
  precedes P Q b ->
  precedes P Q (a ++ b).
Proof.
  intros Ha Hb i j x y Hi Hj HP HQ.
  destruct (Nat.lt_ge_cases j (List.length a)) as [Hja | Hja].
  - rewrite nth_error_app1 in Hj by exact Hja. apply nth_error_In in Hj.
    rewrite (Ha _ Hj) in HQ. discriminate HQ.
  - destruct (Nat.lt_ge_cases i (List.length a)) as [Hia | Hia]; [lia | ].
    rewrite nth_error_app2 in Hi by exact Hia.
    rewrite nth_error_app2 in Hj by exact Hja.
    pose proof (Hb _ _ _ _ Hi Hj HP HQ). lia.
Qed.

Lemma staged_noP P k : forall segs n,
  staged n segs ->
  (k <= n)%nat ->
  (forall m x, (k <= m)%nat -> in_stage m x = true -> P x = false) ->
  forall x, In x (List.concat segs) -> P x = false.
Proof.
  induction segs as [| seg rest IH]; intros n Hs Hn HP x Hx; [destruct Hx | ].
  cbn [List.concat] in Hx. destruct Hs as [Hseg Hrest].
  apply in_app_or in Hx. destruct Hx as [Hx | Hx].
  - exact (HP n x Hn (Hseg x Hx)).
  - apply (IH (S n) Hrest); [lia | exact HP | exact Hx].
Qed.

Lemma staged_precedes P Q k : forall segs n,
  staged n segs ->
  (forall m x, (m < k)%nat -> in_stage m x = true -> Q x = false) ->
  (forall m x, (k <= m)%nat -> in_stage m x = true -> P x = false) ->
  precedes P Q (List.concat segs).
Proof.
  induction segs as [| seg rest IH]; intros n Hs HQ HP.
  - apply precedes_noP. intros x [].
  - destruct (Nat.lt_ge_cases n k) as [Hn | Hn].
    + cbn [List.concat]. destruct Hs as [Hseg Hrest].
      apply precedes_after.
      * intros x Hx. exact (HQ n x Hn (Hseg x Hx)).
      * exact (IH (S n) Hrest HQ HP).
    + apply precedes_noP.
      exact (staged_noP P k _ n Hs Hn HP).
Qed.

Lemma stage_bind src tgt a x :
  In x (doFuseBindMount_events src tgt a) -> in_stage 5 x = true.
Proof.
  unfold doFuseBindMount_events. intros H.
  apply in_app_or in H. destruct H as [[<- | []] | H]; [reflexivity | ].
  apply in_app_or in H. destruct H as [H | H].
  - destruct (b_present a); [destruct H | ].
    destruct H as [<- | []]. reflexivity.
  - destruct (b_present a || is_ok (b_prepare a)); [ | destruct H].
    destruct H as [<- | []]. reflexivity.
Qed.

Lemma stage_rollback v a x :
  In x (EvFdReset :: doUnmount_events v a) -> in_stage 6 x = true.
Proof.
  intros [<- | H]; [reflexivity | ].
  apply kinds_doUnmount_events in H.
  destruct x; cbn in H |- *; try reflexivity; intuition discriminate.
Qed.

Lemma fuse_shape v l a :
  exists s3 s4 s5 s6,
    doMount_fuse_events v l a = List.concat [s3; s4; s5; s6] /\
    staged 3 [s3; s4; s5; s6].
Proof.
  exists [EvMountUserFuse (mMountUserId v) (mInternalPath v) l (f_mount a)],
    (if f_mount a =? 0 then callback_events v else []),
    (if (f_mount a =? 0) && fuse_ready v
     then mountFuseBindMounts_events (set_mFuseMounted true v)
            (f_android a) (f_installer a)
     else []),
    (if rolled_back v a
     then EvFdReset :: doUnmount_events (set_mFuseMounted true v) (f_rollback a)
     else []).
  split.
  - unfold doMount_fuse_events, doMount_fuse_calls. cbn [List.concat].
    rewrite app_nil_r.
    destruct (f_mount a =? 0); cbn [andb app];
      rewrite <- ?app_assoc; reflexivity.
  - cbn [staged]. repeat split.
    + intros x [<- | []]. reflexivity.
    + intros x Hx. destruct (f_mount a =? 0); [ | destruct Hx].
      unfold callback_events in Hx.
      destruct (mMountCallback v); [ | destruct Hx].
      destruct Hx as [<- | []]. reflexivity.
    + intros x Hx.
      destruct ((f_mount a =? 0) && fuse_ready v); [ | destruct Hx].
      unfold mountFuseBindMounts_events in Hx.
      apply in_app_or in Hx. destruct Hx as [Hx | Hx].
      * exact (stage_bind _ _ _ _ Hx).
      * destruct ((doFuseBindMount_status (f_android a) =? OK)
                  && mUseSdcardFs (set_mFuseMounted true v));
          [ | destruct Hx].
        exact (stage_bind _ _ _ _ Hx).
    + intros x Hx. destruct (rolled_back v a); [ | destruct Hx].
      exact (stage_rollback _ _ _ Hx).
Qed.

Lemma stage_prepare v r1 r2 r3 r4 x :
  In x (prepare_events v r1 r2 r3 r4) -> in_stage 0 x = true.
Proof.
  unfold prepare_events.
  destruct (is_ok r1), (is_ok r2), (is_ok r3); cbn;
    intros H; repeat (destruct H as [<- | H]; [reflexivity | ]); destruct H.
Qed.

Lemma stage_prepared v d x : In x (prepared v d) -> in_stage 0 x = true.
Proof.
  unfold prepared. intros H. apply in_app_or in H.
  destruct H as [H | [<- | []]]; [ | reflexivity].
  exact (stage_prepare _ _ _ _ _ _ H).
Qed.

Lemma stage_spawn v pid start polls x :
  Forall (fun e => is_poll e = true) polls ->
  In x (spawn_events v pid start ++ polls)%list -> in_stage 1 x = true.
Proof.
  intros Hp H. apply in_app_or in H. destruct H as [H | H].
  - cbn in H. destruct H as [<- | [<- | [<- | []]]]; reflexivity.
  - rewrite Forall_forall in Hp. apply Hp in H.
    destruct x; try discriminate H; reflexivity.
Qed.

Lemma overlay_shape env v w d ov w2 :
  Overlay env v w d ov w2 ->
  exists s1 s2, ov = (s1 ++ s2)%list /\
                (forall x, In x s1 -> in_stage 1 x = true) /\
                (forall x, In x s2 -> in_stage 2 x = true).
Proof.
  intros [Hown | pid polls w2' Hown Hp Hdev Htr].
  - exists [], []. repeat split; intros x [].
  - exists (spawn_events v pid (clock w) ++ polls)%list, [EvWaitpid (Zpos pid)].
    split; [rewrite <- app_assoc; reflexivity | split].
    + intros x Hx. exact (stage_spawn _ _ _ _ _ Hp Hx).
    + intros x [<- | []]. reflexivity.
Qed.

(** Every run of doMount goes through its stages in order. *)
Lemma run_shape env s r s' evs :
  MountRun env s r s' evs ->
  exists segs, evs = List.concat segs /\ staged 0 segs.
Proof.
  intros Hrun.
  destruct Hrun as [r1 r2 r3 r4 e He | d e Hown
                   | d pid0 polls w' Hown Hd Hp Hms Hsl
                   | d ov w2 isFuse Hd Hov Hnf
                   | d ov w2 a Hd Hov Hvis Hlink].
  - eexists [_]. cbn [List.concat staged]. rewrite app_nil_r.
    split; [reflexivity | split; [ | exact I]].
    exact (stage_prepare _ _ _ _ _).
  - eexists [_; _]. cbn [List.concat staged]. rewrite app_nil_r.
    split; [reflexivity | split; [ | split; [ | exact I]]].
    + exact (stage_prepared _ _).
    + intros x [<- | []]. reflexivity.
  - eexists [_; _]. cbn [List.concat staged]. rewrite app_nil_r.
    split; [reflexivity | split; [ | split; [ | exact I]]].
    + exact (stage_prepared _ _).
    + intros x Hx. exact (stage_spawn _ _ _ _ _ Hp Hx).
  - destruct (overlay_shape _ _ _ _ _ _ Hov) as (s1 & s2 & -> & H1 & H2).
    exists [prepared (doMount_setup (vol s)) d; s1; s2].
    cbn [List.concat staged]. rewrite app_nil_r.
    split; [reflexivity | ].
    repeat split; [exact (stage_prepared _ _) | exact H1 | exact H2].
  - destruct (overlay_shape _ _ _ _ _ _ Hov) as (s1 & s2 & -> & H1 & H2).
    destruct (fuse_shape (doMount_setup (vol s)) (resolveLabel (vol s)) a)
      as (s3 & s4 & s5 & s6 & -> & H3 & H4 & H5 & H6 & _).
    exists [prepared (doMount_setup (vol s)) d; s1; s2; s3; s4; s5; s6].
    cbn [List.concat staged]. rewrite !app_nil_r, <- !app_assoc.
    split; [reflexivity | ].
    repeat split;
      [exact (stage_prepared _ _) | exact H1 | exact H2
      | exact H3 | exact H4 | exact H5 | exact H6].
Qed.

Ltac stage_check :=
  let m := fresh "m" in
  let x := fresh "x" in
  let Hm := fresh "Hm" in
  let H := fresh "H" in
  intros m x Hm H;
  do 7 (destruct m as [| m];
        [try lia; destruct x; cbn in H |- *;
         first [ reflexivity | discriminate H
               | apply Z.eqb_eq in H; subst; reflexivity ]
        | ]);
  destruct x; discriminate H.

(** X18. doMount goes through its stages in order. The mount points are
    prepared before sdcardfs is forked; the child is reaped after it was
    forked and before the bridge is asked for; the bridge is started before
    the callback is asked about it; a bind mount is only asked for after the
    callback has been heard; and the release of the handle and the calls of
    the rollback come after every bind mount and after the start of the
    bridge. *)
Theorem X18_doMount_order env fuel s :
  (101 <= fuel)%nat ->
  exists r s' evs,
    doMount env fuel s = Some (r, s') /\
    trace (world s') = (trace (world s) ++ evs)%list /\
    precedes is_view_prepare is_spawn evs /\
    precedes is_spawn is_reap evs /\
    precedes is_reap is_bridge_start evs /\
    precedes is_bridge_start is_callback evs /\
    precedes is_callback is_bind_mount evs /\
    precedes is_bind_mount is_rollback evs /\
    precedes is_bridge_start is_rollback evs.
Proof.
  intros Hfuel.
  destruct (doMount_runs env fuel s Hfuel) as (r & s' & evs & E & Ht & Hrun).
  exists r, s', evs. split; [exact E | split; [exact Ht | ]].
  destruct (run_shape _ _ _ _ _ Hrun) as (segs & -> & Hs).
  repeat split.
  - apply (staged_precedes _ _ 1 _ 0 Hs); stage_check.
  - apply (staged_precedes _ _ 2 _ 0 Hs); stage_check.
  - apply (staged_precedes _ _ 3 _ 0 Hs); stage_check.
  - apply (staged_precedes _ _ 4 _ 0 Hs); stage_check.
  - apply (staged_precedes _ _ 5 _ 0 Hs); stage_check.
  - apply (staged_precedes _ _ 6 _ 0 Hs); stage_check.
  - apply (staged_precedes _ _ 4 _ 0 Hs); stage_check.
Qed.

(** X19. doMount sleeps only while it waits for a child it has forked, and
    always for 50 ms. It gets past the wait - reaps the child - only when
    the device of the full view has been seen to differ from the one
    recorded before the fork: no environment in which that device never
    changes lets doMount reap. *)
Theorem X19_doMount_wait env fuel s :
  (101 <= fuel)%nat ->
  exists r s' evs,
    doMount env fuel s = Some (r, s') /\
    trace (world s') = (trace (world s) ++ evs)%list /\
    (forall us, In (EvUsleep us) evs ->
                us = 50000 /\ exists p, In (EvFork (Ok p)) evs) /\
    (forall pid,
       In (EvWaitpid pid) evs ->
       exists w0 w1,
         env_GetDevice env w0 ("/mnt/runtime/full/" ++ resolveLabel (vol s))
         <> env_GetDevice env w1
              ("/mnt/runtime/full/" ++ resolveLabel (vol s))).
Proof.
  intros Hfuel.
  destruct (doMount_runs env fuel s Hfuel) as (r & s' & evs & E & Ht & Hrun).
  exists r, s', evs. split; [exact E | split; [exact Ht | ]].
  assert (Hov_cases : forall d ov w2 rest,
             (exists w0, d = env_GetDevice env w0
                               (mSdcardFsFull (doMount_setup (vol s)))) ->
             Overlay env (doMount_setup (vol s))
               (after (prepared (doMount_setup (vol s)) d) (world s)) d ov w2 ->
             (forall x, In x rest -> In (kind x) fuse_kinds) ->
             (forall us,
                In (EvUsleep us)
                   (prepared (doMount_setup (vol s)) d ++ ov ++ rest)%list ->
                us = 50000 /\
                exists p,
                  In (EvFork (Ok p))
                     (prepared (doMount_setup (vol s)) d ++ ov ++ rest)%list) /\
             (forall pid,
                In (EvWaitpid pid)
                   (prepared (doMount_setup (vol s)) d ++ ov ++ rest)%list ->
                exists w0 w1,
                  env_GetDevice env w0
                    ("/mnt/runtime/full/" ++ resolveLabel (vol s))
                  <> env_GetDevice env w1
                       ("/mnt/runtime/full/" ++ resolveLabel (vol s)))).
  { intros d ov w2 rest Hd Hov Hrest.
    assert (Hrest' : forall x, In x rest ->
               kind x <> KUsleep /\ kind x <> KWaitpid).
    { intros x Hx. apply Hrest in Hx.
      destruct x; cbn in Hx |- *; split; try discriminate;
        intuition discriminate. }
    destruct Hov as [Hown | pid0 polls w2 Hown Hp Hdev Htr].
    - split.
      + intros us Hin. exfalso. in_cases Hin.
        * not_in_prepared Hin.
        * destruct Hin.
        * apply (proj1 (Hrest' _ Hin)). reflexivity.
      + intros pid Hin. exfalso. in_cases Hin.
        * not_in_prepared Hin.
        * destruct Hin.
        * apply (proj2 (Hrest' _ Hin)). reflexivity.
    - split.
      + intros us Hin. split.
        * in_cases Hin.
          -- not_in_prepared Hin.
          -- no_kind Hin.
          -- rewrite Forall_forall in Hp. apply Hp in Hin.
             apply Z.eqb_eq in Hin. exact Hin.
          -- destruct Hin as [Hin | []]. discriminate Hin.
          -- exfalso. apply (proj1 (Hrest' _ Hin)). reflexivity.
        * exists pid0. apply in_or_app. right. apply in_or_app. left.
          left. reflexivity.
      + intros _ _. destruct Hd as (w0 & ->). destruct Hdev as (w1 & Hdev).
        exists w1, w0. exact Hdev. }
  destruct Hrun as [r1 r2 r3 r4 e He | d e Hown
                   | d pid0 polls w' Hown Hd Hp Hms Hsl
                   | d ov w2 isFuse Hd Hov Hnf
                   | d ov w2 a Hd Hov Hvis Hlink].
  - split.
    + intros us Hin. exfalso. apply kinds_prepare_events in Hin.
      discriminate Hin.
    + intros pid Hin. exfalso. apply kinds_prepare_events in Hin.
      discriminate Hin.
  - split.
    + intros us Hin. exfalso. in_cases Hin; [not_in_prepared Hin | ].
      destruct Hin as [Hin | []]. discriminate Hin.
    + intros pid Hin. exfalso. in_cases Hin; [not_in_prepared Hin | ].
      destruct Hin as [Hin | []]. discriminate Hin.
  - split.
    + intros us Hin. split.
      * in_cases Hin.
        -- not_in_prepared Hin.
        -- no_kind Hin.
        -- rewrite Forall_forall in Hp. apply Hp in Hin.
           apply Z.eqb_eq in Hin. exact Hin.
      * exists pid0. apply in_or_app. right. apply in_or_app. left.
        left. reflexivity.
    + intros pid Hin. exfalso. in_cases Hin.
      * not_in_prepared Hin.
      * no_kind Hin.
      * not_in_polls Hp Hin.
  - destruct (Hov_cases d ov w2 [] Hd Hov) as (H1 & H2); [intros x [] | ].
    rewrite app_nil_r in *. split; assumption.
  - exact (Hov_cases d ov w2 _ Hd Hov (kinds_doMount_fuse_events _ _ _)).
Qed.

(** ** The properties at the scenarios *)

(** X4 where the read view cannot be created: -EACCES after two calls. *)
Lemma X4_witness :
  (101 <= 101)%nat /\
  (exists r s' evs,
     doMount env_no_dir 101 scenario_A = Some (r, s') /\
     trace (world s') = (trace (world scenario_A) ++ evs)%list) /\
  (exists s', doMount env_no_dir 101 scenario_A = Some (-13, s') /\
              nth_error (trace (world s')) 1
              = Some (EvPrepareDir "/mnt/runtime/read/emulated" 448 0 0
                        (Err 13%positive)) /\
              List.length (trace (world s')) = 2%nat).
Proof.
  split; [apply le_n | split].
  - destruct (X4_doMount_prepare_failure env_no_dir 101 scenario_A (le_n _))
      as (r & s' & evs & E & Ht & _).
    exists r, s', evs. auto.
  - vm_compute. eexists. split; [reflexivity | split; reflexivity].
Defined.

(** X5 where nothing can be forked: -EAGAIN, the fork is the last call. *)
Lemma X5_witness :
  (101 <= 101)%nat /\
  (exists r s' evs,
     doMount env_no_fork 101 scenario_C = Some (r, s') /\
     trace (world s') = (trace (world scenario_C) ++ evs)%list) /\
  (exists s', doMount env_no_fork 101 scenario_C = Some (-11, s') /\
              last (trace (world s')) EvFdReset = EvFork (Err 11%positive)).
Proof.
  split; [apply le_n | split].
  - destruct (X5_doMount_fork_failure env_no_fork 101 scenario_C (le_n _))
      as (r & s' & evs & E & Ht & _).
    exists r, s', evs. auto.
  - vm_compute. eexists. split; reflexivity.
Defined.

(** X6 where the bridge cannot be started: MountUserFuse answers -12 and
    doMount returns 12. *)
Lemma X6_witness :
  (101 <= 101)%nat /\
  (exists r s' evs,
     doMount env_no_bridge 101 scenario_A = Some (r, s') /\
     trace (world s') = (trace (world scenario_A) ++ evs)%list) /\
  (exists s', doMount env_no_bridge 101 scenario_A = Some (12, s') /\
              last (trace (world s')) EvFdReset
              = EvMountUserFuse 5 "/data/media" "emulated" (-12) /\
              mFuseMounted (vol s') = false).
Proof.
  split; [apply le_n | split].
  - destruct (X6_doMount_bridge_start_failure env_no_bridge 101 scenario_A
                (le_n _)) as (r & s' & evs & E & Ht & _).
    exists r, s', evs. auto.
  - vm_compute. eexists. split; [reflexivity | split; reflexivity].
Defined.

(** X7 where the bind mount is refused: doMount returns the -1 of the bind
    mount and has rolled back. *)
Lemma X7_witness :
  (101 <= 101)%nat /\
  (exists r s' evs,
     doMount env_bind_fails 101 scenario_A = Some (r, s') /\
     trace (world s') = (trace (world scenario_A) ++ evs)%list) /\
  (exists s', doMount env_bind_fails 101 scenario_A = Some (-1, s') /\
              In (EvMountUserFuse 5 "/data/media" "emulated" 0)
                 (trace (world s')) /\
              In EvFdReset (trace (world s')) /\
              mFuseMounted (vol s') = false /\ mounts (world s') = []).
Proof.
  split; [apply le_n | split].
  - destruct (X7_doMount_rolls_back_after_bridge env_bind_fails 101 scenario_A
                (le_n _)) as (r & s' & evs & E & Ht & _).
    exists r, s', evs. auto.
  - vm_compute. eexists. split; [reflexivity | ].
    split; [do 5 right; left; reflexivity | ].
    split; [do 8 right; left; reflexivity | ].
    split; reflexivity.
Defined.

(** X8 at scenario A: OK, the bridge and the primary bind mount are up. *)
Lemma X8_witness :
  (101 <= 101)%nat /\
  (exists r s' evs,
     doMount env_ok 101 scenario_A = Some (r, s') /\
     trace (world s') = (trace (world scenario_A) ++ evs)%list) /\
  doMount env_ok 101 scenario_A = Some (OK, scenario_A_mounted) /\
  mFuseMounted (vol scenario_A_mounted) = true /\
  mounts (world scenario_A_mounted)
  = [BridgeEntry 5 "/data/media" "emulated";
     BindEntry "//data/media/5/Android" "/mnt/user/5/emulated/5/Android"].
Proof.
  split; [apply le_n | split].
  - destruct (X8_doMount_success env_ok 101 scenario_A (le_n _))
      as (r & s' & evs & E & Ht & _).
    exists r, s', evs. auto.
  - split; [vm_compute; reflexivity | split; reflexivity].
Defined.

(** X9 at a volume that is not visible: the overlay is mounted, the bridge
    is not asked for. *)
Lemma X9_witness :
  (101 <= 101)%nat /\
  isVisible (vol scenario_hidden) = false /\
  (exists r s' evs,
     doMount env_ok 101 scenario_hidden = Some (r, s') /\
     trace (world s') = (trace (world scenario_hidden) ++ evs)%list) /\
  (exists s', doMount env_ok 101 scenario_hidden = Some (OK, s') /\
              mFuseMounted (vol s') = false /\
              last (trace (world s')) EvFdReset = EvWaitpid 77).
Proof.
  split; [apply le_n | split; [reflexivity | split]].
  - destruct (X9_doMount_bridge_applicable env_ok 101 scenario_hidden (le_n _))
      as (r & s' & evs & E & Ht & _).
    exists r, s', evs. auto.
  - vm_compute. eexists. split; [reflexivity | split; reflexivity].
Defined.


(** X11 at scenario C, whose mount fails and is rolled back: the paths are
    set all the same. *)
Lemma X11_witness :
  (101 <= 101)%nat /\
  (exists r s', doMount env_ok 101 scenario_C = Some (r, s')) /\
  mPath (vol scenario_C_failed) = "/storage/emulated" /\
  mInternalPath (vol scenario_C_failed) = "/data/media".
Proof.
  split; [apply le_n | split].
  - destruct (X11_doMount_sets_paths env_ok 101 scenario_C (le_n _))
      as (r & s' & E & _).
    exists r, s'. exact E.
  - split; reflexivity.
Defined.

(** X14 at scenario A, unmounted in an environment where the bind mount is
    busy: its target is asked for all the same. *)
Lemma X14_witness :
  (101 <= 101)%nat /\
  (exists r sm evs,
     doMount env_ok 101 scenario_A = Some (r, sm) /\
     trace (world sm) = (trace (world scenario_A) ++ evs)%list) /\
  (exists su, doUnmount env_busy scenario_A_mounted = Some (OK, su) /\
              In (EvUnmountTree "/mnt/user/5/emulated/5/Android" (-16))
                 (trace (world su)) /\
              In (EvUnmountUserFuse 5 "/data/media" "emulated" (Ok tt))
                 (trace (world su))).
Proof.
  split; [apply le_n | split].
  - destruct (X14_doUnmount_matches_doMount env_ok env_busy 101 scenario_A
                (le_n _)) as (r & sm & evs & E & Ht & _).
    exists r, sm, evs. auto.
  - vm_compute. eexists. split; [reflexivity | ].
    split; [do 9 right; left; reflexivity | do 10 right; left; reflexivity].
Defined.

(** X15 at scenario A: mounted and unmounted, the mount table is empty
    again. *)
Lemma X15_witness :
  (101 <= 101)%nat /\
  mUseSdcardFs (vol scenario_A) && (mMountUserId (vol scenario_A) =? 0)
  = false /\
  nothing_at (androidTarget (vol scenario_A)) (mounts (world scenario_A)) /\
  nothing_at (installerTarget (vol scenario_A)) (mounts (world scenario_A)) /\
  (exists r sm, doMount env_ok 101 scenario_A = Some (r, sm)) /\
  doMount env_ok 101 scenario_A = Some (OK, scenario_A_mounted) /\
  doUnmount env_ok scenario_A_mounted = Some (OK, scenario_A_unmounted) /\
  mounts (world scenario_A_unmounted) = mounts (world scenario_A).
Proof.
  assert (Hn : forall p, nothing_at p (mounts (world scenario_A)))
    by (intros p e []).
  split; [apply le_n | split; [reflexivity | ]].
  split; [apply Hn | split; [apply Hn | split]].
  - destruct (X15_mount_unmount_round_trip env_ok env_ok 101 scenario_A
                (le_n _) eq_refl (Hn _) (Hn _))
      as (r & sm & E & _); [intros e [] | ].
    exists r, sm. exact E.
  - split; [vm_compute; reflexivity | ].
    split; [vm_compute; reflexivity | reflexivity].
Defined.

(** X17 for user 5 against a volume of user 0. *)
Lemma X17_witness :
  mMountUserId (vol scenario_C) <> mMountUserId (vol scenario_A) /\
  (exists r s1, mountFuseBindMounts env_ok scenario_A = Some (r, s1)) /\
  androidTarget (vol scenario_A) = "/mnt/user/5/emulated/5/Android" /\
  androidTarget (vol scenario_C) = "/mnt/user/0/emulated/0/Android".
Proof.
  assert (Hu : mMountUserId (vol scenario_C) <> mMountUserId (vol scenario_A))
    by (cbn; lia).
  split; [exact Hu | split].
  - destruct (X17_targets_per_user env_ok scenario_A (vol scenario_C) Hu)
      as ((r & s1 & evs & E & _) & _).
    exists r, s1. exact E.
  - split; reflexivity.
Defined.

(** X18 at scenario C. *)
Lemma X18_witness :
  (101 <= 101)%nat /\
  (exists r s' evs,
     doMount env_ok 101 scenario_C = Some (r, s') /\
     trace (world s') = (trace (world scenario_C) ++ evs)%list /\
     precedes is_reap is_bridge_start evs) /\
  doMount env_ok 101 scenario_C = Some (- EIO, scenario_C_failed).
Proof.
  split; [apply le_n | split].
  - destruct (X18_doMount_order env_ok 101 scenario_C (le_n _))
      as (r & s' & evs & E & Ht & _ & _ & H & _).
    exists r, s', evs. auto.
  - vm_compute. reflexivity.
Defined.

(** X19 at scenario C: two sleeps of 50 ms, then the device is 64, no longer
    8, and the child is reaped. *)
Lemma X19_witness :
  (101 <= 101)%nat /\
  (exists r s' evs,
     doMount env_ok 101 scenario_C = Some (r, s') /\
     trace (world s') = (trace (world scenario_C) ++ evs)%list) /\
  In (EvGetDevice "/mnt/runtime/full/emulated" 8)
     (trace (world scenario_C_failed)) /\
  In (EvGetDevice "/mnt/runtime/full/emulated" 64)
     (trace (world scenario_C_failed)) /\
  In (EvWaitpid 77) (trace (world scenario_C_failed)).
Proof.
  split; [apply le_n | split].
  - destruct (X19_doMount_wait env_ok 101 scenario_C (le_n _))
      as (r & s' & evs & E & Ht & _).
    exists r, s', evs. auto.
  - split; [do 4 right; left; reflexivity | ].
    split; [do 14 right; left; reflexivity | do 15 right; left; reflexivity].
Defined.
